(** * fshost block watcher (system/core/devmgr/block-watcher.cpp)

    A shallow embedding of the device-arrival handler of the Zircon device
    manager, of the mount orchestration it drives and of the minimal
    name->blob resolver used to start pkgfs, with the properties of the
    design document checked against it.

    Every external collaborator (mount, fsck, the process launcher, the
    installer callback, the ioctls) is an explicit answer of the [world]
    of one handler invocation; every call made to one of them is written
    to a trace, in program order. *)

From Stdlib Require Import ZArith List String Ascii Bool Lia.
From Stdlib.Strings Require Import Byte.
Import ListNotations.
Open Scope string_scope.
Open Scope Z_scope.
Open Scope list_scope.

(* ===================================================================== *)
(** ** Status codes and C library helpers *)
(* ===================================================================== *)

(** [zx_status_t]: the codes this file names, and the ones its callees
    commonly answer with.  Distinct enumerators are distinct codes. *)
Inductive zx_status_t : Type :=
| ZX_OK
| ZX_ERR_INTERNAL
| ZX_ERR_NOT_SUPPORTED
| ZX_ERR_NO_RESOURCES
| ZX_ERR_NO_MEMORY
| ZX_ERR_INVALID_ARGS
| ZX_ERR_BAD_STATE
| ZX_ERR_TIMED_OUT
| ZX_ERR_NOT_FOUND
| ZX_ERR_ALREADY_BOUND
| ZX_ERR_IO
| ZX_ERR_BAD_PATH.

(** [status == ZX_OK] *)
Definition is_ok (s : zx_status_t) : bool :=
  match s with ZX_OK => true | _ => false end.

(** The process environment holding the boot configuration, in [environ]
    order; [getenv] answers with the first entry of the name. *)
Definition environ := list (string * string).

Fixpoint getenv (env : environ) (key : string) : option string :=
  match env with
  | [] => None
  | (k, v) :: rest => if String.eqb k key then Some v else getenv rest key
  end.

(** [snprintf(buf, size, fmt, ...)] on the already formatted text [s]: the
    buffer keeps at most [size - 1] characters, the result is the length
    the whole text needs. *)
Definition snprintf (size : Z) (s : string) : string * Z :=
  (substring 0 (Z.to_nat (size - 1)) s, Z.of_nat (String.length s)).

(** [memcmp(a, b, n)]: zero exactly when the first [n] bytes agree,
    otherwise the difference of the first pair that differs.  (Both
    arrays hold at least [n] bytes at every call site.) *)
Fixpoint memcmp (a b : list byte) (n : nat) : Z :=
  match n with
  | O => 0
  | S n' =>
    match a, b with
    | x :: a', y :: b' =>
      if Byte.eqb x y then memcmp a' b' n'
      else Z.of_N (Byte.to_N x) - Z.of_N (Byte.to_N y)
    | _, _ => 0
    end
  end.

(** [name + 1]: the string past its first character.  An empty name has
    no character to step over: the pointer is then past the terminator,
    and what is read there is not defined. *)
Definition str_tail (s : string) : option string :=
  match s with
  | EmptyString => None
  | String _ rest => Some rest
  end.

(* ===================================================================== *)
(** ** The pkgfs loader service: name -> blob resolution *)
(* ===================================================================== *)

Module Ldsvc.

(** A file of the blob volume as the resolver sees it: its content, and
    what [fdio_get_vmo_clone] answers for it. *)
Record blob_file : Type := {
  file_content : list byte;
  file_vmo_clone : zx_status_t
}.

(** The directory behind [fs_blob_fd]: [openat(fs_blob_fd, blob, O_RDONLY)]
    fails ([fd < 0]) exactly on [None]. *)
Definition blob_dir := string -> option blob_file.

(** The VMO handed back through [*vmo]. *)
Record vmo : Type := {
  vmo_content : list byte;
  vmo_name : string            (* ZX_PROP_NAME as passed *)
}.

(** The calls the resolver makes, in order. *)
Inductive io : Type :=
| io_getenv (key : string)
| io_openat (blob : string)
| io_get_vmo_clone (blob : string)
| io_close (blob : string)
| io_set_property_name (key : string).

Definition key_size : Z := 256.   (* char key[256] *)

Definition key_prefix : string := "zircon.system.pkgfs.file.".

Definition pkgfs_ldsvc_load_blob (env : environ) (ctx : blob_dir)
           (prefix name : string) : zx_status_t * option vmo * list io :=
  let '(key, n) := snprintf key_size (key_prefix ++ prefix ++ name)%string in
  if key_size <=? n then (ZX_ERR_BAD_PATH, None, [])
  else
    match getenv env key with
    | None => (ZX_ERR_NOT_FOUND, None, [io_getenv key])
    | Some blob =>
      match ctx blob with
      | None => (ZX_ERR_NOT_FOUND, None, [io_getenv key; io_openat blob])
      | Some f =>
        let status := file_vmo_clone f in
        if is_ok status then
          (status,
           Some {| vmo_content := file_content f; vmo_name := key |},
           [io_getenv key; io_openat blob; io_get_vmo_clone blob;
            io_close blob; io_set_property_name key])
        else
          (status, None,
           [io_getenv key; io_openat blob; io_get_vmo_clone blob;
            io_close blob])
      end
    end.

Definition pkgfs_ldsvc_load_object (env : environ) (ctx : blob_dir)
           (name : string) :=
  pkgfs_ldsvc_load_blob env ctx "lib/" name.

Definition pkgfs_ldsvc_load_abspath (env : environ) (ctx : blob_dir)
           (name : string) :=
  match str_tail name with
  | Some rest => Some (pkgfs_ldsvc_load_blob env ctx "" rest)
  | None => None
  end.

Definition pkgfs_ldsvc_publish_data_sink (name : string) : zx_status_t :=
  ZX_ERR_NOT_SUPPORTED.

Definition status_of (r : zx_status_t * option vmo * list io) : zx_status_t :=
  fst (fst r).
Definition vmo_of (r : zx_status_t * option vmo * list io) : option vmo :=
  snd (fst r).
Definition io_of (r : zx_status_t * option vmo * list io) : list io :=
  snd r.

(** The blobs a trace opened. *)
Fixpoint opened (t : list io) : list string :=
  match t with
  | [] => []
  | io_openat b :: t' => b :: opened t'
  | _ :: t' => opened t'
  end.

(** The boot-configuration keys a trace looked up. *)
Fixpoint consulted (t : list io) : list string :=
  match t with
  | [] => []
  | io_getenv k :: t' => k :: consulted t'
  | _ :: t' => consulted t'
  end.

End Ldsvc.

(* ===================================================================== *)
(** ** Types of the device-arrival handler *)
(* ===================================================================== *)

(** [disk_format_t], as [detect_disk_format] answers. *)
Inductive disk_format_t : Type :=
| DISK_FORMAT_UNKNOWN
| DISK_FORMAT_GPT
| DISK_FORMAT_MBR
| DISK_FORMAT_MINFS
| DISK_FORMAT_FAT
| DISK_FORMAT_BLOBFS
| DISK_FORMAT_FVM
| DISK_FORMAT_ZXCRYPT.

(** [mount_options_t], the fields this file writes. *)
Record mount_options_t : Type := {
  readonly : bool;
  wait_until_ready : bool;
  create_mountpoint : bool
}.

Definition set_readonly (b : bool) (o : mount_options_t) : mount_options_t :=
  {| readonly := b;
     wait_until_ready := wait_until_ready o;
     create_mountpoint := create_mountpoint o |}.

Definition set_wait_until_ready (b : bool) (o : mount_options_t)
  : mount_options_t :=
  {| readonly := readonly o;
     wait_until_ready := b;
     create_mountpoint := create_mountpoint o |}.

Definition set_create_mountpoint (b : bool) (o : mount_options_t)
  : mount_options_t :=
  {| readonly := readonly o;
     wait_until_ready := wait_until_ready o;
     create_mountpoint := b |}.

(** The launch callbacks handed to [mount]. *)
Inductive launcher : Type := launch_blobfs | launch_minfs | launch_fat.

(** Events of the directory watcher. *)
Inductive watch_event : Type :=
| WATCH_EVENT_ADD_FILE
| WATCH_EVENT_REMOVE_FILE
| WATCH_EVENT_IDLE.

Definition is_add_file (e : watch_event) : bool :=
  match e with WATCH_EVENT_ADD_FILE => true | _ => false end.

(** The descriptors the handler owns. *)
Inductive handle : Type :=
| dev_fd           (* the device opened by [block_device_added] *)
| fs_blob_fd.      (* "/fs/blob", opened by [pkgfs_launch] *)

(** Every call to an external collaborator, with the arguments that
    matter.  [c_mount] consumes its descriptor. *)
Inductive call : Type :=
| c_openat (name : string)
| c_ioctl_device_bind (lib : string)
| c_close (h : handle)
| c_mount (path : string) (df : disk_format_t) (options : mount_options_t)
          (cb : launcher)
| c_fuchsia_start
| c_devmgr_launch (name : string) (argv : list string)
| c_devmgr_launch_cmdline (name : string) (cmd : string)
| c_wait_one (signals : Z) (deadline_sec : option Z)   (* None: infinite *)
| c_get_info
| c_channel_create
| c_open (path : string)
| c_fdio_open_at (path : string)
| c_installer (path : string).

(** [ioctl_block_get_type_guid]: the 16 bytes, or a negative status. *)
Inductive guid_reply : Type :=
| guid_ok (g : list byte)
| guid_err (e : positive).      (* the ioctl returns [Z.neg e] *)

(** What the collaborators answer during one invocation of the handler. *)
Record world : Type := {
  w_openat : bool;                   (* openat(dirfd, name, O_RDWR) >= 0 *)
  w_block_info : option Z;           (* ioctl_block_get_info: info.flags *)
  w_format : disk_format_t;          (* detect_disk_format(fd) *)
  w_type_guid : guid_reply;          (* ioctl_block_get_type_guid *)
  w_stack_guid : list byte;          (* an uninitialised guid buffer *)
  w_secondary_bootfs_ready : bool;   (* secondary_bootfs_ready() *)
  w_mount : zx_status_t;             (* mount(...) *)
  w_fsck_launch : zx_status_t;       (* devmgr_launch(job, "fsck", ...) *)
  w_fsck_wait : zx_status_t;         (* proc.wait_one(TERMINATED, inf) *)
  w_fsck_get_info : zx_status_t;     (* proc.get_info(ZX_INFO_PROCESS) *)
  w_fsck_return_code : Z;            (* info.return_code *)
  w_open_fs_blob : bool;             (* open("/fs/blob") >= 0 *)
  w_channel_pkgfs : zx_status_t;     (* channel::create in pkgfs_launch *)
  w_launch_cmdline : zx_status_t;    (* devmgr_launch_cmdline *)
  w_channel_old : zx_status_t;       (* channel::create in old_launch_blob_init *)
  w_launch_old : zx_status_t;        (* devmgr_launch in old_launch_blob_init *)
  w_wait_one : zx_status_t;          (* proc.wait_one in pkgfs_finish *)
  w_observed : Z;                    (* the signals it observed *)
  w_installer : string -> zx_status_t;  (* g_installer(path, handle) *)
  w_channel_finish : zx_status_t;    (* channel::create in pkgfs_finish *)
  w_fdio_open_at : zx_status_t       (* fdio_open_at(root, "system", ...) *)
}.

(** The file-scope statics: the three latches and the FAT counter. *)
Record statics : Type := {
  data_mounted : bool;
  install_mounted : bool;
  blob_mounted : bool;
  fat_counter : Z
}.

Definition statics_init : statics :=
  {| data_mounted := false; install_mounted := false;
     blob_mounted := false; fat_counter := 0 |}.

Definition set_data_mounted (b : bool) (s : statics) : statics :=
  {| data_mounted := b; install_mounted := install_mounted s;
     blob_mounted := blob_mounted s; fat_counter := fat_counter s |}.

Definition set_install_mounted (b : bool) (s : statics) : statics :=
  {| data_mounted := data_mounted s; install_mounted := b;
     blob_mounted := blob_mounted s; fat_counter := fat_counter s |}.

Definition set_blob_mounted (b : bool) (s : statics) : statics :=
  {| data_mounted := data_mounted s; install_mounted := install_mounted s;
     blob_mounted := b; fat_counter := fat_counter s |}.

Definition set_fat_counter (c : Z) (s : statics) : statics :=
  {| data_mounted := data_mounted s; install_mounted := install_mounted s;
     blob_mounted := blob_mounted s; fat_counter := c |}.

(** What [block_device_watcher] stores before it starts watching, and the
    boot configuration. *)
Record config : Type := {
  netboot : bool;
  boot_env : environ
}.

(** The constants, tables and helpers of headers and libraries that this
    file includes: devmgr.h and memfs-private.h (paths, [getenv_bool]),
    gpt/gpt.h (type GUIDs and their classifiers), zircon/device/block.h,
    zircon/syscalls (signals), fs-management/mount.h, lib/fdio/limits.h. *)
Class Headers : Type := {
  PATH_DEV_BLOCK : string;
  PATH_SYSTEM : string;
  PATH_DATA : string;
  PATH_INSTALL : string;
  PATH_BLOB : string;
  PATH_VOLUME : string;
  FDIO_MAX_FILENAME : Z;
  GPT_GUID_LEN : Z;
  GUID_EMPTY_VALUE : list byte;
  GUID_INSTALL_VALUE : list byte;
  GUID_BLOB_VALUE : list byte;
  gpt_is_sys_guid : list byte -> Z -> bool;
  gpt_is_data_guid : list byte -> Z -> bool;
  gpt_is_install_guid : list byte -> Z -> bool;
  gpt_is_efi_guid : list byte -> Z -> bool;
  BLOCK_FLAG_REMOVABLE : Z;
  BLOCK_FLAG_BOOTPART : Z;
  ZX_USER_SIGNAL_0 : Z;
  ZX_PROCESS_TERMINATED : Z;
  default_mount_options : mount_options_t;
  getenv_bool : environ -> string -> bool -> bool
}.

(* ===================================================================== *)
(** ** The monad of the handler: statics threaded, calls traced *)
(* ===================================================================== *)

Definition M (A : Type) : Type := statics -> A * statics * list call.

Definition ret {A : Type} (a : A) : M A := fun s => (a, s, []).

Definition bind {A B : Type} (m : M A) (k : A -> M B) : M B :=
  fun s =>
    let '(a, s1, t1) := m s in
    let '(b, s2, t2) := k a s1 in
    (b, s2, t1 ++ t2).

Definition get : M statics := fun s => (s, s, []).

Definition modify (f : statics -> statics) : M unit :=
  fun s => (tt, f s, []).

(** An external call answering [a]. *)
Definition ext {A : Type} (c : call) (a : A) : M A := fun s => (a, s, [c]).

Declare Scope fshost_scope.
Delimit Scope fshost_scope with fshost.
Notation "x <- m ;; k" := (bind m (fun x => k))
  (at level 61, m at next level, right associativity) : fshost_scope.
Notation "m ;; k" := (bind m (fun _ => k))
  (at level 61, right associativity) : fshost_scope.
Open Scope fshost_scope.

Definition result_of {A : Type} (r : A * statics * list call) : A :=
  fst (fst r).
Definition statics_of {A : Type} (r : A * statics * list call) : statics :=
  snd (fst r).
Definition trace_of {A : Type} (r : A * statics * list call) : list call :=
  snd r.

(* ===================================================================== *)
(** ** The functions of block-watcher.cpp *)
(* ===================================================================== *)

Definition FVM_DRIVER_LIB : string := "/boot/driver/fvm.so".
Definition GPT_DRIVER_LIB : string := "/boot/driver/gpt.so".
Definition MBR_DRIVER_LIB : string := "/boot/driver/mbr.so".
Definition BOOTPART_DRIVER_LIB : string := "/boot/driver/bootpart.so".
Definition ZXCRYPT_DRIVER_LIB : string := "/boot/driver/zxcrypt.so".

(** [static int fat_counter]: a 32-bit [int].  (Past [INT_MAX] the
    increment is undefined in C++; the machines this runs on wrap.) *)
Definition int_wrap (x : Z) : Z := (x + 2 ^ 31) mod 2 ^ 32 - 2 ^ 31.

(** ["%d"] of an [int]: the decimal digits of [n >= 0], most significant
    first, put in front of [acc]; an [int] has at most ten of them. *)
Definition digit_char (d : Z) : ascii := ascii_of_nat (48 + Z.to_nat d).

Fixpoint fmt_u (fuel : nat) (n : Z) (acc : string) : string :=
  match fuel with
  | O => acc
  | S fuel' =>
    let acc' := String (digit_char (n mod 10)) acc in
    if n / 10 =? 0 then acc' else fmt_u fuel' (n / 10) acc'
  end.

Definition fmt_d (x : Z) : string :=
  if x <? 0 then String "-"%char (fmt_u 10 (- x) "") else fmt_u 10 x "".

(** [strcmp(volume, s) == 0] under [volume != nullptr]. *)
Definition getenv_is (env : environ) (key s : string) : bool :=
  match getenv env key with
  | Some v => String.eqb v s
  | None => false
  end.

Definition is_set (v : option string) : bool :=
  match v with Some _ => true | None => false end.

Section Fshost.

Context {hdr : Headers}.
Variable cfg : config.

Section Invocation.

Variable w : world.

Definition pkgfs_finish : M unit :=
  status <- ext (c_wait_one (Z.lor ZX_USER_SIGNAL_0 ZX_PROCESS_TERMINATED)
                            (Some 5))
                (w_wait_one w) ;;
  if negb (is_ok status) then ret tt
  else if Z.land (w_observed w) ZX_USER_SIGNAL_0 =? 0 then ret tt
  else
    st <- ext (c_installer "/pkgfs") (w_installer w "/pkgfs") ;;
    if negb (is_ok st) then ret tt
    else
      (* re-export /pkgfs/system as /system *)
      st <- ext c_channel_create (w_channel_finish w) ;;
      if negb (is_ok st) then ret tt
      else
        st <- ext (c_fdio_open_at "system") (w_fdio_open_at w) ;;
        if negb (is_ok st) then ret tt
        else
          st <- ext (c_installer "/system") (w_installer w "/system") ;;
          if negb (is_ok st) then ret tt
          else
            (* start the appmgr *)
            ext c_fuchsia_start tt.

Definition old_launch_blob_init : M unit :=
  match getenv (boot_env cfg) "zircon.system.blob-init" with
  | None => ret tt
  | Some blob_init =>
    if w_secondary_bootfs_ready w then ret tt
    else
      st <- ext c_channel_create (w_channel_old w) ;;
      if negb (is_ok st) then ret tt
      else
        let binary := ("/fs" ++ blob_init)%string in
        let argv :=
          match getenv (boot_env cfg) "zircon.system.blob-init-arg" with
          | Some blob_init_arg => [binary; blob_init_arg]
          | None => [binary]
          end in
        status <- ext (c_devmgr_launch "pkgfs" argv) (w_launch_old w) ;;
        if negb (is_ok status) then ret tt
        else pkgfs_finish
  end.

Definition pkgfs_launch : M bool :=
  match getenv (boot_env cfg) "zircon.system.pkgfs.cmd" with
  | None => ret false
  | Some cmd =>
    opened <- ext (c_open "/fs/blob") (w_open_fs_blob w) ;;
    if negb opened then ret false
    else
      status <- ext c_channel_create (w_channel_pkgfs w) ;;
      if negb (is_ok status) then
        ext (c_close fs_blob_fd) tt ;; ret false
      else
        status <- ext (c_devmgr_launch_cmdline "pkgfs" cmd)
                      (w_launch_cmdline w) ;;
        if negb (is_ok status) then ret false
        else pkgfs_finish ;; ret true
  end.

Definition launch_blob_init : M unit :=
  launched <- pkgfs_launch ;;
  if negb launched then old_launch_blob_init else ret tt.

(** The lambda [launch_fsck] of [fshost_fsck]. *)
Definition launch_fsck (argv : list string) : M zx_status_t :=
  status <- ext (c_devmgr_launch "fsck" argv) (w_fsck_launch w) ;;
  if negb (is_ok status) then ret status
  else
    status <- ext (c_wait_one ZX_PROCESS_TERMINATED None) (w_fsck_wait w) ;;
    if negb (is_ok status) then ret status
    else
      status <- ext c_get_info (w_fsck_get_info w) ;;
      if negb (is_ok status) then ret status
      else if negb (w_fsck_return_code w =? 0) then ret ZX_ERR_BAD_STATE
      else ret ZX_OK.

(** Modelled from the spec: [fsck] of fs-management (not under src/),
    which "launches the checker as a child process" through the callback
    it is given and answers with the callback's status; of the argument
    vector it builds only the device path is kept. *)
Definition fsck (device_path : string) (df : disk_format_t)
           (cb : list string -> M zx_status_t) : M zx_status_t :=
  cb [device_path].

Definition fshost_fsck (device_path : string) (df : disk_format_t)
  : M zx_status_t :=
  if negb (getenv_bool (boot_env cfg) "zircon.system.filesystem-check" false)
  then ret ZX_OK
  else fsck device_path df launch_fsck.

(** [mount(fd, path, df, options, cb)] on the device descriptor. *)
Definition mount (path : string) (df : disk_format_t)
           (options : mount_options_t) (cb : launcher) : M zx_status_t :=
  ext (c_mount path df options cb) (w_mount w).

(** [ioctl_block_get_type_guid(fd, buf, sizeof(buf))]: the size read and
    the buffer afterwards. *)
Definition ioctl_block_get_type_guid (buf : list byte) : Z * list byte :=
  match w_type_guid w with
  | guid_ok g => (GPT_GUID_LEN, g)
  | guid_err e => (Z.neg e, buf)
  end.

(** The tail of the system branch of [mount_minfs], once the partition is
    accepted. *)
Definition mount_system (options : mount_options_t) : M zx_status_t :=
  let options :=
    set_readonly
      (negb (is_set (getenv (boot_env cfg) "zircon.system.writable")))
      options in
  let options := set_wait_until_ready true options in
  st <- mount ("/fs" ++ PATH_SYSTEM)%string DISK_FORMAT_MINFS options
              launch_minfs ;;
  if negb (is_ok st) then ret st
  else ext c_fuchsia_start tt ;; ret st.

Definition mount_minfs (options : mount_options_t) : M zx_status_t :=
  let '(read_sz, type_guid) := ioctl_block_get_type_guid (w_stack_guid w) in
  (* check if this partition matches any special type GUID *)
  if read_sz =? GPT_GUID_LEN then
    if gpt_is_sys_guid type_guid read_sz then
      if w_secondary_bootfs_ready w then ret ZX_ERR_ALREADY_BOUND
      else if is_set (getenv (boot_env cfg) "zircon.system.blob-init")
      then ret ZX_ERR_ALREADY_BOUND
      else if getenv_is (boot_env cfg) "zircon.system.volume" "any"
      then mount_system options
      else if getenv_is (boot_env cfg) "zircon.system.volume" "local"
      then
        match w_block_info w with
        | None => ret ZX_ERR_BAD_STATE
        | Some flags =>
          if negb (Z.land flags BLOCK_FLAG_REMOVABLE =? 0)
          then ret ZX_ERR_BAD_STATE
          else mount_system options
        end
      else ret ZX_ERR_BAD_STATE
    else if gpt_is_data_guid type_guid read_sz then
      s <- get ;;
      if data_mounted s then ret ZX_ERR_ALREADY_BOUND
      else
        modify (set_data_mounted true) ;;
        let options := set_wait_until_ready true options in
        mount ("/fs" ++ PATH_DATA)%string DISK_FORMAT_MINFS options
              launch_minfs
    else if gpt_is_install_guid type_guid read_sz then
      s <- get ;;
      if install_mounted s then ret ZX_ERR_ALREADY_BOUND
      else
        modify (set_install_mounted true) ;;
        let options := set_readonly true options in
        let options := set_wait_until_ready true options in
        mount ("/fs" ++ PATH_INSTALL)%string DISK_FORMAT_MINFS options
              launch_minfs
    else ret ZX_ERR_INVALID_ARGS
  else ret ZX_ERR_INVALID_ARGS.

(** The mount point of the FAT volume numbered [n]. *)
Definition fat_mountpath (n : Z) : string :=
  fst (snprintf (FDIO_MAX_FILENAME + 64)
                ("/fs" ++ PATH_VOLUME ++ "/fat-" ++ fmt_d n)%string).

Definition is_bootpart : bool :=
  match w_block_info w with
  | Some flags => negb (Z.land flags BLOCK_FLAG_BOOTPART =? 0)
  | None => false
  end.

Definition bind_and_close (lib : string) : M zx_status_t :=
  ext (c_ioctl_device_bind lib) tt ;;
  ext (c_close dev_fd) tt ;;
  ret ZX_OK.

Definition close_and_return : M zx_status_t :=
  ext (c_close dev_fd) tt ;; ret ZX_OK.

Definition block_device_added (event : watch_event) (name : string)
  : M zx_status_t :=
  if negb (is_add_file event) then ret ZX_OK
  else
    let device_path := (PATH_DEV_BLOCK ++ "/" ++ name)%string in
    opened <- ext (c_openat name) (w_openat w) ;;
    if negb opened then ret ZX_OK
    else if is_bootpart then bind_and_close BOOTPART_DRIVER_LIB
    else
      let df := w_format w in
      match df with
      | DISK_FORMAT_GPT => bind_and_close GPT_DRIVER_LIB
      | DISK_FORMAT_FVM => bind_and_close FVM_DRIVER_LIB
      | DISK_FORMAT_MBR => bind_and_close MBR_DRIVER_LIB
      | DISK_FORMAT_ZXCRYPT => bind_and_close ZXCRYPT_DRIVER_LIB
      | _ =>
        let guid := snd (ioctl_block_get_type_guid GUID_EMPTY_VALUE) in
        (* If we're in netbooting mode, then only bind drivers for
           partition containers and the install partition, not regular
           filesystems. *)
        if netboot cfg then
          if memcmp guid GUID_INSTALL_VALUE (Z.to_nat GPT_GUID_LEN) =? 0 then
            let options := set_wait_until_ready false default_mount_options in
            mount_minfs options ;; ret ZX_OK
          else close_and_return
        else
          match df with
          | DISK_FORMAT_BLOBFS =>
            if negb (memcmp guid GUID_BLOB_VALUE (Z.to_nat GPT_GUID_LEN) =? 0)
            then close_and_return
            else
              st <- fshost_fsck device_path DISK_FORMAT_BLOBFS ;;
              if negb (is_ok st) then close_and_return
              else
                s <- get ;;
                (if negb (blob_mounted s) then
                   let options := default_mount_options in
                   status <- mount ("/fs" ++ PATH_BLOB)%string
                                   DISK_FORMAT_BLOBFS options launch_blobfs ;;
                   if negb (is_ok status) then ret tt
                   else modify (set_blob_mounted true) ;; launch_blob_init
                 else ret tt) ;;
                ret ZX_OK
          | DISK_FORMAT_MINFS =>
            st <- fshost_fsck device_path DISK_FORMAT_MINFS ;;
            if negb (is_ok st) then close_and_return
            else
              let options := set_wait_until_ready false default_mount_options in
              mount_minfs options ;; ret ZX_OK
          | DISK_FORMAT_FAT =>
            (* Use the GUID to avoid auto-mounting the EFI partition *)
            let '(r, guid) := ioctl_block_get_type_guid (w_stack_guid w) in
            let efi := gpt_is_efi_guid guid r in
            if efi then close_and_return
            else
              let options := set_create_mountpoint true default_mount_options in
              s <- get ;;
              let mountpath := fat_mountpath (fat_counter s) in
              modify (set_fat_counter (int_wrap (fat_counter s + 1))) ;;
              let options := set_wait_until_ready false options in
              mount mountpath df options launch_fat ;;
              ret ZX_OK
          | _ => close_and_return
          end
      end.

End Invocation.

(** A device-arrival event as the directory watcher delivers it, with the
    answers of the collaborators while it is handled. *)
Record arrival : Type := {
  a_event : watch_event;
  a_name : string;
  a_world : world
}.

Definition handle_arrival (a : arrival) : M zx_status_t :=
  block_device_added (a_world a) (a_event a) (a_name a).

(** Modelled from the spec: [fdio_watch_directory] (not under src/)
    "delivers device-arrival events serially" to the callback and stops
    when the callback answers anything but [ZX_OK]. *)
Fixpoint fdio_watch_directory (cb : arrival -> M zx_status_t)
         (events : list arrival) : M unit :=
  match events with
  | [] => ret tt
  | a :: rest =>
    st <- cb a ;;
    if is_ok st then fdio_watch_directory cb rest else ret tt
  end.

End Fshost.

(** [block_device_watcher(installer, job, netboot)] over the events
    [events], from the initial statics; [dir_open] is whether
    "/dev/class/block" could be opened. *)
Definition block_device_watcher {hdr : Headers} (_netboot : bool)
           (env : environ) (dir_open : bool) (events : list arrival)
  : statics * list call :=
  let cfg := {| netboot := _netboot; boot_env := env |} in
  if dir_open then
    let r := fdio_watch_directory (handle_arrival cfg) events statics_init in
    (statics_of r, trace_of r)
  else (statics_init, []).

(* ===================================================================== *)
(** ** Observations on traces *)
(* ===================================================================== *)

(** The [mount] calls of a trace, in order: target path and format. *)
Fixpoint mount_calls (t : list call) : list (string * disk_format_t) :=
  match t with
  | [] => []
  | c_mount path df _ _ :: t' => (path, df) :: mount_calls t'
  | _ :: t' => mount_calls t'
  end.

Definition disk_format_eqb (a b : disk_format_t) : bool :=
  match a, b with
  | DISK_FORMAT_UNKNOWN, DISK_FORMAT_UNKNOWN
  | DISK_FORMAT_GPT, DISK_FORMAT_GPT
  | DISK_FORMAT_MBR, DISK_FORMAT_MBR
  | DISK_FORMAT_MINFS, DISK_FORMAT_MINFS
  | DISK_FORMAT_FAT, DISK_FORMAT_FAT
  | DISK_FORMAT_BLOBFS, DISK_FORMAT_BLOBFS
  | DISK_FORMAT_FVM, DISK_FORMAT_FVM
  | DISK_FORMAT_ZXCRYPT, DISK_FORMAT_ZXCRYPT => true
  | _, _ => false
  end.

Definition is_mount_of (path : string) (df : disk_format_t)
           (m : string * disk_format_t) : bool :=
  String.eqb path (fst m) && disk_format_eqb df (snd m).

(** How many times a trace calls [mount] on [path] with format [df]. *)
Definition mounts_at (path : string) (df : disk_format_t) (t : list call)
  : nat :=
  List.length (filter (is_mount_of path df) (mount_calls t)).

(** The mount points of the FAT mounts of a trace, in order. *)
Definition fat_paths (t : list call) : list string :=
  map fst (filter (fun m => disk_format_eqb DISK_FORMAT_FAT (snd m))
                  (mount_calls t)).

(** The driver binds of a trace. *)
Fixpoint bind_calls (t : list call) : list string :=
  match t with
  | [] => []
  | c_ioctl_device_bind lib :: t' => lib :: bind_calls t'
  | _ :: t' => bind_calls t'
  end.

(** The installer calls of a trace, in order. *)
Fixpoint installer_calls (t : list call) : list string :=
  match t with
  | [] => []
  | c_installer path :: t' => path :: installer_calls t'
  | _ :: t' => installer_calls t'
  end.

(** Whether a trace gives the device descriptor up: [close(fd)], or
    [mount], which consumes it. *)
Definition releases_dev_fd (c : call) : bool :=
  match c with
  | c_close dev_fd => true
  | c_mount _ _ _ _ => true
  | _ => false
  end.

Definition dev_fd_released (t : list call) : bool := existsb releases_dev_fd t.

(** The launches of the legacy bootstrap ([devmgr_launch] of "pkgfs") and
    of the primary one ([devmgr_launch_cmdline]). *)
Definition is_legacy_launch (c : call) : bool :=
  match c with
  | c_devmgr_launch name _ => String.eqb name "pkgfs"
  | _ => false
  end.

Definition is_primary_launch (c : call) : bool :=
  match c with
  | c_devmgr_launch_cmdline _ _ => true
  | _ => false
  end.

(** The driver a partition container or boot partition is bound to. *)
Definition container_driver {hdr : Headers} (w : world) : option string :=
  if is_bootpart w then Some BOOTPART_DRIVER_LIB
  else
    match w_format w with
    | DISK_FORMAT_GPT => Some GPT_DRIVER_LIB
    | DISK_FORMAT_FVM => Some FVM_DRIVER_LIB
    | DISK_FORMAT_MBR => Some MBR_DRIVER_LIB
    | DISK_FORMAT_ZXCRYPT => Some ZXCRYPT_DRIVER_LIB
    | _ => None
    end.

(** The type GUID the handler compares: the ioctl's bytes, or the empty
    GUID the buffer was initialised with. *)
Definition device_guid {hdr : Headers} (w : world) : list byte :=
  snd (ioctl_block_get_type_guid w GUID_EMPTY_VALUE).

(** Whether the integrity check lets a device through: the check is off,
    or the child was launched, waited for, inspected and exited with 0. *)
Definition fsck_passes {hdr : Headers} (cfg : config) (w : world) : bool :=
  negb (getenv_bool (boot_env cfg) "zircon.system.filesystem-check" false)
  || (is_ok (w_fsck_launch w) && is_ok (w_fsck_wait w)
      && is_ok (w_fsck_get_info w) && (w_fsck_return_code w =? 0)).

(** A device the blob branch accepts: it opens, is no boot partition, is
    BLOBFS-formatted with the blob type GUID, outside network boot. *)
Definition blob_role_device {hdr : Headers} (cfg : config) (w : world)
  : bool :=
  negb (netboot cfg) && w_openat w && negb (is_bootpart w)
  && disk_format_eqb (w_format w) DISK_FORMAT_BLOBFS
  && (memcmp (device_guid w) GUID_BLOB_VALUE (Z.to_nat GPT_GUID_LEN) =? 0).

(** A FAT device that reaches the FAT branch. *)
Definition fat_device {hdr : Headers} (cfg : config) (w : world) : bool :=
  negb (netboot cfg) && w_openat w && negb (is_bootpart w)
  && disk_format_eqb (w_format w) DISK_FORMAT_FAT.

(** What [gpt_is_efi_guid] answers for the device in the FAT branch. *)
Definition fat_is_efi {hdr : Headers} (w : world) : bool :=
  gpt_is_efi_guid (snd (ioctl_block_get_type_guid w (w_stack_guid w)))
                  (fst (ioctl_block_get_type_guid w (w_stack_guid w))).

(** What one invocation of the handler may do to the statics, together
    with the [mount] calls it makes: the summary the run invariants are
    proved from. *)
Inductive mount_step {hdr : Headers} (w : world)
  : statics -> statics -> list (string * disk_format_t) -> Prop :=
| ms_none s :
    mount_step w s s []
| ms_system s :
    mount_step w s s [(("/fs" ++ PATH_SYSTEM)%string, DISK_FORMAT_MINFS)]
| ms_data s :
    data_mounted s = false ->
    mount_step w s (set_data_mounted true s)
               [(("/fs" ++ PATH_DATA)%string, DISK_FORMAT_MINFS)]
| ms_install s :
    install_mounted s = false ->
    mount_step w s (set_install_mounted true s)
               [(("/fs" ++ PATH_INSTALL)%string, DISK_FORMAT_MINFS)]
| ms_blob_failed s :
    blob_mounted s = false -> w_mount w <> ZX_OK ->
    mount_step w s s [(("/fs" ++ PATH_BLOB)%string, DISK_FORMAT_BLOBFS)]
| ms_blob_mounted s :
    blob_mounted s = false -> w_mount w = ZX_OK ->
    mount_step w s (set_blob_mounted true s)
               [(("/fs" ++ PATH_BLOB)%string, DISK_FORMAT_BLOBFS)]
| ms_fat s :
    mount_step w s (set_fat_counter (int_wrap (fat_counter s + 1)) s)
               [(fat_mountpath (fat_counter s), DISK_FORMAT_FAT)].

(** Whether dependent-service startup is in a trace. *)
Definition is_fuchsia_start (c : call) : bool :=
  match c with c_fuchsia_start => true | _ => false end.

Definition started (t : list call) : bool := existsb is_fuchsia_start t.

(** The completion wait of [pkgfs_finish]. *)
Definition completion_wait {hdr : Headers} : call :=
  c_wait_one (Z.lor ZX_USER_SIGNAL_0 ZX_PROCESS_TERMINATED) (Some 5).

(** The wait returned in time and observed the ready signal. *)
Definition ready {hdr : Headers} (w : world) : bool :=
  is_ok (w_wait_one w) && negb (Z.land (w_observed w) ZX_USER_SIGNAL_0 =? 0).

(** The number a decimal numeral denotes, read after the value [acc]. *)
Fixpoint parse_dec (s : string) (acc : Z) : Z :=
  match s with
  | EmptyString => acc
  | String c rest =>
    parse_dec rest (10 * acc + (Z.of_nat (nat_of_ascii c) - 48))
  end.

(** The mount-path buffer holds the longest path: the fixed part, the ten
    digits of an [int] and the terminator. *)
Definition mountpath_fits {hdr : Headers} : Prop :=
  Z.of_nat (String.length ("/fs" ++ PATH_VOLUME ++ "/fat-")) + 10
  < FDIO_MAX_FILENAME + 64.

(** A latch as a number: 1 once set. *)
Definition b2n (b : bool) : nat := if b then 1%nat else 0%nat.

(** A computation that leaves the statics alone and never mounts. *)
Definition framed {A : Type} (m : M A) : Prop :=
  forall st, statics_of (m st) = st /\ mount_calls (trace_of (m st)) = [].

(** A computation that answers [ZX_OK] and whose effect on statics and
    mounts is one of the steps of [mount_step]. *)
Definition good {hdr : Headers} (w : world) (m : M zx_status_t) : Prop :=
  forall st,
    result_of (m st) = ZX_OK /\
    mount_step w st (statics_of (m st)) (mount_calls (trace_of (m st))).

(** Unfolding of the monad, and case analysis on every test of a
    straight-line monadic body. *)
Ltac mred :=
  cbv beta iota zeta delta [bind ret ext get modify];
  cbn [result_of statics_of trace_of fst snd app mount_calls negb].

Ltac c6_fin :=
  repeat split; intros;
  cbn [installer_calls existsb is_fuchsia_start orb] in *;
  try discriminate; try congruence; eauto; try solve [intuition congruence].

Ltac branch :=
  repeat (mred;
          match goal with
          | |- context [if ?b then _ else _] => destruct b eqn:?
          | |- context [match ?x with Some _ => _ | None => _ end] =>
            destruct x eqn:?
          end);
  mred.

(* ===================================================================== *)
(** ** The load callback of the primary launch *)
(* ===================================================================== *)

Module LaunchLoad.
Import Ldsvc.

(** [while (file[0] == '/') ++file;] *)
Fixpoint skip_slashes (file : string) : string :=
  match file with
  | String "/"%char rest => skip_slashes rest
  | _ => file
  end.

(** What [loader_service_create] and [loader_service_connect] answer. *)
Record loader : Type := {
  ls_create : zx_status_t;
  ls_connect : zx_status_t
}.

(** The calls of [pkgfs_launch_load] and [pkgfs_ldsvc_start], in order.  A
    loader service that was created holds [fs_blob_fd] as its context and
    closes it in its finalizer. *)
Inductive lcall : Type :=
| l_resolve (i : io)                 (* a call made by the resolver *)
| l_loader_service_create
| l_loader_service_connect
| l_loader_service_release
| l_close_fs_blob_fd
| l_handle_close_vmo
| l_use_loader_service
| l_load_from_vmo (v : option vmo).  (* the handle the resolver stored *)

(** Create a local loader service with a fixed mapping of names to blobs.
    Always consumes fs_blob_fd. *)
Definition pkgfs_ldsvc_start (ls : loader) : zx_status_t * list lcall :=
  let status := ls_create ls in
  if negb (is_ok status) then
    (status, [l_loader_service_create; l_close_fs_blob_fd])
  else
    (ls_connect ls,
     [l_loader_service_create; l_loader_service_connect;
      l_loader_service_release]).

Definition pkgfs_launch_load (env : environ) (ctx : blob_dir) (ls : loader)
           (file : string) : zx_status_t * list lcall :=
  let file := skip_slashes file in
  let r := pkgfs_ldsvc_load_blob env ctx "" file in
  let status := status_of r in
  if is_ok status then
    (* The service takes ownership of fs_blob_fd. *)
    let '(status, t) := pkgfs_ldsvc_start ls in
    if is_ok status then
      (status,
       map l_resolve (io_of r) ++ t
       ++ [l_use_loader_service; l_load_from_vmo (vmo_of r)])
    else
      (status, map l_resolve (io_of r) ++ t ++ [l_handle_close_vmo])
  else
    (status, map l_resolve (io_of r) ++ [l_close_fs_blob_fd]).

Definition is_close_fd (c : lcall) : bool :=
  match c with l_close_fs_blob_fd => true | _ => false end.

Definition is_service_create (c : lcall) : bool :=
  match c with l_loader_service_create => true | _ => false end.

Definition is_vmo_load (c : lcall) : bool :=
  match c with l_load_from_vmo _ => true | _ => false end.

Definition is_vmo_close (c : lcall) : bool :=
  match c with l_handle_close_vmo => true | _ => false end.

Definition count (p : lcall -> bool) (t : list lcall) : nat :=
  List.length (filter p t).

(** The blobs whose descriptor a resolver trace closed. *)
Fixpoint closed (t : list io) : list string :=
  match t with
  | [] => []
  | io_close b :: t' => b :: closed t'
  | _ :: t' => closed t'
  end.

(** The answer of the resolver for the file the callback is given. *)
Definition lookup (env : environ) (ctx : blob_dir) (file : string) :=
  pkgfs_ldsvc_load_blob env ctx "" (skip_slashes file).

(** [n] slashes in front of [file]. *)
Fixpoint slashes (n : nat) (file : string) : string :=
  match n with
  | O => file
  | S n' => String "/"%char (slashes n' file)
  end.

End LaunchLoad.

(* ===================================================================== *)
(** ** Further observations, and the cases of the handler *)
(* ===================================================================== *)

(** The calls that work on the device descriptor: the driver bind, the
    close, and the mount, which consumes it. *)
Definition uses_dev_fd (c : call) : bool :=
  match c with
  | c_ioctl_device_bind _ => true
  | c_close dev_fd => true
  | c_mount _ _ _ _ => true
  | _ => false
  end.

Definition fd_uses (t : list call) : list call := filter uses_dev_fd t.

(** The deadlines of the waits of a trace ([None]: infinite). *)
Fixpoint wait_deadlines (t : list call) : list (option Z) :=
  match t with
  | [] => []
  | c_wait_one _ d :: t' => d :: wait_deadlines t'
  | _ :: t' => wait_deadlines t'
  end.

Definition is_some {A : Type} (o : option A) : bool :=
  match o with Some _ => true | None => false end.

(** The launches of the integrity checker. *)
Definition is_fsck_launch (c : call) : bool :=
  match c with
  | c_devmgr_launch name _ => String.eqb name "fsck"
  | _ => false
  end.

Definition fsck_launches (t : list call) : nat :=
  List.length (filter is_fsck_launch t).

(** How many times the installer is called for [path]. *)
Definition is_installer_of (path : string) (c : call) : bool :=
  match c with
  | c_installer p => String.eqb path p
  | _ => false
  end.

Definition installs (path : string) (t : list call) : nat :=
  List.length (filter (is_installer_of path) t).

(** The calls only the package-filesystem bootstrap makes. *)
Definition is_bootstrap_call (c : call) : bool :=
  match c with
  | c_open _ | c_devmgr_launch_cmdline _ _ | c_installer _
  | c_fdio_open_at _ | c_channel_create => true
  | c_devmgr_launch name _ => String.eqb name "pkgfs"
  | _ => false
  end.

(** The options of the [mount] calls of a trace, in order. *)
Fixpoint mount_options_of (t : list call) : list mount_options_t :=
  match t with
  | [] => []
  | c_mount _ _ options _ :: t' => options :: mount_options_of t'
  | _ :: t' => mount_options_of t'
  end.

(** The system partition passes the gates of [mount_minfs]: no secondary
    bootfs, no legacy blob-init argument, and a volume policy that takes
    it ("any", or "local" with a device known not to be removable). *)
Definition system_accepted {hdr : Headers} (cfg : config) (w : world)
  : bool :=
  negb (w_secondary_bootfs_ready w)
  && negb (is_set (getenv (boot_env cfg) "zircon.system.blob-init"))
  && (getenv_is (boot_env cfg) "zircon.system.volume" "any"
      || (getenv_is (boot_env cfg) "zircon.system.volume" "local"
          && match w_block_info w with
             | Some flags => Z.land flags BLOCK_FLAG_REMOVABLE =? 0
             | None => false
             end)).

(** The role [mount_minfs] gives a device: the first classifier that
    accepts its type GUID, when the ioctl read a whole GUID. *)
Inductive minfs_role : Type :=
| role_system | role_data | role_install | role_none.

Definition role_of {hdr : Headers} (w : world) : minfs_role :=
  let read_sz := fst (ioctl_block_get_type_guid w (w_stack_guid w)) in
  let type_guid := snd (ioctl_block_get_type_guid w (w_stack_guid w)) in
  if read_sz =? GPT_GUID_LEN then
    if gpt_is_sys_guid type_guid read_sz then role_system
    else if gpt_is_data_guid type_guid read_sz then role_data
    else if gpt_is_install_guid type_guid read_sz then role_install
    else role_none
  else role_none.

(** The cases of one invocation of the handler: which branch it takes, and
    what it returns there in terms of the functions it calls. *)
Inductive handler_case {hdr : Headers} (cfg : config) (w : world)
          (ev : watch_event) (name : string) (st : statics)
  : zx_status_t * statics * list call -> Prop :=
| hc_ignored :
    is_add_file ev = false ->
    handler_case cfg w ev name st (ZX_OK, st, [])
| hc_unopened :
    is_add_file ev = true -> w_openat w = false ->
    handler_case cfg w ev name st (ZX_OK, st, [c_openat name])
| hc_bound lib :
    is_add_file ev = true -> w_openat w = true ->
    container_driver w = Some lib ->
    handler_case cfg w ev name st
      (ZX_OK, st, [c_openat name; c_ioctl_device_bind lib; c_close dev_fd])
| hc_netboot_install b s2 t2 :
    is_add_file ev = true -> w_openat w = true ->
    container_driver w = None -> netboot cfg = true ->
    (memcmp (device_guid w) GUID_INSTALL_VALUE (Z.to_nat GPT_GUID_LEN) =? 0)
    = true ->
    mount_minfs cfg w (set_wait_until_ready false default_mount_options) st
    = (b, s2, t2) ->
    handler_case cfg w ev name st (ZX_OK, s2, c_openat name :: t2)
| hc_netboot_closed :
    is_add_file ev = true -> w_openat w = true ->
    container_driver w = None -> netboot cfg = true ->
    (memcmp (device_guid w) GUID_INSTALL_VALUE (Z.to_nat GPT_GUID_LEN) =? 0)
    = false ->
    handler_case cfg w ev name st (ZX_OK, st, [c_openat name; c_close dev_fd])
| hc_check_failed df a t1 :
    is_add_file ev = true -> w_openat w = true ->
    container_driver w = None -> netboot cfg = false ->
    w_format w = df ->
    df = DISK_FORMAT_MINFS \/
    (df = DISK_FORMAT_BLOBFS /\
     (memcmp (device_guid w) GUID_BLOB_VALUE (Z.to_nat GPT_GUID_LEN) =? 0)
     = true) ->
    fshost_fsck cfg w (PATH_DEV_BLOCK ++ "/" ++ name) df st = (a, st, t1) ->
    is_ok a = false ->
    handler_case cfg w ev name st
      (ZX_OK, st, c_openat name :: t1 ++ [c_close dev_fd])
| hc_minfs a t1 b s2 t2 :
    is_add_file ev = true -> w_openat w = true ->
    container_driver w = None -> netboot cfg = false ->
    w_format w = DISK_FORMAT_MINFS ->
    fshost_fsck cfg w (PATH_DEV_BLOCK ++ "/" ++ name) DISK_FORMAT_MINFS st
    = (a, st, t1) ->
    is_ok a = true ->
    mount_minfs cfg w (set_wait_until_ready false default_mount_options) st
    = (b, s2, t2) ->
    handler_case cfg w ev name st (ZX_OK, s2, c_openat name :: t1 ++ t2)
| hc_blob_foreign :
    is_add_file ev = true -> w_openat w = true ->
    container_driver w = None -> netboot cfg = false ->
    w_format w = DISK_FORMAT_BLOBFS ->
    (memcmp (device_guid w) GUID_BLOB_VALUE (Z.to_nat GPT_GUID_LEN) =? 0)
    = false ->
    handler_case cfg w ev name st (ZX_OK, st, [c_openat name; c_close dev_fd])
| hc_blob_again a t1 :
    blob_role_device cfg w = true -> is_add_file ev = true ->
    fshost_fsck cfg w (PATH_DEV_BLOCK ++ "/" ++ name) DISK_FORMAT_BLOBFS st
    = (a, st, t1) ->
    is_ok a = true -> blob_mounted st = true ->
    handler_case cfg w ev name st (ZX_OK, st, c_openat name :: t1)
| hc_blob_failed a t1 :
    blob_role_device cfg w = true -> is_add_file ev = true ->
    fshost_fsck cfg w (PATH_DEV_BLOCK ++ "/" ++ name) DISK_FORMAT_BLOBFS st
    = (a, st, t1) ->
    is_ok a = true -> blob_mounted st = false ->
    is_ok (w_mount w) = false ->
    handler_case cfg w ev name st
      (ZX_OK, st,
       c_openat name
       :: t1 ++ [c_mount ("/fs" ++ PATH_BLOB) DISK_FORMAT_BLOBFS
                         default_mount_options launch_blobfs])
| hc_blob_mounted a t1 u s3 t3 :
    blob_role_device cfg w = true -> is_add_file ev = true ->
    fshost_fsck cfg w (PATH_DEV_BLOCK ++ "/" ++ name) DISK_FORMAT_BLOBFS st
    = (a, st, t1) ->
    is_ok a = true -> blob_mounted st = false ->
    is_ok (w_mount w) = true ->
    launch_blob_init cfg w (set_blob_mounted true st)
    = (u, set_blob_mounted true st, t3) ->
    s3 = set_blob_mounted true st ->
    handler_case cfg w ev name st
      (ZX_OK, s3,
       c_openat name
       :: t1 ++ c_mount ("/fs" ++ PATH_BLOB) DISK_FORMAT_BLOBFS
                        default_mount_options launch_blobfs :: t3)
| hc_fat_efi :
    fat_device cfg w = true -> is_add_file ev = true ->
    fat_is_efi w = true ->
    handler_case cfg w ev name st (ZX_OK, st, [c_openat name; c_close dev_fd])
| hc_fat :
    fat_device cfg w = true -> is_add_file ev = true ->
    fat_is_efi w = false ->
    handler_case cfg w ev name st
      (ZX_OK, set_fat_counter (int_wrap (fat_counter st + 1)) st,
       [c_openat name;
        c_mount (fat_mountpath (fat_counter st)) DISK_FORMAT_FAT
                (set_wait_until_ready false
                   (set_create_mountpoint true default_mount_options))
                launch_fat])
| hc_unknown :
    is_add_file ev = true -> w_openat w = true ->
    container_driver w = None -> netboot cfg = false ->
    w_format w = DISK_FORMAT_UNKNOWN ->
    handler_case cfg w ev name st (ZX_OK, st, [c_openat name; c_close dev_fd]).

(** In a case of the handler: replace the equations of the functions it
    called by the facts known of their statics and traces. *)
Ltac callee_facts blob_inv fat_inv fsck_facts minfs_facts init_facts :=
  repeat match goal with
         | H : blob_role_device _ _ = true |- _ =>
           apply blob_inv in H; destruct H as (? & ? & ? & ? & ?)
         | H : fat_device _ _ = true |- _ =>
           apply fat_inv in H; destruct H as (? & ? & ? & ?)
         end;
  repeat match goal with
         | H : fshost_fsck ?c ?w ?p ?d ?s = (_, _, ?t) |- _ =>
           let F := fresh in
           pose proof (fsck_facts c w p d s) as F;
           cbv zeta in F; rewrite H in F; cbn [trace_of snd] in F;
           destruct F as (_ & ? & ? & ? & _); clear H
         | H : mount_minfs ?c ?w ?o ?s = (_, _, ?t) |- _ =>
           let F := fresh in
           pose proof (minfs_facts c w o s) as F;
           cbv zeta in F; rewrite H in F;
           cbn [trace_of statics_of fst snd] in F;
           destruct F as (? & ? & ? & ? & ? & _ & ?); clear H
         | H : launch_blob_init ?c ?w ?s = (_, _, ?t) |- _ =>
           let F := fresh in
           pose proof (init_facts c w s) as F;
           cbv zeta in F; rewrite H in F; cbn [trace_of snd] in F;
           destruct F as (_ & ? & ? & ?); clear H
         end.

(* ===================================================================== *)
(** ** A reference instance of the headers, and concrete scenarios *)
(* ===================================================================== *)

Module Zircon.

Definition GUID_SYSTEM : list byte :=
  [x0b; x00; x6b; x60; xc7; xb7; x53; x46;
   xa7; xd5; xb7; x37; x33; x2c; x89; x9d].
Definition GUID_DATA : list byte :=
  [x0c; x5f; x18; x08; x2d; x89; x8a; x42;
   xa7; x89; xdb; xee; xc8; xf5; x5e; x6a].
Definition GUID_INSTALL : list byte :=
  [xd9; xe0; x02; x48; xf8; x4c; x0d; x4d;
   xa9; x30; x5e; x46; x8b; x4e; xf5; xa2].
Definition GUID_BLOB : list byte :=
  [x0e; x38; x67; x29; x4c; x13; xbb; x4c;
   xb6; xda; x17; xe7; xce; x1c; xa4; x5d].
Definition GUID_EFI : list byte :=
  [x28; x73; x2a; xc1; x1f; xf8; xd2; x11;
   xba; x4b; x00; xa0; xc9; x3e; xc9; x3b].
Definition GUID_EMPTY : list byte := repeat x00 16.

(** Modelled from the spec: the classifiers of the GPT library (not under
    src/), which "map a partition type identifier to a semantic role";
    "GUID lookup failure (wrong length or absent) yields Unknown role". *)
Definition gpt_is_guid (expected guid : list byte) (len : Z) : bool :=
  (len =? 16) && (memcmp guid expected 16 =? 0).

(** Modelled from the spec: [getenv_bool] of devmgr.h (not under src/), a
    boolean boot-configuration flag: the default when unset, false when
    set to 0, false or off, true otherwise. *)
Definition getenv_bool_model (env : environ) (key : string)
           (default : bool) : bool :=
  match getenv env key with
  | None => default
  | Some v =>
    negb (String.eqb v "0" || String.eqb v "false" || String.eqb v "off")
  end.

(** Modelled from the spec: the constants and helpers of the headers this
    file includes (not under src/), for concrete runs: the fixed mount
    roots, a 16-byte type GUID per role (pairwise distinct; their exact
    bytes play no role below), the block-layer flags, the two signals of
    the completion wait and the default mount options. *)
#[export] Instance headers : Headers := {|
  PATH_DEV_BLOCK := "/dev/class/block";
  PATH_SYSTEM := "/system";
  PATH_DATA := "/data";
  PATH_INSTALL := "/install";
  PATH_BLOB := "/blob";
  PATH_VOLUME := "/volume";
  FDIO_MAX_FILENAME := 255;
  GPT_GUID_LEN := 16;
  GUID_EMPTY_VALUE := GUID_EMPTY;
  GUID_INSTALL_VALUE := GUID_INSTALL;
  GUID_BLOB_VALUE := GUID_BLOB;
  gpt_is_sys_guid := gpt_is_guid GUID_SYSTEM;
  gpt_is_data_guid := gpt_is_guid GUID_DATA;
  gpt_is_install_guid := gpt_is_guid GUID_INSTALL;
  gpt_is_efi_guid := gpt_is_guid GUID_EFI;
  BLOCK_FLAG_REMOVABLE := 2;
  BLOCK_FLAG_BOOTPART := 4;
  ZX_USER_SIGNAL_0 := 2 ^ 24;
  ZX_PROCESS_TERMINATED := 2 ^ 3;
  default_mount_options :=
    {| readonly := false; wait_until_ready := true;
       create_mountpoint := false |};
  getenv_bool := getenv_bool_model
|}.

(** A device of format [df] answering [g] for its type GUID, in a world
    where [mount] answers [st], the integrity-check child exits with
    [code], and every other collaborator succeeds (pkgfs raises its ready
    signal). *)
Definition device (df : disk_format_t) (g : guid_reply) (st : zx_status_t)
           (code : Z) : world :=
  {| w_openat := true;
     w_block_info := Some 0;
     w_format := df;
     w_type_guid := g;
     w_stack_guid := GUID_EMPTY;
     w_secondary_bootfs_ready := false;
     w_mount := st;
     w_fsck_launch := ZX_OK;
     w_fsck_wait := ZX_OK;
     w_fsck_get_info := ZX_OK;
     w_fsck_return_code := code;
     w_open_fs_blob := true;
     w_channel_pkgfs := ZX_OK;
     w_launch_cmdline := ZX_OK;
     w_channel_old := ZX_OK;
     w_launch_old := ZX_OK;
     w_wait_one := ZX_OK;
     w_observed := 2 ^ 24;
     w_installer := fun _ => ZX_OK;
     w_channel_finish := ZX_OK;
     w_fdio_open_at := ZX_OK |}.

Definition added (name : string) (w : world) : arrival :=
  {| a_event := WATCH_EVENT_ADD_FILE; a_name := name; a_world := w |}.

(** Ordinary boot, nothing configured. *)
Definition plain : config := {| netboot := false; boot_env := [] |}.

(** Network boot. *)
Definition netbooting : config := {| netboot := true; boot_env := [] |}.

(** The concrete scenario of the design document. *)
Definition pkgsvr_env : environ :=
  [("zircon.system.pkgfs.cmd", "pkgsvr");
   ("zircon.system.pkgfs.file.bin/pkgsvr", "blob-id")].

(** Integrity checking switched on. *)
Definition checking : config :=
  {| netboot := false;
     boot_env := [("zircon.system.filesystem-check", "true")] |}.

(** Both bootstrap mechanisms configured. *)
Definition both_bootstraps : config :=
  {| netboot := false;
     boot_env := [("zircon.system.pkgfs.cmd", "pkgsvr");
                  ("zircon.system.blob-init", "/blob/init")] |}.

(** Only the legacy bootstrap configured. *)
Definition legacy_only : config :=
  {| netboot := false;
     boot_env := [("zircon.system.blob-init", "/blob/init")] |}.

(** A world in which "/fs/blob" cannot be opened. *)
Definition no_blob_dir : world :=
  {| w_openat := true; w_block_info := Some 0;
     w_format := DISK_FORMAT_BLOBFS; w_type_guid := guid_ok GUID_BLOB;
     w_stack_guid := GUID_EMPTY; w_secondary_bootfs_ready := false;
     w_mount := ZX_OK;
     w_fsck_launch := ZX_OK; w_fsck_wait := ZX_OK;
     w_fsck_get_info := ZX_OK; w_fsck_return_code := 0;
     w_open_fs_blob := false;
     w_channel_pkgfs := ZX_OK; w_launch_cmdline := ZX_OK;
     w_channel_old := ZX_OK; w_launch_old := ZX_OK;
     w_wait_one := ZX_OK; w_observed := 2 ^ 24;
     w_installer := fun _ => ZX_OK;
     w_channel_finish := ZX_OK; w_fdio_open_at := ZX_OK |}.

(** A world in which pkgfs raises its ready signal and both installs
    would succeed, but the channel for the system sub-view cannot be
    created. *)
Definition no_channel : world :=
  {| w_openat := true; w_block_info := Some 0;
     w_format := DISK_FORMAT_BLOBFS; w_type_guid := guid_ok GUID_BLOB;
     w_stack_guid := GUID_EMPTY; w_secondary_bootfs_ready := false;
     w_mount := ZX_OK;
     w_fsck_launch := ZX_OK; w_fsck_wait := ZX_OK;
     w_fsck_get_info := ZX_OK; w_fsck_return_code := 0;
     w_open_fs_blob := true;
     w_channel_pkgfs := ZX_OK; w_launch_cmdline := ZX_OK;
     w_channel_old := ZX_OK; w_launch_old := ZX_OK;
     w_wait_one := ZX_OK; w_observed := 2 ^ 24;
     w_installer := fun _ => ZX_OK;
     w_channel_finish := ZX_ERR_NO_MEMORY; w_fdio_open_at := ZX_OK |}.

(** A world in which the primary launch command fails to launch. *)
Definition cmdline_fails : world :=
  {| w_openat := true; w_block_info := Some 0;
     w_format := DISK_FORMAT_BLOBFS; w_type_guid := guid_ok GUID_BLOB;
     w_stack_guid := GUID_EMPTY; w_secondary_bootfs_ready := false;
     w_mount := ZX_OK;
     w_fsck_launch := ZX_OK; w_fsck_wait := ZX_OK;
     w_fsck_get_info := ZX_OK; w_fsck_return_code := 0;
     w_open_fs_blob := true;
     w_channel_pkgfs := ZX_OK; w_launch_cmdline := ZX_ERR_NOT_FOUND;
     w_channel_old := ZX_OK; w_launch_old := ZX_OK;
     w_wait_one := ZX_OK; w_observed := 2 ^ 24;
     w_installer := fun _ => ZX_OK;
     w_channel_finish := ZX_OK; w_fdio_open_at := ZX_OK |}.

(** A logical name of 300 characters. *)
Definition long_name : string := string_of_list_ascii (repeat "a"%char 300).

(** A blob volume holding one blob. *)
Definition one_blob : Ldsvc.blob_dir :=
  fun blob =>
    if String.eqb blob "blob-id"
    then Some {| Ldsvc.file_content := [x7f; x45; x4c; x46];
                 Ldsvc.file_vmo_clone := ZX_OK |}
    else None.

End Zircon.

(** Further scenarios on the reference instance. *)
Module Scenes.

(** A device flagged as a boot partition ([BLOCK_FLAG_BOOTPART] is 4). *)
Definition bootpart (df : disk_format_t) : world :=
  {| w_openat := true; w_block_info := Some 4;
     w_format := df; w_type_guid := guid_ok Zircon.GUID_DATA;
     w_stack_guid := Zircon.GUID_EMPTY; w_secondary_bootfs_ready := false;
     w_mount := ZX_OK;
     w_fsck_launch := ZX_OK; w_fsck_wait := ZX_OK;
     w_fsck_get_info := ZX_OK; w_fsck_return_code := 0;
     w_open_fs_blob := true;
     w_channel_pkgfs := ZX_OK; w_launch_cmdline := ZX_OK;
     w_channel_old := ZX_OK; w_launch_old := ZX_OK;
     w_wait_one := ZX_OK; w_observed := 2 ^ 24;
     w_installer := fun _ => ZX_OK;
     w_channel_finish := ZX_OK; w_fdio_open_at := ZX_OK |}.

(** A boot configuration that takes any system partition. *)
Definition any_volume : config :=
  {| netboot := false; boot_env := [("zircon.system.volume", "any")] |}.

(** The boot configuration of the concrete scenario of the design
    document. *)
Definition pkgsvr : config :=
  {| netboot := false; boot_env := Zircon.pkgsvr_env |}.

End Scenes.

(* ===================================================================== *)
(** ** Lemmas on the helpers *)
(* ===================================================================== *)

Lemma is_ok_true s : is_ok s = true <-> s = ZX_OK.
Proof. destruct s; simpl; split; congruence. Qed.

Lemma is_ok_false s : is_ok s = false <-> s <> ZX_OK.
Proof. destruct s; simpl; split; congruence. Qed.

Lemma substring_all s : forall n,
  (String.length s <= n)%nat -> substring 0 n s = s.
Proof.
  induction s as [|c s IH]; intros [|n] Hn; simpl in *; try reflexivity.
  - lia.
  - f_equal. apply IH. lia.
Qed.

Lemma snprintf_fits size s :
  Z.of_nat (String.length s) < size -> snprintf size s = (s, Z.of_nat (String.length s)).
Proof.
  intros Hfit. unfold snprintf. f_equal.
  apply substring_all. lia.
Qed.

Lemma append_inj_l p : forall a b, (p ++ a = p ++ b)%string -> a = b.
Proof.
  induction p as [|c p IH]; simpl; intros a b Hab.
  - exact Hab.
  - injection Hab as Hab. now apply IH.
Qed.

Lemma append_length a : forall b,
  String.length (a ++ b)%string = (String.length a + String.length b)%nat.
Proof.
  induction a as [|c a IH]; simpl; intros b; [reflexivity | now rewrite IH].
Qed.

(* ===================================================================== *)
(** ** The resolver *)
(* ===================================================================== *)

Module LdsvcFacts.
Import Ldsvc.

Lemma load_blob_key env ctx prefix name :
  (String.length (key_prefix ++ prefix ++ name) < 256)%nat ->
  pkgfs_ldsvc_load_blob env ctx prefix name =
  let key := (key_prefix ++ prefix ++ name)%string in
  match getenv env key with
  | None => (ZX_ERR_NOT_FOUND, None, [io_getenv key])
  | Some blob =>
    match ctx blob with
    | None => (ZX_ERR_NOT_FOUND, None, [io_getenv key; io_openat blob])
    | Some f =>
      if is_ok (file_vmo_clone f) then
        (file_vmo_clone f,
         Some {| vmo_content := file_content f; vmo_name := key |},
         [io_getenv key; io_openat blob; io_get_vmo_clone blob;
          io_close blob; io_set_property_name key])
      else
        (file_vmo_clone f, None,
         [io_getenv key; io_openat blob; io_get_vmo_clone blob;
          io_close blob])
    end
  end.
Proof.
  intros Hfit. unfold pkgfs_ldsvc_load_blob.
  rewrite snprintf_fits by (unfold key_size; lia).
  destruct (key_size <=? _) eqn:Hle.
  - apply Z.leb_le in Hle. unfold key_size in Hle. lia.
  - reflexivity.
Qed.

(** C7 (as amended): for a logical name whose key fits the key buffer, the
    resolver consults exactly that key; when the key is present it opens
    exactly the blob named by the key's value and hands back that blob's
    content (or the failure of the clone); when the key is absent or the
    blob does not open it answers "not found" and hands back nothing.
    Shared-library names resolve under "lib/", absolute paths without
    their leading separator. *)
Theorem C7_resolution_of_fitting_key env ctx prefix name :
  (String.length (key_prefix ++ prefix ++ name) < 256)%nat ->
  let key := (key_prefix ++ prefix ++ name)%string in
  let r := pkgfs_ldsvc_load_blob env ctx prefix name in
  (consulted (io_of r) = [key] /\
   match getenv env key with
   | Some blob =>
     opened (io_of r) = [blob] /\
     match ctx blob with
     | Some f =>
       status_of r = file_vmo_clone f /\
       vmo_of r =
       (if is_ok (file_vmo_clone f)
        then Some {| vmo_content := file_content f; vmo_name := key |}
        else None)
     | None => status_of r = ZX_ERR_NOT_FOUND /\ vmo_of r = None
     end
   | None =>
     opened (io_of r) = [] /\ status_of r = ZX_ERR_NOT_FOUND /\
     vmo_of r = None
   end) /\
  pkgfs_ldsvc_load_object env ctx name =
    pkgfs_ldsvc_load_blob env ctx "lib/" name /\
  pkgfs_ldsvc_load_abspath env ctx (String "/"%char name) =
    Some (pkgfs_ldsvc_load_blob env ctx "" name).
Proof.
  intros Hfit key r. split; [|split; reflexivity].
  subst r. rewrite (load_blob_key env ctx prefix name Hfit).
  cbv zeta. fold key.
  destruct (getenv env key) as [blob|]; [|now repeat split].
  destruct (ctx blob) as [f|]; [|now repeat split].
  destruct (is_ok (file_vmo_clone f)); now repeat split.
Qed.

Lemma C7_resolution_of_fitting_key_witness :
  status_of (pkgfs_ldsvc_load_blob Zircon.pkgsvr_env Zircon.one_blob
                                   "" "bin/pkgsvr") = ZX_OK /\
  opened (io_of (pkgfs_ldsvc_load_blob Zircon.pkgsvr_env Zircon.one_blob
                                       "" "bin/pkgsvr")) = ["blob-id"].
Proof.
  assert (Hfit : (String.length (key_prefix ++ "" ++ "bin/pkgsvr") < 256)%nat)
    by (apply Nat.ltb_lt; reflexivity).
  pose proof (C7_resolution_of_fitting_key Zircon.pkgsvr_env Zircon.one_blob
                                           "" "bin/pkgsvr" Hfit) as H.
  cbv zeta in H. destruct H as [[_ H] _].
  change (getenv Zircon.pkgsvr_env (key_prefix ++ "" ++ "bin/pkgsvr"))
    with (Some "blob-id") in H.
  destruct H as [Hopen H].
  change (Zircon.one_blob "blob-id")
    with (Some {| file_content := [x7f; x45; x4c; x46];
                  file_vmo_clone := ZX_OK |}) in H.
  destruct H as [Hst _]. split; [exact Hst | exact Hopen].
Defined.

(** C7, as stated, fails on a name whose key does not fit the buffer: with
    the key absent the answer is the bad-path error, not "not found"; with
    the key present no blob is opened. *)
Lemma C7_counterexample :
  getenv [] (key_prefix ++ "lib/" ++ Zircon.long_name) = None /\
  status_of (pkgfs_ldsvc_load_object [] Zircon.one_blob Zircon.long_name)
  = ZX_ERR_BAD_PATH /\
  getenv [((key_prefix ++ "lib/" ++ Zircon.long_name)%string, "blob-id")]
         (key_prefix ++ "lib/" ++ Zircon.long_name) = Some "blob-id" /\
  opened (io_of (pkgfs_ldsvc_load_object
                   [((key_prefix ++ "lib/" ++ Zircon.long_name)%string,
                     "blob-id")]
                   Zircon.one_blob Zircon.long_name)) = [].
Proof. repeat split; vm_compute; reflexivity. Qed.

(** C10: a name whose key does not fit the 256-byte key buffer is answered
    with the bad-path error, which is not the "not found" error, without
    any call: the boot configuration is not consulted and no blob is
    opened, whatever they hold. *)
Theorem C10_long_key_is_bad_path env ctx prefix name :
  (256 <= String.length (key_prefix ++ prefix ++ name))%nat ->
  pkgfs_ldsvc_load_blob env ctx prefix name = (ZX_ERR_BAD_PATH, None, []) /\
  ZX_ERR_BAD_PATH <> ZX_ERR_NOT_FOUND /\
  forall env' ctx',
    pkgfs_ldsvc_load_blob env' ctx' prefix name =
    pkgfs_ldsvc_load_blob env ctx prefix name.
Proof.
  intros Hlong.
  assert (Hbad : forall e c,
             pkgfs_ldsvc_load_blob e c prefix name
             = (ZX_ERR_BAD_PATH, None, [])).
  { intros e c. unfold pkgfs_ldsvc_load_blob, snprintf.
    destruct (key_size <=? _) eqn:Hle; [reflexivity|].
    apply Z.leb_gt in Hle. unfold key_size in Hle. lia. }
  split; [apply Hbad | split; [discriminate|]].
  intros env' ctx'. now rewrite !Hbad.
Qed.

Lemma C10_long_key_is_bad_path_witness :
  pkgfs_ldsvc_load_blob Zircon.pkgsvr_env Zircon.one_blob "lib/"
                        Zircon.long_name
  = (ZX_ERR_BAD_PATH, None, []).
Proof.
  apply (C10_long_key_is_bad_path Zircon.pkgsvr_env Zircon.one_blob "lib/"
                                  Zircon.long_name).
  apply Nat.leb_le. vm_compute. reflexivity.
Defined.

End LdsvcFacts.

(* ===================================================================== *)
(** ** Frame lemmas: what each function does to statics and mounts *)
(* ===================================================================== *)

Lemma mount_calls_app t1 t2 :
  mount_calls (t1 ++ t2) = mount_calls t1 ++ mount_calls t2.
Proof.
  induction t1 as [|c t1 IH]; simpl; [reflexivity|].
  destruct c; simpl; rewrite ?IH; reflexivity.
Qed.

Section Frames.

Context {hdr : Headers}.
Variable cfg : config.
Variable w : world.

Lemma pkgfs_finish_frame st :
  statics_of (pkgfs_finish w st) = st /\
  mount_calls (trace_of (pkgfs_finish w st)) = [].
Proof. unfold pkgfs_finish. branch; auto. Qed.

Lemma old_launch_blob_init_frame st :
  statics_of (old_launch_blob_init cfg w st) = st /\
  mount_calls (trace_of (old_launch_blob_init cfg w st)) = [].
Proof.
  unfold old_launch_blob_init, pkgfs_finish. branch; auto.
Qed.

Lemma pkgfs_launch_frame st :
  statics_of (pkgfs_launch cfg w st) = st /\
  mount_calls (trace_of (pkgfs_launch cfg w st)) = [].
Proof.
  unfold pkgfs_launch, pkgfs_finish. branch; auto.
Qed.

Lemma launch_blob_init_frame st :
  statics_of (launch_blob_init cfg w st) = st /\
  mount_calls (trace_of (launch_blob_init cfg w st)) = [].
Proof.
  unfold launch_blob_init. mred.
  destruct (pkgfs_launch_frame st) as [Hs Ht].
  destruct (pkgfs_launch cfg w st) as [[launched s1] t1]. cbn [statics_of trace_of fst snd] in Hs, Ht.
  subst s1.
  destruct (old_launch_blob_init_frame st) as [Hs' Ht'].
  destruct launched; mred.
  - rewrite mount_calls_app, Ht. auto.
  - destruct (old_launch_blob_init cfg w st) as [[u s2] t2].
    cbn [statics_of trace_of fst snd] in Hs', Ht'. mred. rewrite mount_calls_app, Ht, Ht'. auto.
Qed.

Lemma fshost_fsck_frame path df st :
  statics_of (fshost_fsck cfg w path df st) = st /\
  mount_calls (trace_of (fshost_fsck cfg w path df st)) = [].
Proof.
  unfold fshost_fsck, fsck, launch_fsck. branch; auto.
Qed.

End Frames.

(* ===================================================================== *)
(** ** One invocation of the handler *)
(* ===================================================================== *)

Lemma bind_result {A B} (m : M A) (k : A -> M B) st :
  result_of (bind m k st) = result_of (k (result_of (m st)) (statics_of (m st))).
Proof.
  unfold bind. destruct (m st) as [[a s1] t1]. mred.
  now destruct (k a s1) as [[b s2] t2].
Qed.

Lemma bind_statics {A B} (m : M A) (k : A -> M B) st :
  statics_of (bind m k st)
  = statics_of (k (result_of (m st)) (statics_of (m st))).
Proof.
  unfold bind. destruct (m st) as [[a s1] t1]. mred.
  now destruct (k a s1) as [[b s2] t2].
Qed.

Lemma bind_trace {A B} (m : M A) (k : A -> M B) st :
  trace_of (bind m k st)
  = trace_of (m st) ++ trace_of (k (result_of (m st)) (statics_of (m st))).
Proof.
  unfold bind. destruct (m st) as [[a s1] t1]. mred.
  now destruct (k a s1) as [[b s2] t2].
Qed.

Lemma framed_ext {A} (c : call) (a : A) :
  mount_calls [c] = [] -> framed (ext c a).
Proof. intros Hc st. now split. Qed.

Section Step.

Context {hdr : Headers}.
Variable cfg : config.
Variable w : world.

Lemma good_ret : good w (ret ZX_OK).
Proof. intros st. split; [reflexivity | constructor]. Qed.

Lemma good_bind {A} (m : M A) (k : A -> M zx_status_t) :
  framed m -> (forall a, good w (k a)) -> good w (bind m k).
Proof.
  intros Hm Hk st. destruct (Hm st) as [Hs Ht].
  rewrite bind_result, bind_statics, bind_trace, mount_calls_app, Hs, Ht.
  apply Hk.
Qed.

Lemma good_close : good w (close_and_return).
Proof. intros st. split; [reflexivity | constructor]. Qed.

Lemma good_bind_and_close lib : good w (bind_and_close lib).
Proof. intros st. split; [reflexivity | constructor]. Qed.

Lemma mount_minfs_step options st :
  mount_step w st (statics_of (mount_minfs cfg w options st))
             (mount_calls (trace_of (mount_minfs cfg w options st))).
Proof.
  unfold mount_minfs, mount_system, mount, ioctl_block_get_type_guid.
  destruct (w_type_guid w); branch; eauto using mount_step.
Qed.

Lemma good_mount_minfs options :
  good w (mount_minfs cfg w options ;; ret ZX_OK).
Proof.
  intros st.
  rewrite bind_result, bind_statics, bind_trace. cbn [ret result_of statics_of trace_of fst snd].
  rewrite app_nil_r. split; [reflexivity | apply mount_minfs_step].
Qed.

Lemma good_blob_mount :
  good w (s <- get ;;
          (if negb (blob_mounted s) then
             status <- mount w ("/fs" ++ PATH_BLOB)%string DISK_FORMAT_BLOBFS
                             default_mount_options launch_blobfs ;;
             if negb (is_ok status) then ret tt
             else modify (set_blob_mounted true) ;; launch_blob_init cfg w
           else ret tt) ;;
          ret ZX_OK).
Proof.
  intros st. unfold mount. mred.
  destruct (blob_mounted st) eqn:Hb; mred;
    [split; [reflexivity | constructor]|].
  destruct (is_ok (w_mount w)) eqn:Hok; mred.
  - destruct (launch_blob_init_frame cfg w (set_blob_mounted true st))
      as [Hs Ht].
    destruct (launch_blob_init cfg w (set_blob_mounted true st))
      as [[u s1] t1].
    cbn [statics_of trace_of fst snd] in Hs, Ht. subst s1. mred.
    rewrite mount_calls_app, Ht. split; [reflexivity|].
    apply ms_blob_mounted; [exact Hb | now apply is_ok_true].
  - split; [reflexivity|].
    apply ms_blob_failed; [exact Hb | now apply is_ok_false].
Qed.

Lemma framed_fshost_fsck path df : framed (fshost_fsck cfg w path df).
Proof. intros st. apply fshost_fsck_frame. Qed.

Lemma block_device_added_good ev name :
  good w (block_device_added cfg w ev name).
Proof.
  unfold block_device_added.
  destruct (is_add_file ev); cbn [negb]; [|apply good_ret].
  apply good_bind; [now apply framed_ext|]. intros opened.
  destruct opened; cbn [negb]; [|apply good_ret].
  destruct (is_bootpart w); [apply good_bind_and_close|].
  cbv zeta.
  assert (Hnet :
    good w (if memcmp (snd (ioctl_block_get_type_guid w GUID_EMPTY_VALUE))
                      GUID_INSTALL_VALUE (Z.to_nat GPT_GUID_LEN) =? 0
            then mount_minfs cfg w
                   (set_wait_until_ready false default_mount_options) ;;
                 ret ZX_OK
            else close_and_return)).
  { destruct (_ =? 0); [apply good_mount_minfs | apply good_close]. }
  destruct (w_format w) eqn:Hdf; try apply good_bind_and_close;
    (destruct (netboot cfg); [exact Hnet|]); try apply good_close.
  - (* MINFS *)
    apply good_bind; [apply framed_fshost_fsck|]. intros a.
    destruct (is_ok a); cbn [negb];
      [apply good_mount_minfs | apply good_close].
  - (* FAT *)
    intros st. unfold ioctl_block_get_type_guid, close_and_return, mount.
    destruct (w_type_guid w); branch; split;
      solve [reflexivity | constructor].
  - (* BLOBFS *)
    destruct (negb _); [apply good_close|].
    apply good_bind; [apply framed_fshost_fsck|]. intros a.
    destruct (is_ok a); cbn [negb];
      [apply good_blob_mount | apply good_close].
Qed.

End Step.

(* ===================================================================== *)
(** ** Runs of the watcher *)
(* ===================================================================== *)

Lemma disk_format_eqb_eq a b : disk_format_eqb a b = true <-> a = b.
Proof. destruct a, b; simpl; split; congruence. Qed.

Lemma fs_path_eqb p q :
  p <> q -> String.eqb ("/fs" ++ p) ("/fs" ++ q) = false.
Proof.
  intros Hpq. apply String.eqb_neq. intros Heq. apply Hpq.
  now apply append_inj_l in Heq.
Qed.

Section Runs.

Context {hdr : Headers}.
Variable cfg : config.

Lemma watch_cons a rest st :
  let r1 := handle_arrival cfg a st in
  statics_of (fdio_watch_directory (handle_arrival cfg) (a :: rest) st)
  = statics_of (fdio_watch_directory (handle_arrival cfg) rest (statics_of r1))
  /\
  trace_of (fdio_watch_directory (handle_arrival cfg) (a :: rest) st)
  = trace_of r1
    ++ trace_of (fdio_watch_directory (handle_arrival cfg) rest
                                      (statics_of r1)).
Proof.
  cbv zeta. cbn [fdio_watch_directory].
  rewrite bind_statics, bind_trace.
  assert (Hok : result_of (handle_arrival cfg a st) = ZX_OK)
    by apply block_device_added_good.
  rewrite Hok. cbn [is_ok]. split; reflexivity.
Qed.

(** Every step of a run is a [mount_step]; an invariant of the steps that
    telescopes holds of the run. *)
Lemma run_invariant
      (I : statics -> statics -> list (string * disk_format_t) -> Prop) :
  (forall s, I s s []) ->
  (forall w s1 s2 s3 m1 m2,
      mount_step w s1 s2 m1 -> I s2 s3 m2 -> I s1 s3 (m1 ++ m2)) ->
  forall events st,
    I st
      (statics_of (fdio_watch_directory (handle_arrival cfg) events st))
      (mount_calls
         (trace_of (fdio_watch_directory (handle_arrival cfg) events st))).
Proof.
  intros Hnil Hstep events.
  induction events as [|a rest IH]; intros st.
  - apply Hnil.
  - destruct (watch_cons a rest st) as [Hs Ht]. rewrite Hs, Ht.
    rewrite mount_calls_app.
    eapply Hstep; [|apply IH].
    apply (block_device_added_good cfg (a_world a) (a_event a) (a_name a) st).
Qed.

End Runs.

Section Latches.

Context {hdr : Headers}.

Lemma is_mount_of_same p df : is_mount_of p df (p, df) = true.
Proof.
  unfold is_mount_of. cbn [fst snd]. rewrite String.eqb_refl.
  now destruct df.
Qed.

Lemma is_mount_of_other_path p q df df' :
  p <> q -> is_mount_of ("/fs" ++ p) df (("/fs" ++ q)%string, df') = false.
Proof.
  intros Hpq. unfold is_mount_of. cbn [fst snd].
  now rewrite fs_path_eqb.
Qed.

Lemma is_mount_of_other_format p q df df' :
  df <> df' -> is_mount_of p df (q, df') = false.
Proof.
  intros Hdf. unfold is_mount_of. cbn [fst snd].
  destruct (disk_format_eqb df df') eqn:E; [|apply andb_false_r].
  apply disk_format_eqb_eq in E. contradiction.
Qed.

(** The mounts of a role's root that a run makes, plus its latch before
    the run, never exceed its latch after the run. *)
Lemma latch_potential cfg events st :
  PATH_DATA <> PATH_SYSTEM ->
  PATH_INSTALL <> PATH_SYSTEM ->
  PATH_DATA <> PATH_INSTALL ->
  let r := fdio_watch_directory (handle_arrival cfg) events st in
  (mounts_at ("/fs" ++ PATH_DATA) DISK_FORMAT_MINFS (trace_of r)
   + b2n (data_mounted st) <= b2n (data_mounted (statics_of r)))%nat /\
  (mounts_at ("/fs" ++ PATH_INSTALL) DISK_FORMAT_MINFS (trace_of r)
   + b2n (install_mounted st) <= b2n (install_mounted (statics_of r)))%nat.
Proof.
  intros Hds His Hdi r. subst r. unfold mounts_at.
  apply (run_invariant cfg
    (fun s s' ms =>
       (List.length (filter (is_mount_of ("/fs" ++ PATH_DATA)
                                         DISK_FORMAT_MINFS) ms)
        + b2n (data_mounted s) <= b2n (data_mounted s'))%nat /\
       (List.length (filter (is_mount_of ("/fs" ++ PATH_INSTALL)
                                         DISK_FORMAT_MINFS) ms)
        + b2n (install_mounted s) <= b2n (install_mounted s'))%nat)).
  - intros s. cbn [filter List.length]. lia.
  - intros w s1 s2 s3 m1 m2 Hstep [Hd Hi].
    rewrite !filter_app, !length_app.
    inversion Hstep; subst; cbn [filter];
      rewrite ?is_mount_of_same;
      rewrite ?is_mount_of_other_path by congruence;
      rewrite ?is_mount_of_other_format by discriminate;
      cbn [List.length set_data_mounted set_install_mounted
           set_blob_mounted set_fat_counter data_mounted install_mounted]
        in *;
      repeat match goal with
             | H : _ = false |- _ => rewrite H in *
             end;
      cbn [b2n] in *; lia.
Qed.

(** C1 (as amended): over any run of the watcher, from any statics, the
    data root and the install root are each the target of at most one
    mount call, whatever the mount answered; none at all once the latch
    of the role is set; and a run that made the attempt ends with the
    latch set.  In particular, over the lifetime of the process, which
    starts with both latches clear, each of the two roots is mounted at
    most once. *)
Theorem C1_data_install_mount_once cfg events st :
  PATH_DATA <> PATH_SYSTEM ->
  PATH_INSTALL <> PATH_SYSTEM ->
  PATH_DATA <> PATH_INSTALL ->
  let r := fdio_watch_directory (handle_arrival cfg) events st in
  let data := mounts_at ("/fs" ++ PATH_DATA) DISK_FORMAT_MINFS (trace_of r) in
  let install :=
    mounts_at ("/fs" ++ PATH_INSTALL) DISK_FORMAT_MINFS (trace_of r) in
  ((data <= 1)%nat /\ (install <= 1)%nat /\
   (data_mounted st = true -> data = 0%nat) /\
   (install_mounted st = true -> install = 0%nat) /\
   (data = 1%nat -> data_mounted (statics_of r) = true) /\
   (install = 1%nat -> install_mounted (statics_of r) = true)) /\
  forall dir_open,
    let t := snd (block_device_watcher (netboot cfg) (boot_env cfg)
                                       dir_open events) in
    (mounts_at ("/fs" ++ PATH_DATA) DISK_FORMAT_MINFS t <= 1)%nat /\
    (mounts_at ("/fs" ++ PATH_INSTALL) DISK_FORMAT_MINFS t <= 1)%nat.
Proof.
  intros Hds His Hdi r data install. split.
  - destruct (latch_potential cfg events st Hds His Hdi) as [Hd Hi].
    fold r in Hd, Hi. fold data in Hd. fold install in Hi.
    destruct (data_mounted st), (install_mounted st),
      (data_mounted (statics_of r)), (install_mounted (statics_of r));
      cbn [b2n] in *; repeat split; intros; try lia; try reflexivity;
      try discriminate.
  - intros [|]; unfold block_device_watcher; cbv zeta; cbn [snd].
    + destruct (latch_potential
                  {| netboot := netboot cfg; boot_env := boot_env cfg |}
                  events statics_init Hds His Hdi) as [Hd Hi].
      assert (Hb : forall b, (b2n b <= 1)%nat)
        by (intros []; cbn [b2n]; lia).
      match type of Hd with (_ <= b2n ?x)%nat => pose proof (Hb x) end.
      match type of Hi with (_ <= b2n ?x)%nat => pose proof (Hb x) end.
      lia.
    + unfold mounts_at. cbn. lia.
Qed.

End Latches.

(* ===================================================================== *)
(** ** The blob latch and the integrity check *)
(* ===================================================================== *)

Section Blob.

Context {hdr : Headers}.
Variable cfg : config.

Lemma fshost_fsck_result w path df st :
  is_ok (result_of (fshost_fsck cfg w path df st)) = fsck_passes cfg w.
Proof.
  unfold fshost_fsck, fsck, launch_fsck, fsck_passes.
  destruct (getenv_bool _ _ _); cbn [negb orb]; [|reflexivity].
  mred.
  destruct (w_fsck_launch w) eqn:E1; cbn [is_ok negb andb]; mred;
    try reflexivity.
  destruct (w_fsck_wait w) eqn:E2; cbn [is_ok negb andb]; mred;
    try reflexivity.
  destruct (w_fsck_get_info w) eqn:E3; cbn [is_ok negb andb]; mred;
    try reflexivity.
  destruct (w_fsck_return_code w =? 0); reflexivity.
Qed.

Lemma blob_role_device_inv w :
  blob_role_device cfg w = true ->
  netboot cfg = false /\ w_openat w = true /\ is_bootpart w = false /\
  w_format w = DISK_FORMAT_BLOBFS /\
  (memcmp (snd (ioctl_block_get_type_guid w GUID_EMPTY_VALUE))
          GUID_BLOB_VALUE (Z.to_nat GPT_GUID_LEN) =? 0) = true.
Proof.
  unfold blob_role_device, device_guid. intros H.
  repeat (apply andb_true_iff in H; destruct H as [H ?]).
  repeat split; try assumption.
  - now apply negb_true_iff.
  - now apply negb_true_iff.
  - now apply disk_format_eqb_eq.
Qed.

(** The handler on a device of the blob role, up to the integrity check. *)
Lemma blob_branch w name st :
  blob_role_device cfg w = true ->
  block_device_added cfg w WATCH_EVENT_ADD_FILE name st
  = (ext (c_openat name) true ;;
     st0 <- fshost_fsck cfg w (PATH_DEV_BLOCK ++ "/" ++ name)
                        DISK_FORMAT_BLOBFS ;;
     if negb (is_ok st0) then close_and_return
     else
       s <- get ;;
       (if negb (blob_mounted s) then
          status <- mount w ("/fs" ++ PATH_BLOB)%string DISK_FORMAT_BLOBFS
                          default_mount_options launch_blobfs ;;
          if negb (is_ok status) then ret tt
          else modify (set_blob_mounted true) ;; launch_blob_init cfg w
        else ret tt) ;;
       ret ZX_OK) st.
Proof.
  intros H. apply blob_role_device_inv in H.
  destruct H as (Hnet & Hopen & Hboot & Hdf & Hguid).
  unfold block_device_added. cbn [is_add_file negb].
  rewrite Hopen, Hboot, Hdf, Hnet, Hguid. reflexivity.
Qed.

(** One invocation on a device of the blob role that passed the check,
    with the latch clear: the whole answer of the handler. *)
Lemma blob_invocation w name st :
  blob_role_device cfg w = true ->
  fsck_passes cfg w = true ->
  blob_mounted st = false ->
  exists t1,
    mount_calls t1 = [] /\
    block_device_added cfg w WATCH_EVENT_ADD_FILE name st
    = if is_ok (w_mount w) then
        (ZX_OK, set_blob_mounted true st,
         c_openat name
           :: t1 ++ c_mount ("/fs" ++ PATH_BLOB)%string DISK_FORMAT_BLOBFS
                            default_mount_options launch_blobfs
           :: trace_of (launch_blob_init cfg w (set_blob_mounted true st)))
      else
        (ZX_OK, st,
         c_openat name
           :: t1 ++ [c_mount ("/fs" ++ PATH_BLOB)%string DISK_FORMAT_BLOBFS
                             default_mount_options launch_blobfs]).
Proof.
  intros Hdev Hfsck Hb.
  rewrite (blob_branch w name st Hdev).
  pose proof (fshost_fsck_result w (PATH_DEV_BLOCK ++ "/" ++ name)
                                 DISK_FORMAT_BLOBFS st) as Hres.
  rewrite Hfsck in Hres.
  destruct (fshost_fsck_frame cfg w (PATH_DEV_BLOCK ++ "/" ++ name)
                              DISK_FORMAT_BLOBFS st) as [Hs Hm].
  unfold mount. mred.
  destruct (fshost_fsck cfg w (PATH_DEV_BLOCK ++ "/" ++ name)
                        DISK_FORMAT_BLOBFS st) as [[a s1] t1].
  cbn [result_of statics_of trace_of fst snd] in Hres, Hs, Hm. subst s1.
  exists t1. split; [exact Hm|].
  rewrite Hres. mred. rewrite Hb. mred.
  destruct (is_ok (w_mount w)); mred.
  - destruct (launch_blob_init_frame cfg w (set_blob_mounted true st))
      as [Hs' _].
    destruct (launch_blob_init cfg w (set_blob_mounted true st))
      as [[u s2] t2].
    cbn [statics_of trace_of fst snd] in *. subst s2.
    rewrite app_nil_r. reflexivity.
  - reflexivity.
Qed.

(** The blob mounts of such an invocation: the one it makes. *)
Lemma blob_invocation_mounts w name st :
  blob_role_device cfg w = true ->
  fsck_passes cfg w = true ->
  blob_mounted st = false ->
  mounts_at ("/fs" ++ PATH_BLOB) DISK_FORMAT_BLOBFS
            (trace_of (block_device_added cfg w WATCH_EVENT_ADD_FILE name st))
  = 1%nat.
Proof.
  intros Hdev Hfsck Hb.
  destruct (blob_invocation w name st Hdev Hfsck Hb) as (t1 & Hm & Heq).
  rewrite Heq. unfold mounts_at.
  destruct (is_ok (w_mount w)); cbn [trace_of snd mount_calls];
    rewrite mount_calls_app, Hm; cbn [app mount_calls].
  - rewrite (proj2 (launch_blob_init_frame cfg w (set_blob_mounted true st))).
    cbn [filter]. now rewrite is_mount_of_same.
  - cbn [filter]. now rewrite is_mount_of_same.
Qed.

(** Once the latch is set, no run mounts the blob root again, and the
    latch stays set. *)
Lemma blob_latch_closes events st :
  blob_mounted st = true ->
  blob_mounted
    (statics_of (fdio_watch_directory (handle_arrival cfg) events st)) = true /\
  mounts_at ("/fs" ++ PATH_BLOB) DISK_FORMAT_BLOBFS
            (trace_of (fdio_watch_directory (handle_arrival cfg) events st))
  = 0%nat.
Proof.
  unfold mounts_at.
  apply (run_invariant cfg
    (fun s s' ms =>
       blob_mounted s = true ->
       blob_mounted s' = true /\
       List.length (filter (is_mount_of ("/fs" ++ PATH_BLOB)
                                        DISK_FORMAT_BLOBFS) ms) = 0%nat)).
  + intros s Hs. now split.
  + intros w s1 s2 s3 m1 m2 Hstep IH Hs1.
    rewrite filter_app, length_app.
    inversion Hstep; subst; cbn [filter];
      rewrite ?is_mount_of_other_format by discriminate;
      cbn [List.length Nat.add];
      try (apply IH; cbn [set_data_mounted set_install_mounted
                          set_fat_counter blob_mounted]; exact Hs1);
      congruence.
Qed.

(** C2: the blob latch is set only by a mount call that succeeded.  A
    device of the blob role that passes the integrity check while the
    latch is clear is mounted at the blob root, once; when the mount fails
    the statics are left as they were, the latch is still clear and
    nothing follows the mount call; when it succeeds the latch is set and
    the package-filesystem bootstrap runs right after the mount.  Once the
    latch is set no run ever mounts the blob root again.  An invocation
    that turns the latch from clear to set made the mount call and got
    [ZX_OK] for it.  And across invocations: after a mount that succeeded,
    no later run, whatever arrives, mounts the blob root; after one that
    failed, the next device of the blob role that passes the check is
    mounted at the blob root, and when that mount succeeds the latch is
    set and the bootstrap runs. *)
Theorem C2_blob_latch_after_success :
  (forall w name st,
      blob_role_device cfg w = true ->
      fsck_passes cfg w = true ->
      blob_mounted st = false ->
      let r := block_device_added cfg w WATCH_EVENT_ADD_FILE name st in
      let m := c_mount ("/fs" ++ PATH_BLOB)%string DISK_FORMAT_BLOBFS
                       default_mount_options launch_blobfs in
      mounts_at ("/fs" ++ PATH_BLOB) DISK_FORMAT_BLOBFS (trace_of r) = 1%nat /\
      if is_ok (w_mount w) then
        statics_of r = set_blob_mounted true st /\
        blob_mounted (statics_of r) = true /\
        exists pre,
          trace_of r
          = pre ++ m :: trace_of (launch_blob_init cfg w
                                    (set_blob_mounted true st))
      else
        statics_of r = st /\
        blob_mounted (statics_of r) = false /\
        exists pre, trace_of r = pre ++ [m]) /\
  (forall events st,
      blob_mounted st = true ->
      let r := fdio_watch_directory (handle_arrival cfg) events st in
      blob_mounted (statics_of r) = true /\
      mounts_at ("/fs" ++ PATH_BLOB) DISK_FORMAT_BLOBFS (trace_of r) = 0%nat) /\
  (forall w ev name st,
      blob_mounted st = false ->
      let r := block_device_added cfg w ev name st in
      blob_mounted (statics_of r) = true ->
      w_mount w = ZX_OK /\
      mounts_at ("/fs" ++ PATH_BLOB) DISK_FORMAT_BLOBFS (trace_of r) = 1%nat) /\
  (forall w name st,
      blob_role_device cfg w = true ->
      fsck_passes cfg w = true ->
      blob_mounted st = false ->
      let r := block_device_added cfg w WATCH_EVENT_ADD_FILE name st in
      (w_mount w = ZX_OK ->
       forall events,
         mounts_at ("/fs" ++ PATH_BLOB) DISK_FORMAT_BLOBFS
                   (trace_of (fdio_watch_directory (handle_arrival cfg) events
                                                   (statics_of r)))
         = 0%nat) /\
      (w_mount w <> ZX_OK ->
       forall w' name',
         blob_role_device cfg w' = true ->
         fsck_passes cfg w' = true ->
         let r' := block_device_added cfg w' WATCH_EVENT_ADD_FILE name'
                                      (statics_of r) in
         mounts_at ("/fs" ++ PATH_BLOB) DISK_FORMAT_BLOBFS (trace_of r')
         = 1%nat /\
         (w_mount w' = ZX_OK ->
          blob_mounted (statics_of r') = true /\
          exists pre,
            trace_of r'
            = pre ++ c_mount ("/fs" ++ PATH_BLOB)%string DISK_FORMAT_BLOBFS
                             default_mount_options launch_blobfs
                  :: trace_of (launch_blob_init cfg w' (statics_of r'))))).
Proof.
  split; [|split; [|split]].
  - intros w name st Hdev Hfsck Hb r m.
    split; [apply blob_invocation_mounts; assumption|].
    destruct (blob_invocation w name st Hdev Hfsck Hb) as (t1 & _ & Heq).
    subst r m. rewrite Heq.
    destruct (is_ok (w_mount w)); cbn [statics_of trace_of fst snd].
    + split; [reflexivity|]. split; [reflexivity|].
      exists (c_openat name :: t1). reflexivity.
    + split; [reflexivity|]. split; [exact Hb|].
      exists (c_openat name :: t1). reflexivity.
  - intros events st Hb r. subst r. now apply blob_latch_closes.
  - intros w ev name st Hb r. subst r. unfold mounts_at.
    destruct (block_device_added_good cfg w ev name st) as [_ Hstep].
    revert Hstep.
    generalize (statics_of (block_device_added cfg w ev name st)).
    generalize (mount_calls (trace_of (block_device_added cfg w ev name st))).
    intros ms s' Hstep Hs'.
    inversion Hstep; subst;
      cbn [set_data_mounted set_install_mounted set_fat_counter
           blob_mounted] in Hs'; try congruence.
    split; [assumption|]. cbn [filter].
    now rewrite is_mount_of_same.
  - intros w name st Hdev Hfsck Hb r.
    destruct (blob_invocation w name st Hdev Hfsck Hb) as (t1 & _ & Heq).
    split.
    + intros Hok events. apply blob_latch_closes.
      subst r. rewrite Heq, Hok. reflexivity.
    + intros Hfail w' name' Hdev' Hfsck' r'.
      assert (Hs : statics_of r = st).
      { subst r. rewrite Heq. apply is_ok_false in Hfail. now rewrite Hfail. }
      subst r'. rewrite Hs.
      split; [apply blob_invocation_mounts; assumption|].
      intros Hok'.
      destruct (blob_invocation w' name' st Hdev' Hfsck' Hb)
        as (t1' & _ & Heq').
      rewrite Heq', Hok'. cbn [is_ok statics_of trace_of fst snd].
      split; [reflexivity|].
      exists (c_openat name' :: t1'). reflexivity.
Qed.

(** C5: with the integrity-check flag off, the check is skipped: it
    answers [ZX_OK] without a call.  With the flag on, a child that could
    not be launched, waited for or inspected, or that exited with a
    non-zero code, makes the check fail; the handler then makes no mount
    call for the device (MINFS, or BLOBFS of the blob role), closes its
    descriptor last, leaves the statics alone and answers [ZX_OK], so the
    watcher goes on with the next event. *)
Theorem C5_integrity_check_gate w name st :
  (getenv_bool (boot_env cfg) "zircon.system.filesystem-check" false = false ->
   forall path df, fshost_fsck cfg w path df st = (ZX_OK, st, [])) /\
  (getenv_bool (boot_env cfg) "zircon.system.filesystem-check" false = true ->
   is_ok (w_fsck_launch w) && is_ok (w_fsck_wait w)
   && is_ok (w_fsck_get_info w) && (w_fsck_return_code w =? 0) = false ->
   (forall path df, result_of (fshost_fsck cfg w path df st) <> ZX_OK) /\
   (netboot cfg = false -> w_openat w = true -> is_bootpart w = false ->
    w_format w = DISK_FORMAT_MINFS \/ blob_role_device cfg w = true ->
    let r := block_device_added cfg w WATCH_EVENT_ADD_FILE name st in
    result_of r = ZX_OK /\ statics_of r = st /\
    mount_calls (trace_of r) = [] /\
    (exists pre, trace_of r = pre ++ [c_close dev_fd]) /\
    forall rest,
      trace_of (fdio_watch_directory
                  (handle_arrival cfg)
                  ({| a_event := WATCH_EVENT_ADD_FILE; a_name := name;
                      a_world := w |} :: rest) st)
      = trace_of r
        ++ trace_of (fdio_watch_directory (handle_arrival cfg) rest st))).
Proof.
  split.
  - intros Hoff path df. unfold fshost_fsck. now rewrite Hoff.
  - intros Hon Hfail.
    assert (Hno : fsck_passes cfg w = false).
    { unfold fsck_passes. rewrite Hon, Hfail. reflexivity. }
    assert (Hres : forall path df,
               is_ok (result_of (fshost_fsck cfg w path df st)) = false).
    { intros. now rewrite fshost_fsck_result. }
    split; [intros path df; apply is_ok_false, Hres|].
    intros Hnet Hopen Hboot Hdf r.
    assert (Hr : result_of r = ZX_OK /\ statics_of r = st /\
                 mount_calls (trace_of r) = [] /\
                 exists pre, trace_of r = pre ++ [c_close dev_fd]).
    { subst r.
      assert (Hgate : forall df,
        exists a t1,
          fshost_fsck cfg w (PATH_DEV_BLOCK ++ "/" ++ name) df st
          = (a, st, t1) /\ is_ok a = false /\ mount_calls t1 = []).
      { intros df. specialize (Hres (PATH_DEV_BLOCK ++ "/" ++ name)%string df).
        destruct (fshost_fsck_frame cfg w (PATH_DEV_BLOCK ++ "/" ++ name) df st)
          as [Hs Ht].
        destruct (fshost_fsck cfg w (PATH_DEV_BLOCK ++ "/" ++ name) df st)
          as [[a s1] t1].
        cbn [result_of statics_of trace_of fst snd] in Hres, Hs, Ht.
        subst s1. now exists a, t1. }
      destruct Hdf as [Hdf | Hdev].
      - destruct (Hgate DISK_FORMAT_MINFS) as (a & t1 & E & Ha & Ht).
        unfold block_device_added. cbn [is_add_file negb].
        rewrite Hopen, Hboot, Hdf, Hnet.
        unfold close_and_return. mred. rewrite E, Ha. mred.
        rewrite mount_calls_app, Ht.
        repeat split. exists (c_openat name :: t1). reflexivity.
      - destruct (Hgate DISK_FORMAT_BLOBFS) as (a & t1 & E & Ha & Ht).
        rewrite (blob_branch w name st Hdev).
        unfold close_and_return. mred. rewrite E, Ha. mred.
        rewrite mount_calls_app, Ht.
        repeat split. exists (c_openat name :: t1). reflexivity. }
    destruct Hr as (Hok & Hst & Hm & Hclose).
    repeat split; try assumption.
    intros rest.
    destruct (watch_cons cfg {| a_event := WATCH_EVENT_ADD_FILE;
                                a_name := name; a_world := w |} rest st)
      as [_ Ht].
    rewrite Ht. unfold handle_arrival. cbn [a_event a_name a_world].
    fold r. now rewrite Hst.
Qed.

End Blob.

(* ===================================================================== *)
(** ** Network boot, and the descriptor on the MINFS branch *)
(* ===================================================================== *)

Section Netboot.

Context {hdr : Headers}.
Variable cfg : config.

(** C3 (as amended): in network-boot mode, a device whose type GUID is
    not the install GUID is never mounted and its descriptor is closed
    before the handler returns; no driver is bound to it either, unless it
    is flagged as a boot partition or its format is a partition container
    (GPT, FVM, MBR, zxcrypt), which is bound to its driver first. *)
Theorem C3_netboot_leaves_other_devices w name st :
  netboot cfg = true ->
  w_openat w = true ->
  memcmp (device_guid w) GUID_INSTALL_VALUE (Z.to_nat GPT_GUID_LEN) <> 0 ->
  let r := block_device_added cfg w WATCH_EVENT_ADD_FILE name st in
  result_of r = ZX_OK /\ statics_of r = st /\
  mount_calls (trace_of r) = [] /\
  trace_of r
  = match container_driver w with
    | Some lib => [c_openat name; c_ioctl_device_bind lib; c_close dev_fd]
    | None => [c_openat name; c_close dev_fd]
    end.
Proof.
  intros Hnet Hopen Hguid r. subst r.
  apply Z.eqb_neq in Hguid. unfold device_guid in Hguid.
  unfold block_device_added, container_driver, bind_and_close,
    close_and_return.
  cbn [is_add_file negb]. rewrite Hopen.
  destruct (is_bootpart w); mred; [now repeat split|].
  destruct (w_format w); rewrite ?Hnet, ?Hguid; mred; now repeat split.
Qed.

(** Where [mount_minfs] returns before it mounts, the handler made no
    call after it: on the MINFS branch with the integrity check off, the
    device descriptor is then neither closed nor handed to [mount]. *)
Lemma minfs_early_return_leaves_fd_open w name st :
  netboot cfg = false ->
  w_openat w = true -> is_bootpart w = false ->
  w_format w = DISK_FORMAT_MINFS ->
  getenv_bool (boot_env cfg) "zircon.system.filesystem-check" false = false ->
  mount_calls
    (trace_of (mount_minfs cfg w
                 (set_wait_until_ready false default_mount_options) st)) = [] ->
  trace_of (mount_minfs cfg w
              (set_wait_until_ready false default_mount_options) st) = [] /\
  trace_of (block_device_added cfg w WATCH_EVENT_ADD_FILE name st)
  = [c_openat name] /\
  dev_fd_released
    (trace_of (block_device_added cfg w WATCH_EVENT_ADD_FILE name st)) = false.
Proof.
  intros Hnet Hopen Hboot Hdf Hoff Hnone.
  assert (Hempty :
    trace_of (mount_minfs cfg w
                (set_wait_until_ready false default_mount_options) st) = []).
  { revert Hnone.
    unfold mount_minfs, mount_system, mount, ioctl_block_get_type_guid.
    destruct (w_type_guid w); branch; intros Hm;
      solve [reflexivity | discriminate Hm]. }
  split; [exact Hempty|].
  unfold block_device_added, fshost_fsck. cbn [is_add_file negb].
  rewrite Hopen, Hboot, Hdf, Hnet, Hoff. mred. cbn [is_ok negb]. mred.
  destruct (mount_minfs cfg w
              (set_wait_until_ready false default_mount_options) st)
    as [[a s1] t1].
  cbn [trace_of snd] in Hempty. subst t1. mred. split; reflexivity.
Qed.

End Netboot.

(* ===================================================================== *)
(** ** The package-filesystem bootstrap *)
(* ===================================================================== *)

Section Bootstrap.

Context {hdr : Headers}.
Variable cfg : config.
Variable w : world.

(** C6 (as amended): the completion wait is bounded by 5 seconds and is
    the first call.  When it does not return in time with the ready signal
    observed (timeout, or termination without the signal) nothing else is
    called: neither installation occurs.  When it does and every step of
    the chain succeeds, the calls are exactly: install "/pkgfs", create a
    channel, open "system" under the root, install "/system", start the
    dependent services.  In every case the installer is called at most
    once per path and "/system" only after "/pkgfs"; a failure of an
    installer, of the channel creation or of the open ends the chain
    there, without retry and without service startup: the failed call is
    the last one. *)
Theorem C6_bootstrap_completion st :
  let r := pkgfs_finish w st in
  let t := trace_of r in
  statics_of r = st /\
  (exists rest, t = completion_wait :: rest) /\
  (ready w = false -> t = [completion_wait]) /\
  (ready w = true ->
   w_installer w "/pkgfs" = ZX_OK -> w_channel_finish w = ZX_OK ->
   w_fdio_open_at w = ZX_OK -> w_installer w "/system" = ZX_OK ->
   t = [completion_wait; c_installer "/pkgfs"; c_channel_create;
        c_fdio_open_at "system"; c_installer "/system"; c_fuchsia_start]) /\
  (installer_calls t = [] \/ installer_calls t = ["/pkgfs"] \/
   installer_calls t = ["/pkgfs"; "/system"]) /\
  (ready w = true -> w_installer w "/pkgfs" <> ZX_OK ->
   t = [completion_wait; c_installer "/pkgfs"]) /\
  (ready w = true -> w_installer w "/pkgfs" = ZX_OK ->
   w_channel_finish w <> ZX_OK \/ w_fdio_open_at w <> ZX_OK ->
   installer_calls t = ["/pkgfs"] /\ started t = false) /\
  (w_installer w "/system" <> ZX_OK -> started t = false) /\
  (started t = true ->
   ready w = true /\ installer_calls t = ["/pkgfs"; "/system"]) /\
  (ready w = true -> w_installer w "/pkgfs" = ZX_OK ->
   w_channel_finish w <> ZX_OK ->
   t = [completion_wait; c_installer "/pkgfs"; c_channel_create]) /\
  (ready w = true -> w_installer w "/pkgfs" = ZX_OK ->
   w_channel_finish w = ZX_OK -> w_fdio_open_at w <> ZX_OK ->
   t = [completion_wait; c_installer "/pkgfs"; c_channel_create;
        c_fdio_open_at "system"]) /\
  (ready w = true -> w_installer w "/pkgfs" = ZX_OK ->
   w_channel_finish w = ZX_OK -> w_fdio_open_at w = ZX_OK ->
   w_installer w "/system" <> ZX_OK ->
   t = [completion_wait; c_installer "/pkgfs"; c_channel_create;
        c_fdio_open_at "system"; c_installer "/system"]).
Proof.
  cbv zeta. unfold pkgfs_finish, ready, completion_wait, started. mred.
  destruct (is_ok (w_wait_one w)) eqn:Ewait; cbn [negb andb]; mred;
    [|c6_fin].
  destruct (Z.land (w_observed w) ZX_USER_SIGNAL_0 =? 0) eqn:Esig;
    cbn [negb]; mred; [c6_fin|].
  destruct (is_ok (w_installer w "/pkgfs")) eqn:E1; mred;
    [apply is_ok_true in E1 | apply is_ok_false in E1; c6_fin].
  destruct (is_ok (w_channel_finish w)) eqn:E2; mred;
    [apply is_ok_true in E2 | apply is_ok_false in E2; c6_fin].
  destruct (is_ok (w_fdio_open_at w)) eqn:E3; mred;
    [apply is_ok_true in E3 | apply is_ok_false in E3; c6_fin].
  destruct (is_ok (w_installer w "/system")) eqn:E4; mred;
    [apply is_ok_true in E4 | apply is_ok_false in E4]; c6_fin.
Qed.

(** C9 (as amended): the legacy path runs exactly when the primary path
    did not launch the package filesystem, which is when no launch command
    is configured or when opening the blob directory, creating the root
    channel or launching the command failed; a primary path without a
    configured command makes no call at all, and a primary path that
    launched is never followed by the legacy launch.  The legacy path makes
    no call when its own boot argument is absent or when the secondary
    bootfs is ready; it reaches its launch exactly when it runs, its boot
    argument is set, the secondary bootfs is not ready and its channel
    could be created. *)
Theorem C9_legacy_fallback st :
  let primary := pkgfs_launch cfg w st in
  let legacy := old_launch_blob_init cfg w st in
  let r := launch_blob_init cfg w st in
  let cmd := getenv (boot_env cfg) "zircon.system.pkgfs.cmd" in
  let blob_init := getenv (boot_env cfg) "zircon.system.blob-init" in
  (result_of primary = true <->
   is_set cmd = true /\ w_open_fs_blob w = true /\
   w_channel_pkgfs w = ZX_OK /\ w_launch_cmdline w = ZX_OK) /\
  (result_of primary = true ->
   trace_of r = trace_of primary /\
   existsb is_legacy_launch (trace_of r) = false) /\
  (result_of primary = false ->
   trace_of r = trace_of primary ++ trace_of legacy) /\
  (cmd = None -> trace_of primary = [] /\ trace_of r = trace_of legacy) /\
  (blob_init = None \/ w_secondary_bootfs_ready w = true ->
   trace_of legacy = []) /\
  (existsb is_legacy_launch (trace_of r) = true <->
   result_of primary = false /\ is_set blob_init = true /\
   w_secondary_bootfs_ready w = false /\ w_channel_old w = ZX_OK).
Proof.
  cbv zeta.
  assert (Hfin : existsb is_legacy_launch (trace_of (pkgfs_finish w st))
                 = false).
  { unfold pkgfs_finish. branch; reflexivity. }
  assert (Hprim : existsb is_legacy_launch (trace_of (pkgfs_launch cfg w st))
                  = false).
  { unfold pkgfs_launch.
    destruct (getenv (boot_env cfg) "zircon.system.pkgfs.cmd");
      [|reflexivity].
    mred. destruct (w_open_fs_blob w); mred; [|reflexivity].
    destruct (is_ok (w_channel_pkgfs w)); mred; [|reflexivity].
    destruct (is_ok (w_launch_cmdline w)); mred; [|reflexivity].
    destruct (pkgfs_finish w st) as [[u s1] t1].
    cbn [trace_of snd] in Hfin. mred.
    cbn [existsb is_legacy_launch orb]. now rewrite app_nil_r. }
  assert (Hleg :
    existsb is_legacy_launch (trace_of (old_launch_blob_init cfg w st)) = true
    <-> is_set (getenv (boot_env cfg) "zircon.system.blob-init") = true /\
        w_secondary_bootfs_ready w = false /\ w_channel_old w = ZX_OK).
  { unfold old_launch_blob_init.
    destruct (getenv (boot_env cfg) "zircon.system.blob-init");
      cbn [is_set]; [|split; [discriminate | intros (? & _); discriminate]].
    destruct (w_secondary_bootfs_ready w);
      [split; [discriminate | intros (_ & ? & _); discriminate]|].
    mred. destruct (is_ok (w_channel_old w)) eqn:E; mred.
    - apply is_ok_true in E.
      destruct (getenv (boot_env cfg) "zircon.system.blob-init-arg");
        (destruct (is_ok (w_launch_old w)); mred;
         [ destruct (pkgfs_finish w st) as [[u s1] t1]; mred |];
         cbn [existsb is_legacy_launch orb String.eqb Ascii.eqb Bool.eqb];
         now repeat split).
    - apply is_ok_false in E. split; [discriminate|].
      intros (_ & _ & ?). contradiction. }
  assert (Hres :
    result_of (pkgfs_launch cfg w st) = true <->
    is_set (getenv (boot_env cfg) "zircon.system.pkgfs.cmd") = true /\
    w_open_fs_blob w = true /\ w_channel_pkgfs w = ZX_OK /\
    w_launch_cmdline w = ZX_OK).
  { unfold pkgfs_launch.
    destruct (getenv (boot_env cfg) "zircon.system.pkgfs.cmd");
      cbn [is_set]; [|split; [discriminate | intros (? & _); discriminate]].
    mred. destruct (w_open_fs_blob w); mred;
      [|split; [discriminate | intros (_ & ? & _); discriminate]].
    destruct (is_ok (w_channel_pkgfs w)) eqn:E1; mred;
      [apply is_ok_true in E1
      | apply is_ok_false in E1; split;
        [discriminate | intros (_ & _ & ? & _); contradiction]].
    destruct (is_ok (w_launch_cmdline w)) eqn:E2; mred;
      [apply is_ok_true in E2
      | apply is_ok_false in E2; split;
        [discriminate | intros (_ & _ & _ & ?); contradiction]].
    destruct (pkgfs_finish w st) as [[u s1] t1]. mred. now repeat split. }
  assert (Hcomp :
    trace_of (launch_blob_init cfg w st)
    = trace_of (pkgfs_launch cfg w st)
      ++ (if result_of (pkgfs_launch cfg w st) then []
          else trace_of (old_launch_blob_init cfg w st))).
  { unfold launch_blob_init. rewrite bind_trace.
    destruct (pkgfs_launch_frame cfg w st) as [Hs _]. rewrite Hs.
    now destruct (result_of (pkgfs_launch cfg w st)). }
  split; [exact Hres|].
  split.
  { intros Hp. rewrite Hcomp, Hp, app_nil_r. split; [reflexivity | exact Hprim]. }
  split.
  { intros Hp. now rewrite Hcomp, Hp. }
  split.
  { intros Hcmd. rewrite Hcomp. unfold pkgfs_launch. rewrite Hcmd.
    split; reflexivity. }
  split.
  { intros [Hnone | Hsec]; unfold old_launch_blob_init.
    - now rewrite Hnone.
    - rewrite Hsec. now destruct (getenv _ _). }
  rewrite Hcomp, existsb_app, Hprim. cbn [orb].
  destruct (result_of (pkgfs_launch cfg w st)).
  - cbn [existsb]. split; [discriminate | intros (? & _); discriminate].
  - rewrite Hleg. split; [intros H; split; [reflexivity | exact H]
                         | intros (_ & H); exact H].
Qed.

End Bootstrap.

(* ===================================================================== *)
(** ** FAT volumes *)
(* ===================================================================== *)

Lemma digit_char_value d :
  0 <= d < 10 -> Z.of_nat (nat_of_ascii (digit_char d)) - 48 = d.
Proof.
  intros Hd. unfold digit_char.
  rewrite nat_ascii_embedding by lia. lia.
Qed.

Lemma fmt_u_parse fuel : forall n acc,
  0 <= n < 10 ^ Z.of_nat fuel ->
  parse_dec (fmt_u fuel n acc) 0 = parse_dec acc n.
Proof.
  induction fuel as [|fuel IH]; intros n acc Hn.
  - cbn [fmt_u]. change (10 ^ Z.of_nat 0) with 1 in Hn.
    now replace n with 0 by lia.
  - cbn [fmt_u].
    assert (Hmod : 0 <= n mod 10 < 10) by (apply Z.mod_pos_bound; lia).
    assert (Hdiv : n = 10 * (n / 10) + n mod 10) by (apply Z.div_mod; lia).
    assert (Hstep : forall v,
               parse_dec (String (digit_char (n mod 10)) acc) v
               = parse_dec acc (10 * v + n mod 10)).
    { intros v. cbn [parse_dec]. now rewrite digit_char_value. }
    destruct (n / 10 =? 0) eqn:E.
    + apply Z.eqb_eq in E. rewrite Hstep. f_equal. lia.
    + apply Z.eqb_neq in E. rewrite IH.
      * rewrite Hstep. f_equal. lia.
      * rewrite Nat2Z.inj_succ, Z.pow_succ_r in Hn by lia.
        split; [apply Z.div_pos; lia|].
        apply Z.div_lt_upper_bound; lia.
Qed.

Lemma fmt_u_length fuel : forall n acc,
  (String.length (fmt_u fuel n acc) <= fuel + String.length acc)%nat.
Proof.
  induction fuel as [|fuel IH]; intros n acc; cbn [fmt_u]; [lia|].
  destruct (n / 10 =? 0).
  - cbn [String.length]. lia.
  - specialize (IH (n / 10) (String (digit_char (n mod 10)) acc)).
    cbn [String.length] in IH. lia.
Qed.

Lemma fmt_d_nonneg x : 0 <= x -> fmt_d x = fmt_u 10 x "".
Proof.
  intros Hx. unfold fmt_d.
  destruct (x <? 0) eqn:E; [apply Z.ltb_lt in E; lia | reflexivity].
Qed.

Lemma fmt_d_inj a b :
  0 <= a < 2 ^ 31 -> 0 <= b < 2 ^ 31 -> fmt_d a = fmt_d b -> a = b.
Proof.
  intros Ha Hb Heq. rewrite !fmt_d_nonneg in Heq by lia.
  assert (H10 : 2 ^ 31 < 10 ^ Z.of_nat 10) by (vm_compute; reflexivity).
  pose proof (fmt_u_parse 10 a "" ltac:(lia)) as Pa.
  pose proof (fmt_u_parse 10 b "" ltac:(lia)) as Pb.
  rewrite Heq in Pa. cbn [parse_dec] in Pa, Pb. congruence.
Qed.

Lemma int_wrap_small x : - 2 ^ 31 <= x < 2 ^ 31 -> int_wrap x = x.
Proof.
  intros Hx. unfold int_wrap. rewrite Z.mod_small; lia.
Qed.

Section Fat.

Context {hdr : Headers}.
Variable cfg : config.

Lemma fat_mountpath_full n :
  mountpath_fits -> 0 <= n < 2 ^ 31 ->
  fat_mountpath n = ("/fs" ++ PATH_VOLUME ++ "/fat-" ++ fmt_d n)%string.
Proof.
  unfold mountpath_fits. intros Hfit Hn. unfold fat_mountpath.
  rewrite snprintf_fits; [reflexivity|].
  rewrite !append_length in *.
  rewrite fmt_d_nonneg by lia.
  pose proof (fmt_u_length 10 n "") as Hlen.
  cbn [String.length] in *. lia.
Qed.

Lemma fat_mountpath_inj a b :
  mountpath_fits -> 0 <= a < 2 ^ 31 -> 0 <= b < 2 ^ 31 ->
  fat_mountpath a = fat_mountpath b -> a = b.
Proof.
  intros Hfit Ha Hb Heq.
  rewrite !fat_mountpath_full in Heq by assumption.
  apply fmt_d_inj; try assumption.
  now repeat apply append_inj_l in Heq.
Qed.

Lemma fat_device_inv w :
  fat_device cfg w = true ->
  netboot cfg = false /\ w_openat w = true /\ is_bootpart w = false /\
  w_format w = DISK_FORMAT_FAT.
Proof.
  unfold fat_device. intros H.
  repeat (apply andb_true_iff in H; destruct H as [H ?]).
  repeat split; try assumption.
  - now apply negb_true_iff.
  - now apply negb_true_iff.
  - now apply disk_format_eqb_eq.
Qed.

(** C8 (as amended): a FAT-formatted device for which the EFI classifier
    answers yes is never mounted and its descriptor is closed, in every
    mode (in network boot: as long as its GUID is not the install GUID).
    Outside network boot, every other FAT-formatted device that is not
    flagged as a boot partition is mounted, without waiting for readiness
    and with creation of the mount point, at the path printed from the FAT
    counter, which the call increments.  So over a run the counter grows
    by one per FAT mount, and the mount points of the FAT mounts are
    pairwise distinct (as long as the [int] counter stays in range and the
    path buffer holds the longest path). *)
Theorem C8_fat_mount_points :
  (forall w name st,
      w_openat w = true -> w_format w = DISK_FORMAT_FAT ->
      fat_is_efi w = true ->
      (netboot cfg = true ->
       memcmp (device_guid w) GUID_INSTALL_VALUE (Z.to_nat GPT_GUID_LEN)
       <> 0) ->
      let r := block_device_added cfg w WATCH_EVENT_ADD_FILE name st in
      mount_calls (trace_of r) = [] /\
      exists pre, trace_of r = pre ++ [c_close dev_fd]) /\
  (forall w name st,
      fat_device cfg w = true ->
      let r := block_device_added cfg w WATCH_EVENT_ADD_FILE name st in
      if fat_is_efi w then
        trace_of r = [c_openat name; c_close dev_fd] /\ statics_of r = st
      else
        trace_of r
        = [c_openat name;
           c_mount (fat_mountpath (fat_counter st)) DISK_FORMAT_FAT
                   (set_wait_until_ready false
                      (set_create_mountpoint true default_mount_options))
                   launch_fat] /\
        statics_of r = set_fat_counter (int_wrap (fat_counter st + 1)) st) /\
  (forall events st,
      mountpath_fits ->
      0 <= fat_counter st ->
      let r := fdio_watch_directory (handle_arrival cfg) events st in
      let mounted := Z.of_nat (List.length (fat_paths (trace_of r))) in
      fat_counter st + mounted < 2 ^ 31 ->
      fat_counter (statics_of r) = fat_counter st + mounted /\
      NoDup (fat_paths (trace_of r))).
Proof.
  split; [|split].
  - intros w name st Hopen Hdf Hefi Hguid r. subst r.
    unfold block_device_added, bind_and_close, close_and_return, mount.
    cbn [is_add_file negb]. rewrite Hopen.
    destruct (is_bootpart w); mred;
      [split; [reflexivity | now exists [c_openat name; c_ioctl_device_bind BOOTPART_DRIVER_LIB]]|].
    rewrite Hdf. unfold fat_is_efi in Hefi.
    destruct (netboot cfg).
    + specialize (Hguid eq_refl). apply Z.eqb_neq in Hguid.
      unfold device_guid in Hguid. rewrite Hguid. mred.
      split; [reflexivity | now exists [c_openat name]].
    + destruct (ioctl_block_get_type_guid w (w_stack_guid w)) as [sz guid].
      cbn [fst snd] in Hefi. rewrite Hefi. mred.
      split; [reflexivity | now exists [c_openat name]].
  - intros w name st Hdev r. subst r.
    apply fat_device_inv in Hdev.
    destruct Hdev as (Hnet & Hopen & Hboot & Hdf).
    unfold block_device_added, fat_is_efi, close_and_return, mount.
    cbn [is_add_file negb]. rewrite Hopen, Hboot, Hdf, Hnet.
    destruct (ioctl_block_get_type_guid w (w_stack_guid w)) as [r guid].
    cbn [fst snd]. destruct (gpt_is_efi_guid guid r); mred; now split.
  - intros events st Hfit Hc r mounted Hrange. subst mounted r.
    unfold fat_paths in *.
    pose (fatp := fun ms : list (string * disk_format_t) =>
                    map fst (filter (fun m => disk_format_eqb DISK_FORMAT_FAT
                                                              (snd m)) ms)).
    assert (Hinv :
      fat_counter (statics_of
                     (fdio_watch_directory (handle_arrival cfg) events st))
      = fat_counter st
        + Z.of_nat (List.length
             (fatp (mount_calls
                (trace_of (fdio_watch_directory (handle_arrival cfg)
                                                events st))))) /\
      NoDup (fatp (mount_calls
                (trace_of (fdio_watch_directory (handle_arrival cfg)
                                                events st)))) /\
      forall p,
        In p (fatp (mount_calls
                (trace_of (fdio_watch_directory (handle_arrival cfg)
                                                events st)))) ->
        exists n,
          fat_counter st <= n
          < fat_counter (statics_of
                           (fdio_watch_directory (handle_arrival cfg)
                                                 events st))
          /\ p = fat_mountpath n).
    { revert Hc Hrange. fold (fatp (mount_calls
                (trace_of (fdio_watch_directory (handle_arrival cfg)
                                                events st)))).
      apply (run_invariant cfg
        (fun s s' ms =>
           0 <= fat_counter s ->
           fat_counter s + Z.of_nat (List.length (fatp ms)) < 2 ^ 31 ->
           fat_counter s' = fat_counter s + Z.of_nat (List.length (fatp ms)) /\
           NoDup (fatp ms) /\
           forall p, In p (fatp ms) ->
                     exists n, fat_counter s <= n < fat_counter s'
                               /\ p = fat_mountpath n)).
      - intros s _ _. cbn. repeat split; [lia | constructor | contradiction].
      - intros w s1 s2 s3 m1 m2 Hstep IH Hc1 Hr1.
        assert (Happ : fatp (m1 ++ m2) = fatp m1 ++ fatp m2)
          by (unfold fatp; now rewrite filter_app, map_app).
        rewrite Happ in *. rewrite length_app in *.
        inversion Hstep; subst;
          cbn [fatp filter map snd fst disk_format_eqb app List.length
               set_data_mounted set_install_mounted set_blob_mounted
               set_fat_counter fat_counter] in *;
          try (apply IH; assumption).
        assert (Hw : int_wrap (fat_counter s1 + 1) = fat_counter s1 + 1)
          by (apply int_wrap_small; lia).
        rewrite Hw in *.
        destruct IH as (Hc3 & Hnd & Hin); [lia | lia |].
        split; [lia|]. split.
        + constructor; [|exact Hnd].
          intros Hmem. destruct (Hin _ Hmem) as (n & Hn & Hp).
          apply fat_mountpath_inj in Hp; [lia | assumption | lia | lia].
        + intros p [Hp | Hp].
          * exists (fat_counter s1). split; [lia | now symmetry].
          * destruct (Hin _ Hp) as (n & Hn & Hpn). exists n.
            split; [lia | assumption]. }
    destruct Hinv as (Hc' & Hnd & _). split; assumption.
Qed.

End Fat.

(* ===================================================================== *)
(** ** The cases of the handler *)
(* ===================================================================== *)

Section Cases.

Context {hdr : Headers}.
Variable cfg : config.
Variable w : world.

Lemma fshost_fsck_answer path df st :
  exists a t1,
    fshost_fsck cfg w path df st = (a, st, t1) /\
    is_ok a = fsck_passes cfg w /\ mount_calls t1 = [].
Proof.
  destruct (fshost_fsck_frame cfg w path df st) as [Hs Ht].
  pose proof (fshost_fsck_result cfg w path df st) as Hr.
  destruct (fshost_fsck cfg w path df st) as [[a s1] t1].
  cbn [result_of statics_of trace_of fst snd] in *. subst s1.
  now exists a, t1.
Qed.

Lemma launch_blob_init_answer st :
  exists u t, launch_blob_init cfg w st = (u, st, t).
Proof.
  destruct (launch_blob_init_frame cfg w st) as [Hs _].
  destruct (launch_blob_init cfg w st) as [[u s1] t].
  cbn [statics_of fst snd] in Hs. subst s1. now exists u, t.
Qed.

Lemma container_driver_none :
  container_driver w = None ->
  is_bootpart w = false /\
  (w_format w = DISK_FORMAT_UNKNOWN \/ w_format w = DISK_FORMAT_MINFS \/
   w_format w = DISK_FORMAT_FAT \/ w_format w = DISK_FORMAT_BLOBFS).
Proof.
  unfold container_driver.
  destruct (is_bootpart w); [discriminate|].
  destruct (w_format w); try discriminate; auto.
Qed.

(** Every invocation of the handler is one of the cases. *)
Lemma block_device_added_case ev name st :
  handler_case cfg w ev name st (block_device_added cfg w ev name st).
Proof.
  unfold block_device_added.
  destruct (is_add_file ev) eqn:Hev; cbn [negb]; [|now apply hc_ignored].
  mred.
  destruct (w_openat w) eqn:Hopen; mred; [|now apply hc_unopened].
  destruct (container_driver w) as [lib|] eqn:Hcd.
  { pose proof Hcd as Hlib. unfold container_driver in Hlib.
    unfold bind_and_close.
    destruct (is_bootpart w) eqn:Hb; mred.
    - injection Hlib as <-. now apply hc_bound.
    - destruct (w_format w) eqn:Hf; try discriminate;
        injection Hlib as <-; mred; now apply hc_bound. }
  destruct (container_driver_none Hcd) as [Hboot Hfmt].
  rewrite Hboot. unfold close_and_return.
  assert (Hnet : netboot cfg = true ->
    handler_case cfg w ev name st
      (let '(b, s2, t2) :=
         (if memcmp (snd (ioctl_block_get_type_guid w GUID_EMPTY_VALUE))
                    GUID_INSTALL_VALUE (Z.to_nat GPT_GUID_LEN) =? 0
          then mount_minfs cfg w
                 (set_wait_until_ready false default_mount_options) ;;
               ret ZX_OK
          else ext (c_close dev_fd) tt ;; ret ZX_OK) st in
       (b, s2, c_openat name :: t2))).
  { intros Hn.
    destruct (memcmp _ _ _ =? 0) eqn:Hg; mred.
    - destruct (mount_minfs cfg w _ st) as [[b s2] t2] eqn:Em.
      rewrite app_nil_r. eapply hc_netboot_install; eauto.
    - now apply hc_netboot_closed. }
  destruct (netboot cfg) eqn:Hn.
  { specialize (Hnet eq_refl).
    destruct Hfmt as [Hf | [Hf | [Hf | Hf]]]; rewrite Hf; exact Hnet. }
  clear Hnet.
  destruct Hfmt as [Hf | [Hf | [Hf | Hf]]]; rewrite Hf; mred.
  - now apply hc_unknown.
  - destruct (fshost_fsck_answer (PATH_DEV_BLOCK ++ "/" ++ name)
                                 DISK_FORMAT_MINFS st)
      as (a & t1 & E & Ha & _).
    rewrite E. destruct (is_ok a) eqn:Hok; mred.
    + destruct (mount_minfs cfg w _ st) as [[b s2] t2] eqn:Em.
      rewrite app_nil_r. eapply hc_minfs; eauto.
    + eapply hc_check_failed; eauto.
  - assert (Hdev : fat_device cfg w = true).
    { unfold fat_device. now rewrite Hn, Hopen, Hboot, Hf. }
    unfold mount. pose proof (eq_refl (fat_is_efi w)) as Hefi.
    unfold fat_is_efi at 1 in Hefi.
    destruct (ioctl_block_get_type_guid w (w_stack_guid w)) as [r guid].
    cbn [fst snd] in Hefi. rewrite Hefi.
    destruct (fat_is_efi w) eqn:He; mred.
    + now apply hc_fat_efi.
    + now apply hc_fat.
  - destruct (memcmp _ _ _ =? 0) eqn:Hg; cbn [negb]; mred;
      [|now apply hc_blob_foreign].
    assert (Hdev : blob_role_device cfg w = true).
    { unfold blob_role_device, device_guid.
      rewrite Hn, Hopen, Hboot, Hf, Hg. reflexivity. }
    destruct (fshost_fsck_answer (PATH_DEV_BLOCK ++ "/" ++ name)
                                 DISK_FORMAT_BLOBFS st)
      as (a & t1 & E & Ha & _).
    rewrite E. destruct (is_ok a) eqn:Hok; mred.
    2:{ eapply hc_check_failed; eauto. }
    unfold mount.
    destruct (blob_mounted st) eqn:Hb; mred.
    { rewrite app_nil_r. eapply hc_blob_again; eauto. }
    destruct (is_ok (w_mount w)) eqn:Hm; mred.
    + destruct (launch_blob_init_answer (set_blob_mounted true st))
        as (u & t3 & El).
      rewrite El. mred. rewrite app_nil_r.
      eapply hc_blob_mounted; eauto.
    + eapply hc_blob_failed; eauto.
Qed.

End Cases.

(* ===================================================================== *)
(** ** [mount_minfs] by role *)
(* ===================================================================== *)

Section Roles.

Context {hdr : Headers}.
Variable cfg : config.
Variable w : world.

Lemma mount_minfs_by_role options st :
  mount_minfs cfg w options st =
  match role_of w with
  | role_system =>
    if system_accepted cfg w then
      (w_mount w, st,
       c_mount ("/fs" ++ PATH_SYSTEM) DISK_FORMAT_MINFS
               (set_wait_until_ready true
                  (set_readonly
                     (negb (is_set (getenv (boot_env cfg)
                                           "zircon.system.writable")))
                     options))
               launch_minfs
       :: (if is_ok (w_mount w) then [c_fuchsia_start] else []))
    else
      ((if w_secondary_bootfs_ready w
           || is_set (getenv (boot_env cfg) "zircon.system.blob-init")
        then ZX_ERR_ALREADY_BOUND else ZX_ERR_BAD_STATE), st, [])
  | role_data =>
    if data_mounted st then (ZX_ERR_ALREADY_BOUND, st, [])
    else
      (w_mount w, set_data_mounted true st,
       [c_mount ("/fs" ++ PATH_DATA) DISK_FORMAT_MINFS
                (set_wait_until_ready true options) launch_minfs])
  | role_install =>
    if install_mounted st then (ZX_ERR_ALREADY_BOUND, st, [])
    else
      (w_mount w, set_install_mounted true st,
       [c_mount ("/fs" ++ PATH_INSTALL) DISK_FORMAT_MINFS
                (set_wait_until_ready true (set_readonly true options))
                launch_minfs])
  | role_none => (ZX_ERR_INVALID_ARGS, st, [])
  end.
Proof.
  unfold mount_minfs, role_of.
  destruct (ioctl_block_get_type_guid w (w_stack_guid w)) as [sz g].
  cbn [fst snd].
  destruct (sz =? GPT_GUID_LEN); [|reflexivity].
  destruct (gpt_is_sys_guid g sz).
  { unfold system_accepted, mount_system, mount.
    destruct (w_secondary_bootfs_ready w); [reflexivity|].
    destruct (is_set (getenv (boot_env cfg) "zircon.system.blob-init"));
      [reflexivity|].
    cbn [negb andb orb].
    destruct (getenv_is (boot_env cfg) "zircon.system.volume" "any");
      cbn [orb].
    - mred. now destruct (is_ok (w_mount w)).
    - destruct (getenv_is (boot_env cfg) "zircon.system.volume" "local");
        cbn [andb]; [|reflexivity].
      destruct (w_block_info w) as [flags|]; [|reflexivity].
      destruct (Z.land flags BLOCK_FLAG_REMOVABLE =? 0); cbn [negb];
        [|reflexivity].
      mred. now destruct (is_ok (w_mount w)). }
  destruct (gpt_is_data_guid g sz).
  { unfold mount. mred. now destruct (data_mounted st). }
  destruct (gpt_is_install_guid g sz); [|reflexivity].
  unfold mount. mred. now destruct (install_mounted st).
Qed.

(** X5: a partition of the system role is mounted exactly when no
    secondary bootfs is ready, the legacy blob-init argument is unset and
    the volume policy takes it ("any", or "local" with block info at hand
    and the removable flag clear; unset or anything else rejects).  The
    mount is at the system root, read-only unless zircon.system.writable
    is present, waits for readiness, and is followed by service startup
    exactly when it succeeded; its status is handed back.  A rejected
    partition costs no call: already-bound for the bootfs and blob-init
    gates, bad-state for the policy. *)
Theorem X5_system_partition_policy options st :
  role_of w = role_system ->
  let r := mount_minfs cfg w options st in
  statics_of r = st /\
  (system_accepted cfg w = true ->
   result_of r = w_mount w /\
   mount_calls (trace_of r)
   = [(("/fs" ++ PATH_SYSTEM)%string, DISK_FORMAT_MINFS)] /\
   (exists o,
       mount_options_of (trace_of r) = [o] /\
       wait_until_ready o = true /\
       create_mountpoint o = create_mountpoint options /\
       readonly o
       = negb (is_set (getenv (boot_env cfg) "zircon.system.writable"))) /\
   started (trace_of r) = is_ok (w_mount w)) /\
  (system_accepted cfg w = false ->
   trace_of r = [] /\
   result_of r
   = if w_secondary_bootfs_ready w
        || is_set (getenv (boot_env cfg) "zircon.system.blob-init")
     then ZX_ERR_ALREADY_BOUND else ZX_ERR_BAD_STATE) /\
  (getenv (boot_env cfg) "zircon.system.volume" = None ->
   system_accepted cfg w = false).
Proof.
  intros Hrole r. subst r. rewrite mount_minfs_by_role, Hrole.
  split; [now destruct (system_accepted cfg w)|].
  split; [|split].
  - intros Hacc. rewrite Hacc.
    cbn [result_of statics_of trace_of fst snd mount_calls mount_options_of].
    split; [reflexivity|]. split.
    { now destruct (is_ok (w_mount w)). }
    split.
    { eexists. split; [now destruct (is_ok (w_mount w))|]. now repeat split. }
    now destruct (is_ok (w_mount w)).
  - intros Hacc. rewrite Hacc. now split.
  - intros Hvol. unfold system_accepted, getenv_is. rewrite Hvol.
    cbn [orb andb]. apply andb_false_r.
Qed.

(** X6: whatever options the caller passes, every mount that
    [mount_minfs] issues is a MINFS mount through [launch_minfs] that
    waits for readiness, and the install root is always mounted
    read-only.  When it mounts it makes that one call (plus the service
    startup for the system role) and hands the mount's status back
    unchecked; when it does not mount it makes no call at all, leaves the
    statics alone and answers already-bound, bad-state or invalid-args,
    the last exactly for a device without a role. *)
Theorem X6_mount_minfs_calls options st :
  let r := mount_minfs cfg w options st in
  Forall (fun o => wait_until_ready o = true)
         (mount_options_of (trace_of r)) /\
  Forall (fun m => snd m = DISK_FORMAT_MINFS) (mount_calls (trace_of r)) /\
  (role_of w = role_install ->
   Forall (fun o => readonly o = true) (mount_options_of (trace_of r))) /\
  (mount_calls (trace_of r) <> [] ->
   result_of r = w_mount w /\ List.length (mount_calls (trace_of r)) = 1%nat) /\
  (mount_calls (trace_of r) = [] ->
   trace_of r = [] /\ statics_of r = st /\
   (result_of r = ZX_ERR_ALREADY_BOUND \/ result_of r = ZX_ERR_BAD_STATE \/
    result_of r = ZX_ERR_INVALID_ARGS)) /\
  (role_of w = role_none <-> result_of r = ZX_ERR_INVALID_ARGS /\ trace_of r = []).
Proof.
  cbv zeta. rewrite mount_minfs_by_role.
  destruct (role_of w) eqn:Hrole.
  - destruct (system_accepted cfg w);
      cbn [result_of statics_of trace_of fst snd mount_calls
           mount_options_of];
      [destruct (is_ok (w_mount w))|
       destruct (w_secondary_bootfs_ready w
                 || is_set (getenv (boot_env cfg) "zircon.system.blob-init"))];
      cbn [mount_calls mount_options_of];
      repeat split; intros; try discriminate; try congruence; auto;
        try (destruct H; discriminate).
  - destruct (data_mounted st);
      cbn [result_of statics_of trace_of fst snd mount_calls
           mount_options_of];
      repeat split; intros; try discriminate; try congruence; auto;
        try (destruct H; discriminate).
  - destruct (install_mounted st);
      cbn [result_of statics_of trace_of fst snd mount_calls
           mount_options_of];
      repeat split; intros; try discriminate; try congruence; auto;
        try (destruct H; discriminate).
  - cbn [result_of statics_of trace_of fst snd mount_calls mount_options_of].
    repeat split; intros; try discriminate; try congruence; auto.
Qed.

End Roles.

(* ===================================================================== *)
(** ** What the functions called by the handler never do *)
(* ===================================================================== *)

Lemma fd_uses_app t1 t2 : fd_uses (t1 ++ t2) = fd_uses t1 ++ fd_uses t2.
Proof. apply filter_app. Qed.

Lemma fd_uses_cons c t :
  fd_uses (c :: t) = (if uses_dev_fd c then [c] else []) ++ fd_uses t.
Proof. unfold fd_uses. cbn [filter]. now destruct (uses_dev_fd c). Qed.

Lemma fsck_launches_cons c t :
  fsck_launches (c :: t)
  = (b2n (is_fsck_launch c) + fsck_launches t)%nat.
Proof.
  unfold fsck_launches. cbn [filter]. now destruct (is_fsck_launch c).
Qed.

Lemma installs_cons p c t :
  installs p (c :: t) = (b2n (is_installer_of p c) + installs p t)%nat.
Proof.
  unfold installs. cbn [filter]. now destruct (is_installer_of p c).
Qed.

Lemma fsck_launches_app t1 t2 :
  fsck_launches (t1 ++ t2) = (fsck_launches t1 + fsck_launches t2)%nat.
Proof. unfold fsck_launches. now rewrite filter_app, length_app. Qed.

Lemma installs_app p t1 t2 :
  installs p (t1 ++ t2) = (installs p t1 + installs p t2)%nat.
Proof. unfold installs. now rewrite filter_app, length_app. Qed.

Section Quiet.

Context {hdr : Headers}.
Variable cfg : config.
Variable w : world.

(** The integrity check: its calls, and what it leaves alone. *)
Lemma fshost_fsck_calls path df st :
  let t := trace_of (fshost_fsck cfg w path df st) in
  fd_uses t = [] /\ existsb is_bootstrap_call t = false /\
  (forall p, installs p t = 0%nat) /\
  fsck_launches t
  = b2n (getenv_bool (boot_env cfg) "zircon.system.filesystem-check" false) /\
  Forall (fun d => d = None) (wait_deadlines t).
Proof.
  cbv zeta. unfold fshost_fsck, fsck, launch_fsck.
  destruct (getenv_bool _ _ _); cbn [negb]; branch;
    cbn; repeat split; auto.
Qed.

(** [mount_minfs]: its calls, and what it leaves alone. *)
Lemma mount_minfs_calls options st :
  let r := mount_minfs cfg w options st in
  blob_mounted (statics_of r) = blob_mounted st /\
  fat_counter (statics_of r) = fat_counter st /\
  existsb is_bootstrap_call (trace_of r) = false /\
  (forall p, installs p (trace_of r) = 0%nat) /\
  fsck_launches (trace_of r) = 0%nat /\
  (fd_uses (trace_of r) = [] \/
   exists p df o cb, fd_uses (trace_of r) = [c_mount p df o cb]) /\
  Forall (fun m => snd m = DISK_FORMAT_MINFS) (mount_calls (trace_of r)).
Proof.
  cbv zeta. rewrite mount_minfs_by_role.
  destruct (role_of w);
    [destruct (system_accepted cfg w); [destruct (is_ok (w_mount w))|]
    | destruct (data_mounted st)
    | destruct (install_mounted st)
    | ];
    cbn; repeat split; auto; right; eauto.
Qed.

(** The bootstrap: its calls, and what it leaves alone. *)
Lemma launch_blob_init_calls st :
  let t := trace_of (launch_blob_init cfg w st) in
  fd_uses t = [] /\ fsck_launches t = 0%nat /\
  (installs "/pkgfs" t <= 1)%nat /\ (installs "/system" t <= 1)%nat.
Proof.
  cbv zeta.
  unfold launch_blob_init, pkgfs_launch, old_launch_blob_init, pkgfs_finish.
  branch; cbn; repeat split; lia.
Qed.

End Quiet.

(* ===================================================================== *)
(** ** Further properties of the handler and of the watcher *)
(* ===================================================================== *)

Section Handler.

Context {hdr : Headers}.
Variable cfg : config.

(** X1: a device that opens and is flagged as a boot partition is bound
    to the boot-partition driver and closed, whatever its format, its
    type GUID and the boot mode: its format is not even looked at.  A
    device that is not flagged and is detected as GPT, FVM, MBR or
    zxcrypt is bound to the driver of that format and closed, in both boot
    modes.  Neither is checked or mounted, and the statics stay as they
    were. *)
Theorem X1_partition_containers_are_bound w name st :
  w_openat w = true ->
  (is_bootpart w = true ->
   block_device_added cfg w WATCH_EVENT_ADD_FILE name st
   = (ZX_OK, st,
      [c_openat name; c_ioctl_device_bind BOOTPART_DRIVER_LIB;
       c_close dev_fd])) /\
  (is_bootpart w = false ->
   forall lib,
     In (w_format w, lib)
        [(DISK_FORMAT_GPT, GPT_DRIVER_LIB); (DISK_FORMAT_FVM, FVM_DRIVER_LIB);
         (DISK_FORMAT_MBR, MBR_DRIVER_LIB);
         (DISK_FORMAT_ZXCRYPT, ZXCRYPT_DRIVER_LIB)] ->
     block_device_added cfg w WATCH_EVENT_ADD_FILE name st
     = (ZX_OK, st,
        [c_openat name; c_ioctl_device_bind lib; c_close dev_fd])).
Proof.
  intros Hopen. unfold block_device_added, bind_and_close.
  cbn [is_add_file negb]. rewrite Hopen. split.
  - intros Hb. now rewrite Hb.
  - intros Hb lib Hin. rewrite Hb.
    cbn [In] in Hin.
    destruct Hin as [H | [H | [H | [H | []]]]];
      injection H as Hf <-; rewrite <- Hf; reflexivity.
Qed.

(** X2: the handler answers [ZX_OK] for every event and every answer of
    its collaborators, so the watcher never stops early: the run over two
    event lists in a row is the run over the first followed by the run
    over the second from the statics the first left. *)
Theorem X2_watcher_runs_compose l1 l2 st :
  (forall w ev name s,
      result_of (block_device_added cfg w ev name s) = ZX_OK) /\
  statics_of (fdio_watch_directory (handle_arrival cfg) (l1 ++ l2) st)
  = statics_of
      (fdio_watch_directory
         (handle_arrival cfg) l2
         (statics_of (fdio_watch_directory (handle_arrival cfg) l1 st))) /\
  trace_of (fdio_watch_directory (handle_arrival cfg) (l1 ++ l2) st)
  = trace_of (fdio_watch_directory (handle_arrival cfg) l1 st)
    ++ trace_of
         (fdio_watch_directory
            (handle_arrival cfg) l2
            (statics_of (fdio_watch_directory (handle_arrival cfg) l1 st))).
Proof.
  split; [intros; apply block_device_added_good|].
  revert st. induction l1 as [|a l1 IH]; intros st; [now split|].
  cbn [app].
  destruct (watch_cons cfg a (l1 ++ l2) st) as [Hs Ht].
  destruct (watch_cons cfg a l1 st) as [Hs1 Ht1].
  destruct (IH (statics_of (handle_arrival cfg a st))) as [IHs IHt].
  rewrite Hs, Ht, Hs1, Ht1, IHs, IHt. split; [reflexivity|].
  now rewrite app_assoc.
Qed.

(** X3: in one invocation the calls on the device descriptor are, in
    order, nothing, or a driver bind followed by the close, or the close
    alone, or one mount (which consumes the descriptor): the descriptor is
    never closed twice, never closed after a mount took it, and never
    bound or mounted after it was closed.  For an event that is not a
    file addition, or when the open fails, there is no such call and the
    statics stay as they were. *)
Theorem X3_descriptor_discipline w ev name st :
  let r := block_device_added cfg w ev name st in
  (fd_uses (trace_of r) = [] \/
   (exists lib,
       fd_uses (trace_of r) = [c_ioctl_device_bind lib; c_close dev_fd]) \/
   fd_uses (trace_of r) = [c_close dev_fd] \/
   exists p df o cb, fd_uses (trace_of r) = [c_mount p df o cb]) /\
  (is_add_file ev = false \/ w_openat w = false ->
   fd_uses (trace_of r) = [] /\ statics_of r = st).
Proof.
  cbv zeta. destruct (block_device_added_case cfg w ev name st);
    cbn [trace_of statics_of fst snd];
    repeat match goal with
           | H : blob_role_device _ _ = true |- _ =>
             apply blob_role_device_inv in H;
             destruct H as (? & ? & ? & ? & ?)
           | H : fat_device _ _ = true |- _ =>
             apply fat_device_inv in H; destruct H as (? & ? & ? & ?)
           end;
    repeat match goal with
           | H : fshost_fsck _ _ ?p ?d ?s = (_, _, ?t) |- _ =>
             let F := fresh in
             pose proof (fshost_fsck_calls cfg w p d s) as F;
             cbv zeta in F; rewrite H in F; cbn [trace_of snd] in F;
             destruct F as (F & _); clear H
           | H : mount_minfs _ _ ?o ?s = (_, _, ?t) |- _ =>
             let F := fresh in
             pose proof (mount_minfs_calls cfg w o s) as F;
             cbv zeta in F; rewrite H in F; cbn [trace_of snd] in F;
             destruct F as (_ & _ & _ & _ & _ & F & _); clear H
           | H : launch_blob_init _ _ ?s = (_, _, ?t) |- _ =>
             let F := fresh in
             pose proof (launch_blob_init_calls cfg w s) as F;
             cbv zeta in F; rewrite H in F; cbn [trace_of snd] in F;
             destruct F as (F & _); clear H
           end;
    repeat rewrite ?fd_uses_app, ?fd_uses_cons;
    repeat match goal with
           | H : fd_uses _ = _ |- _ => rewrite H
           | H : fd_uses _ = [] \/ _ |- _ =>
             destruct H as [H | (? & ? & ? & ? & H)]; rewrite H
           end;
    cbn [fd_uses filter uses_dev_fd app];
    (split; [eauto 10 | intros [? | ?]; try congruence; auto]).
Qed.

(** X4: a latch that is set stays set over any run of the watcher (no
    path clears one), and one invocation of the handler makes at most one
    mount call. *)
Theorem X4_latches_are_never_cleared events st :
  let r := fdio_watch_directory (handle_arrival cfg) events st in
  (data_mounted st = true -> data_mounted (statics_of r) = true) /\
  (install_mounted st = true -> install_mounted (statics_of r) = true) /\
  (blob_mounted st = true -> blob_mounted (statics_of r) = true) /\
  forall w ev name s,
    (List.length
       (mount_calls (trace_of (block_device_added cfg w ev name s))) <= 1)%nat.
Proof.
  cbv zeta. split; [|split; [|split]].
  1-3: revert events st;
    apply (run_invariant cfg (fun s s' _ => _ s = true -> _ s' = true));
    [ auto
    | intros w s1 s2 s3 m1 m2 Hstep IH Hs1; apply IH;
      inversion Hstep; subst;
      cbn [set_data_mounted set_install_mounted set_blob_mounted
           set_fat_counter data_mounted install_mounted blob_mounted];
      auto ].
  intros w ev name s.
  destruct (block_device_added_good cfg w ev name s) as [_ Hstep].
  inversion Hstep; cbn [List.length]; lia.
Qed.

(** X7: the integrity check answers [ZX_OK] exactly when it is switched
    off or its child was launched, waited for, inspected and exited with
    0.  Switched off, it makes no call.  Switched on, it stops at the
    first step that fails and answers with that step's status: the launch
    alone when the launch fails; launch and wait when the wait fails;
    launch, wait and inspection when the inspection fails; after the three
    steps it answers [ZX_OK] for exit code 0 and bad-state for any other.
    It launches the checker once when switched on and never otherwise,
    waits for it without any deadline, and touches neither the statics nor
    the device descriptor. *)
Theorem X7_integrity_check_result w path df st :
  let r := fshost_fsck cfg w path df st in
  let on := getenv_bool (boot_env cfg) "zircon.system.filesystem-check" false in
  let wait := c_wait_one ZX_PROCESS_TERMINATED None in
  statics_of r = st /\
  is_ok (result_of r) = fsck_passes cfg w /\
  (result_of r = ZX_OK \/ result_of r = w_fsck_launch w \/
   result_of r = w_fsck_wait w \/ result_of r = w_fsck_get_info w \/
   result_of r = ZX_ERR_BAD_STATE) /\
  (w_fsck_launch w = ZX_OK -> w_fsck_wait w = ZX_OK ->
   w_fsck_get_info w = ZX_OK -> w_fsck_return_code w <> 0 ->
   on = true ->
   result_of r = ZX_ERR_BAD_STATE) /\
  fsck_launches (trace_of r) = b2n on /\
  Forall (fun d => d = None) (wait_deadlines (trace_of r)) /\
  fd_uses (trace_of r) = [] /\
  (on = false -> result_of r = ZX_OK /\ trace_of r = []) /\
  (on = true ->
   exists argv,
     (w_fsck_launch w <> ZX_OK ->
      result_of r = w_fsck_launch w /\
      trace_of r = [c_devmgr_launch "fsck" argv]) /\
     (w_fsck_launch w = ZX_OK -> w_fsck_wait w <> ZX_OK ->
      result_of r = w_fsck_wait w /\
      trace_of r = [c_devmgr_launch "fsck" argv; wait]) /\
     (w_fsck_launch w = ZX_OK -> w_fsck_wait w = ZX_OK ->
      w_fsck_get_info w <> ZX_OK ->
      result_of r = w_fsck_get_info w /\
      trace_of r = [c_devmgr_launch "fsck" argv; wait; c_get_info]) /\
     (w_fsck_launch w = ZX_OK -> w_fsck_wait w = ZX_OK ->
      w_fsck_get_info w = ZX_OK ->
      result_of r
      = (if w_fsck_return_code w =? 0 then ZX_OK else ZX_ERR_BAD_STATE) /\
      trace_of r = [c_devmgr_launch "fsck" argv; wait; c_get_info])).
Proof.
  cbv zeta.
  destruct (fshost_fsck_calls cfg w path df st) as (Hfd & _ & _ & Hl & Hw).
  split; [apply fshost_fsck_frame|].
  split; [apply fshost_fsck_result|].
  split.
  { unfold fshost_fsck, fsck, launch_fsck.
    destruct (getenv_bool _ _ _); cbn [negb]; branch; auto. }
  split.
  { intros H1 H2 H3 H4 Hon.
    unfold fshost_fsck, fsck, launch_fsck. rewrite Hon. cbn [negb]. mred.
    rewrite H1. cbn [is_ok negb]. mred. rewrite H2. cbn [is_ok negb]. mred.
    rewrite H3. cbn [is_ok negb]. apply Z.eqb_neq in H4. rewrite H4.
    reflexivity. }
  split; [assumption|]. split; [assumption|]. split; [assumption|].
  split.
  { intros Hoff. unfold fshost_fsck. rewrite Hoff. now split. }
  intros Hon. exists [path].
  unfold fshost_fsck, fsck, launch_fsck. rewrite Hon. cbn [negb]. mred.
  refine (conj _ (conj _ (conj _ _))).
  - intros H1. apply is_ok_false in H1. rewrite H1. now split.
  - intros H1 H2. apply is_ok_false in H2. rewrite H1, H2. now split.
  - intros H1 H2 H3. apply is_ok_false in H3. rewrite H1, H2, H3.
    now split.
  - intros H1 H2 H3. rewrite H1, H2, H3. cbn [is_ok negb]. mred.
    now destruct (w_fsck_return_code w =? 0).
Qed.

(** X8: outside network boot, a MINFS- or BLOBFS-formatted device is
    mounted only if the integrity check let it through.  In network-boot
    mode, and for every other format, the checker is never launched, even
    with the check switched on: the install partition of a network boot
    and FAT volumes are mounted unchecked.  No invocation launches the
    checker twice. *)
Theorem X8_check_guards_the_mount w ev name st :
  let r := block_device_added cfg w ev name st in
  (netboot cfg = false ->
   w_format w = DISK_FORMAT_MINFS \/ w_format w = DISK_FORMAT_BLOBFS ->
   mount_calls (trace_of r) <> [] -> fsck_passes cfg w = true) /\
  (netboot cfg = true \/
   (w_format w <> DISK_FORMAT_MINFS /\ w_format w <> DISK_FORMAT_BLOBFS) ->
   fsck_launches (trace_of r) = 0%nat) /\
  (fsck_launches (trace_of r) <= 1)%nat.
Proof.
  cbv zeta.
  destruct (block_device_added_case cfg w ev name st);
    cbn [trace_of statics_of fst snd];
    repeat match goal with
           | H : blob_role_device _ _ = true |- _ =>
             apply blob_role_device_inv in H;
             destruct H as (? & ? & ? & ? & ?)
           | H : fat_device _ _ = true |- _ =>
             apply fat_device_inv in H; destruct H as (? & ? & ? & ?)
           end;
    repeat match goal with
           | H : fshost_fsck _ _ ?p ?d ?s = (?a, _, ?t) |- _ =>
             let F := fresh in
             let G := fresh in
             let M := fresh in
             pose proof (fshost_fsck_calls cfg w p d s) as F;
             pose proof (fshost_fsck_result cfg w p d s) as G;
             pose proof (fshost_fsck_frame cfg w p d s) as M;
             cbv zeta in F; rewrite H in F, G, M;
             cbn [trace_of result_of statics_of fst snd] in F, G, M;
             destruct F as (_ & _ & _ & F & _); destruct M as (_ & M);
             clear H
           | H : mount_minfs _ _ ?o ?s = (_, _, ?t) |- _ =>
             let F := fresh in
             pose proof (mount_minfs_calls cfg w o s) as F;
             cbv zeta in F; rewrite H in F; cbn [trace_of snd] in F;
             destruct F as (_ & _ & _ & _ & F & _); clear H
           | H : launch_blob_init _ _ ?s = (_, _, ?t) |- _ =>
             let F := fresh in
             pose proof (launch_blob_init_calls cfg w s) as F;
             cbv zeta in F; rewrite H in F; cbn [trace_of snd] in F;
             destruct F as (_ & F & _); clear H
           end;
    try match goal with
        | H : ?df = DISK_FORMAT_MINFS \/ _ |- _ =>
          destruct H as [? | [? ?]]; subst df
        end;
    cbn [mount_calls];
    repeat rewrite ?fsck_launches_app, ?fsck_launches_cons, ?mount_calls_app;
    repeat match goal with
           | H : fsck_launches _ = _ |- _ => rewrite H
           | H : mount_calls _ = [] |- _ => rewrite H
           end;
    cbn [mount_calls app fsck_launches filter is_fsck_launch List.length
         Nat.add b2n];
    (split; [|split]);
    try (intros; congruence);
    try (intros [? | [? ?]]; congruence);
    try (intros ? [? | ?] ?; congruence);
    try (destruct (getenv_bool _ _ _); cbn [b2n]; lia);
    try lia.
Qed.

End Handler.

(* ===================================================================== *)
(** ** Invariants of whole runs *)
(* ===================================================================== *)

Section WholeRuns.

Context {hdr : Headers}.
Variable cfg : config.

(** An invariant that holds of the empty run and is kept when one
    invocation of the handler is put in front holds of every run. *)
Lemma run_trace_invariant (I : statics -> statics -> list call -> Prop) :
  (forall s, I s s []) ->
  (forall a s1 s3 t2,
      I (statics_of (handle_arrival cfg a s1)) s3 t2 ->
      I s1 s3 (trace_of (handle_arrival cfg a s1) ++ t2)) ->
  forall events st,
    I st
      (statics_of (fdio_watch_directory (handle_arrival cfg) events st))
      (trace_of (fdio_watch_directory (handle_arrival cfg) events st)).
Proof.
  intros Hnil Hstep events.
  induction events as [|a rest IH]; intros st; [apply Hnil|].
  destruct (watch_cons cfg a rest st) as [Hs Ht]. rewrite Hs, Ht.
  apply Hstep, IH.
Qed.

Lemma netboot_step w ev name st :
  netboot cfg = true ->
  let r := block_device_added cfg w ev name st in
  blob_mounted (statics_of r) = blob_mounted st /\
  fat_counter (statics_of r) = fat_counter st /\
  Forall (fun m => snd m = DISK_FORMAT_MINFS) (mount_calls (trace_of r)) /\
  existsb is_bootstrap_call (trace_of r) = false /\
  fsck_launches (trace_of r) = 0%nat.
Proof.
  intros Hnet. cbv zeta.
  destruct (block_device_added_case cfg w ev name st);
    callee_facts blob_role_device_inv fat_device_inv fshost_fsck_calls
      mount_minfs_calls launch_blob_init_calls; try congruence;
    cbn [trace_of statics_of fst snd mount_calls existsb is_bootstrap_call
         orb];
    rewrite ?fsck_launches_cons;
    cbn [is_fsck_launch b2n Nat.add fsck_launches filter List.length];
    repeat split; auto.
Qed.

(** X9: in network-boot mode, whatever devices arrive, a run never
    touches the blob latch or the FAT counter, makes only MINFS mounts
    (those of [mount_minfs]), never launches the integrity checker and
    makes no call of the package-filesystem bootstrap: no launch, no
    installer call, no channel. *)
Theorem X9_netboot_runs events st :
  netboot cfg = true ->
  let r := fdio_watch_directory (handle_arrival cfg) events st in
  blob_mounted (statics_of r) = blob_mounted st /\
  fat_counter (statics_of r) = fat_counter st /\
  Forall (fun m => snd m = DISK_FORMAT_MINFS) (mount_calls (trace_of r)) /\
  existsb is_bootstrap_call (trace_of r) = false /\
  fsck_launches (trace_of r) = 0%nat.
Proof.
  intros Hnet. cbv zeta. revert events st.
  apply (run_trace_invariant
    (fun s s' t =>
       blob_mounted s' = blob_mounted s /\
       fat_counter s' = fat_counter s /\
       Forall (fun m => snd m = DISK_FORMAT_MINFS) (mount_calls t) /\
       existsb is_bootstrap_call t = false /\
       fsck_launches t = 0%nat)).
  - intros s. repeat split; auto.
  - intros a s1 s3 t2 (Hb & Hf & Hm & Hc & Hl).
    destruct (netboot_step (a_world a) (a_event a) (a_name a) s1 Hnet)
      as (Hb1 & Hf1 & Hm1 & Hc1 & Hl1).
    fold (handle_arrival cfg a s1) in Hb1, Hf1, Hm1, Hc1, Hl1.
    rewrite mount_calls_app, existsb_app, fsck_launches_app, Hc, Hc1, Hl, Hl1.
    repeat split; try congruence; auto.
    apply Forall_app. now split.
Qed.

Lemma bootstrap_step w ev name st :
  let r := block_device_added cfg w ev name st in
  (installs "/pkgfs" (trace_of r) + b2n (blob_mounted st)
   <= b2n (blob_mounted (statics_of r)))%nat /\
  (installs "/system" (trace_of r) + b2n (blob_mounted st)
   <= b2n (blob_mounted (statics_of r)))%nat /\
  (blob_mounted st = true ->
   existsb is_bootstrap_call (trace_of r) = false).
Proof.
  cbv zeta.
  destruct (block_device_added_case cfg w ev name st);
    callee_facts blob_role_device_inv fat_device_inv fshost_fsck_calls
      mount_minfs_calls launch_blob_init_calls; subst;
    cbn [trace_of statics_of fst snd existsb is_bootstrap_call orb
         set_blob_mounted set_fat_counter blob_mounted];
    repeat rewrite ?installs_app, ?installs_cons, ?existsb_app;
    cbn [is_installer_of is_bootstrap_call existsb orb b2n Nat.add installs
         filter List.length];
    repeat match goal with
           | H : forall p, installs p _ = 0%nat |- _ =>
             rewrite ?(H "/pkgfs"), ?(H "/system"); clear H
           | H : existsb is_bootstrap_call _ = false |- _ => rewrite H
           | H : blob_mounted _ = _ |- _ => rewrite H
           end;
    cbn [b2n orb];
    repeat split; intros; try lia; try congruence; auto.
Qed.

(** X10: over any run of the watcher the installer is called at most
    once for the package root and at most once for the system root, and a
    run that starts with the blob latch set makes no call of the
    package-filesystem bootstrap at all: the bootstrap runs only in the
    invocation that mounts the blob volume. *)
Theorem X10_bootstrap_runs_once events st :
  let r := fdio_watch_directory (handle_arrival cfg) events st in
  (installs "/pkgfs" (trace_of r) <= 1)%nat /\
  (installs "/system" (trace_of r) <= 1)%nat /\
  (blob_mounted st = true ->
   existsb is_bootstrap_call (trace_of r) = false).
Proof.
  cbv zeta.
  assert (Hinv :
    (installs "/pkgfs"
       (trace_of (fdio_watch_directory (handle_arrival cfg) events st))
     + b2n (blob_mounted st)
     <= b2n (blob_mounted
               (statics_of
                  (fdio_watch_directory (handle_arrival cfg) events st))))%nat
    /\
    (installs "/system"
       (trace_of (fdio_watch_directory (handle_arrival cfg) events st))
     + b2n (blob_mounted st)
     <= b2n (blob_mounted
               (statics_of
                  (fdio_watch_directory (handle_arrival cfg) events st))))%nat
    /\
    (blob_mounted st = true ->
     existsb is_bootstrap_call
       (trace_of (fdio_watch_directory (handle_arrival cfg) events st))
     = false)).
  { revert events st.
    apply (run_trace_invariant
      (fun s s' t =>
         (installs "/pkgfs" t + b2n (blob_mounted s)
          <= b2n (blob_mounted s'))%nat /\
         (installs "/system" t + b2n (blob_mounted s)
          <= b2n (blob_mounted s'))%nat /\
         (blob_mounted s = true -> existsb is_bootstrap_call t = false))).
    - intros s. cbn. repeat split; auto; lia.
    - intros a s1 s3 t2 (Hp & Hs & Hc).
      destruct (bootstrap_step (a_world a) (a_event a) (a_name a) s1)
        as (Hp1 & Hs1 & Hc1).
      fold (handle_arrival cfg a s1) in Hp1, Hs1, Hc1.
      rewrite !installs_app, existsb_app.
      repeat split; try lia.
      intros Hb. rewrite (Hc1 Hb), Hc; [reflexivity|].
      rewrite Hb in Hp1. cbn [b2n] in Hp1.
      destruct (blob_mounted (statics_of (handle_arrival cfg a s1)));
        [reflexivity | cbn [b2n] in Hp1; lia]. }
  destruct Hinv as (Hp & Hs & Hc).
  assert (Hb : forall b, (b2n b <= 1)%nat) by (intros []; cbn [b2n]; lia).
  match type of Hp with (_ <= b2n ?x)%nat => pose proof (Hb x) end.
  repeat split; try lia. exact Hc.
Qed.

End WholeRuns.

(* ===================================================================== *)
(** ** From the blob volume to the system root *)
(* ===================================================================== *)

Section EndToEnd.

Context {hdr : Headers}.
Variable cfg : config.
Variable w : world.

(** X11: when a device of the blob role arrives while the blob latch is
    clear, the integrity check is off, a launch command is configured and
    every collaborator succeeds (with pkgfs raising its ready signal), the
    handler makes exactly these calls, in this order: open the device,
    mount it at the blob root, open "/fs/blob", create the root channel,
    launch the command as "pkgfs", wait at most 5 seconds, install
    "/pkgfs", create a channel, open "system" under the root, install
    "/system", start the dependent services; it answers [ZX_OK].  The
    device descriptor is not closed: the mount took it.  Afterwards the
    blob latch reads set, the other statics read as before, and no later
    run of the watcher, whatever arrives, mounts the blob root again. *)
Theorem X11_blob_volume_to_system_root name st cmd :
  blob_role_device cfg w = true ->
  getenv_bool (boot_env cfg) "zircon.system.filesystem-check" false = false ->
  blob_mounted st = false ->
  w_mount w = ZX_OK ->
  getenv (boot_env cfg) "zircon.system.pkgfs.cmd" = Some cmd ->
  w_open_fs_blob w = true ->
  w_channel_pkgfs w = ZX_OK ->
  w_launch_cmdline w = ZX_OK ->
  ready w = true ->
  w_installer w "/pkgfs" = ZX_OK ->
  w_channel_finish w = ZX_OK ->
  w_fdio_open_at w = ZX_OK ->
  w_installer w "/system" = ZX_OK ->
  let r := block_device_added cfg w WATCH_EVENT_ADD_FILE name st in
  r = (ZX_OK, set_blob_mounted true st,
       [c_openat name;
        c_mount ("/fs" ++ PATH_BLOB) DISK_FORMAT_BLOBFS default_mount_options
                launch_blobfs;
        c_open "/fs/blob"; c_channel_create;
        c_devmgr_launch_cmdline "pkgfs" cmd;
        completion_wait; c_installer "/pkgfs"; c_channel_create;
        c_fdio_open_at "system"; c_installer "/system"; c_fuchsia_start]) /\
  blob_mounted (statics_of r) = true /\
  data_mounted (statics_of r) = data_mounted st /\
  install_mounted (statics_of r) = install_mounted st /\
  fat_counter (statics_of r) = fat_counter st /\
  forall events,
    mounts_at ("/fs" ++ PATH_BLOB) DISK_FORMAT_BLOBFS
              (trace_of (fdio_watch_directory (handle_arrival cfg) events
                                              (statics_of r)))
    = 0%nat.
Proof.
  intros Hdev Hoff Hb Hm Hcmd Hopen Hch Hl Hready Hi1 Hch2 Hoa Hi2 r.
  assert (Hr : r = (ZX_OK, set_blob_mounted true st,
       [c_openat name;
        c_mount ("/fs" ++ PATH_BLOB) DISK_FORMAT_BLOBFS default_mount_options
                launch_blobfs;
        c_open "/fs/blob"; c_channel_create;
        c_devmgr_launch_cmdline "pkgfs" cmd;
        completion_wait; c_installer "/pkgfs"; c_channel_create;
        c_fdio_open_at "system"; c_installer "/system"; c_fuchsia_start])).
  { subst r.
    unfold ready in Hready. apply andb_true_iff in Hready.
    destruct Hready as [Hwait Hsig]. apply negb_true_iff in Hsig.
    rewrite (blob_branch cfg w name st Hdev).
    unfold fshost_fsck, mount, launch_blob_init, pkgfs_launch, pkgfs_finish,
      completion_wait.
    rewrite Hoff, Hcmd. cbn [negb]. mred. cbn [is_ok negb]. mred.
    rewrite Hb. mred.
    rewrite Hm. cbn [is_ok negb]. mred.
    rewrite Hopen. mred. rewrite Hch. cbn [is_ok negb]. mred.
    rewrite Hl. cbn [is_ok negb]. mred.
    rewrite Hwait. mred. rewrite Hsig. mred.
    rewrite Hi1. cbn [is_ok negb]. mred.
    rewrite Hch2. cbn [is_ok negb]. mred.
    rewrite Hoa. cbn [is_ok negb]. mred.
    rewrite Hi2. cbn [is_ok negb]. mred.
    reflexivity. }
  rewrite Hr. cbn [statics_of fst snd].
  repeat split; try reflexivity.
  intros events. apply blob_latch_closes. reflexivity.
Qed.

End EndToEnd.

(* ===================================================================== *)
(** ** The resolver and the load callback: results and resources *)
(* ===================================================================== *)

Module LdsvcMore.
Import Ldsvc LaunchLoad.

Lemma load_blob_long env ctx prefix name :
  (256 <= String.length (key_prefix ++ prefix ++ name))%nat ->
  pkgfs_ldsvc_load_blob env ctx prefix name = (ZX_ERR_BAD_PATH, None, []).
Proof.
  intros Hlong. unfold pkgfs_ldsvc_load_blob, snprintf.
  destruct (key_size <=? _) eqn:Hle; [reflexivity|].
  apply Z.leb_gt in Hle. unfold key_size in Hle. lia.
Qed.

Lemma vmo_iff_ok env ctx prefix name :
  is_some (vmo_of (pkgfs_ldsvc_load_blob env ctx prefix name))
  = is_ok (status_of (pkgfs_ldsvc_load_blob env ctx prefix name)).
Proof.
  unfold pkgfs_ldsvc_load_blob.
  destruct (snprintf _ _) as [key n].
  destruct (key_size <=? n); [reflexivity|].
  destruct (getenv env key) as [blob|]; [|reflexivity].
  destruct (ctx blob) as [f|]; [|reflexivity].
  cbv zeta. now destruct (is_ok (file_vmo_clone f)) eqn:E; cbn; rewrite ?E.
Qed.

(** X12: for every name, the resolver hands back a VMO exactly when it
    answers [ZX_OK], and that VMO then holds the content of the blob that
    the boot configuration names for the key and carries the key as its
    name.  Any other answer is the bad-path error, "not found", or the
    failure of the clone.  It looks up at most one key and opens at most
    one blob, and it closes the descriptor of every blob it opened,
    whether the clone worked or not. *)
Theorem X12_resolver_results env ctx prefix name :
  let key := (key_prefix ++ prefix ++ name)%string in
  let r := pkgfs_ldsvc_load_blob env ctx prefix name in
  is_some (vmo_of r) = is_ok (status_of r) /\
  (forall v,
      vmo_of r = Some v ->
      exists blob f,
        getenv env key = Some blob /\ ctx blob = Some f /\
        vmo_content v = file_content f /\ vmo_name v = key) /\
  (status_of r = ZX_ERR_BAD_PATH \/ status_of r = ZX_ERR_NOT_FOUND \/
   exists blob f,
     getenv env key = Some blob /\ ctx blob = Some f /\
     status_of r = file_vmo_clone f) /\
  (List.length (consulted (io_of r)) <= 1)%nat /\
  (List.length (opened (io_of r)) <= 1)%nat /\
  closed (io_of r) = filter (fun b => is_some (ctx b)) (opened (io_of r)).
Proof.
  cbv zeta.
  destruct (Nat.lt_ge_cases (String.length (key_prefix ++ prefix ++ name))
                            256) as [Hfit | Hlong].
  - rewrite (LdsvcFacts.load_blob_key env ctx prefix name Hfit). cbv zeta.
    destruct (getenv env (key_prefix ++ prefix ++ name)) as [blob|] eqn:Hg.
    + destruct (ctx blob) as [f|] eqn:Hc.
      * destruct (is_ok (file_vmo_clone f)) eqn:Hok;
          cbn [status_of vmo_of io_of fst snd is_some consulted opened closed
               filter List.length];
          rewrite ?Hc, ?Hok; cbn [is_some];
          repeat split; try lia; try discriminate; eauto 10.
        intros v Hv. injection Hv as <-. eauto 10.
      * cbn [status_of vmo_of io_of fst snd is_some consulted opened closed
             filter List.length is_ok];
          rewrite ?Hc; cbn [is_some];
          repeat split; try lia; try discriminate; auto.
    + cbn; repeat split; try lia; try discriminate; auto.
  - rewrite (load_blob_long env ctx prefix name Hlong).
    cbn; repeat split; try lia; try discriminate; auto.
Qed.

Lemma count_app p t1 t2 :
  count p (t1 ++ t2) = (count p t1 + count p t2)%nat.
Proof. unfold count. now rewrite filter_app, length_app. Qed.

Lemma count_resolve p l :
  (forall i, p (l_resolve i) = false) -> count p (map l_resolve l) = 0%nat.
Proof.
  intros Hp. unfold count.
  induction l as [|i l IH]; cbn [map filter]; [reflexivity|].
  now rewrite Hp.
Qed.

Lemma skip_slashes_slashes n file :
  skip_slashes (slashes n file) = skip_slashes file.
Proof. induction n as [|n IH]; [reflexivity | exact IH]. Qed.

(** X13: the load callback of the primary launch consumes [fs_blob_fd]
    exactly once on every path: it closes it itself when the file is not
    resolved or the loader service cannot be created, and otherwise the
    created service holds it.  A service is created only for a resolved
    file; the VMO of a resolved file is handed to the launchpad when the
    callback answers [ZX_OK] and closed otherwise, never both and never
    neither.  The callback answers [ZX_OK] exactly when the file is
    resolved and the service is created and connected, and leading slashes
    of the file name, however many, make no difference. *)
Theorem X13_launch_load_resources env ctx ls file :
  let r := pkgfs_launch_load env ctx ls file in
  let found := is_ok (status_of (lookup env ctx file)) in
  (count is_close_fd (snd r) + b2n (found && is_ok (ls_create ls)) = 1)%nat /\
  count is_service_create (snd r) = b2n found /\
  (count is_vmo_load (snd r) + count is_vmo_close (snd r) = b2n found)%nat /\
  count is_vmo_load (snd r) = b2n (is_ok (fst r)) /\
  is_ok (fst r) = found && is_ok (ls_create ls) && is_ok (ls_connect ls) /\
  (is_ok (fst r) = true ->
   In (l_load_from_vmo (vmo_of (lookup env ctx file))) (snd r) /\
   is_some (vmo_of (lookup env ctx file)) = true) /\
  forall n, pkgfs_launch_load env ctx ls (slashes n file) = r.
Proof.
  cbv zeta.
  assert (Hslash : forall n,
             pkgfs_launch_load env ctx ls (slashes n file)
             = pkgfs_launch_load env ctx ls file).
  { intros n. unfold pkgfs_launch_load. now rewrite skip_slashes_slashes. }
  pose proof (vmo_iff_ok env ctx "" (skip_slashes file)) as Hvmo.
  refine (conj _ (conj _ (conj _ (conj _ (conj _ (conj _ Hslash))))));
    clear Hslash;
    unfold pkgfs_launch_load, pkgfs_ldsvc_start, lookup in *;
    destruct (is_ok (status_of (pkgfs_ldsvc_load_blob env ctx ""
                                                      (skip_slashes file))))
      eqn:Hfound;
    destruct (is_ok (ls_create ls)) eqn:Hc;
    destruct (is_ok (ls_connect ls)) eqn:Hn;
    repeat (progress (cbn [negb andb b2n fst snd];
                      rewrite ?Hfound, ?Hc, ?Hn));
    rewrite ?count_app, ?count_resolve by reflexivity;
    try reflexivity; try discriminate.
  intros _. split; [ | exact Hvmo].
  do 2 (apply in_or_app; right). right. left. reflexivity.
Qed.

End LdsvcMore.

(* ===================================================================== *)
(** ** Where and in which order volumes are mounted *)
(* ===================================================================== *)

Section Targets.

Context {hdr : Headers}.
Variable cfg : config.

(** X14: FAT volumes are numbered consecutively in arrival order: the
    mount points of the FAT mounts of a run are, in order, the paths
    printed from the counter value before the run, that value plus one,
    and so on (while the [int] counter stays in range). *)
Theorem X14_fat_volumes_are_numbered events st :
  0 <= fat_counter st ->
  let r := fdio_watch_directory (handle_arrival cfg) events st in
  let k := List.length (fat_paths (trace_of r)) in
  fat_counter st + Z.of_nat k < 2 ^ 31 ->
  fat_paths (trace_of r)
  = map (fun i => fat_mountpath (fat_counter st + Z.of_nat i)) (seq 0 k).
Proof.
  intros Hc r k Hr. subst k r. unfold fat_paths in *.
  pose (fatp := fun ms : list (string * disk_format_t) =>
                  map fst (filter (fun m => disk_format_eqb DISK_FORMAT_FAT
                                                            (snd m)) ms)).
  assert (Happ : forall m1 m2, fatp (m1 ++ m2) = fatp m1 ++ fatp m2)
    by (intros; unfold fatp; now rewrite filter_app, map_app).
  refine (proj2 (run_invariant cfg
    (fun s s' ms =>
       0 <= fat_counter s ->
       fat_counter s + Z.of_nat (List.length (fatp ms)) < 2 ^ 31 ->
       fat_counter s' = fat_counter s + Z.of_nat (List.length (fatp ms)) /\
       fatp ms
       = map (fun i => fat_mountpath (fat_counter s + Z.of_nat i))
             (seq 0 (List.length (fatp ms)))) _ _ events st Hc Hr)).
  - intros s _ _. cbn. split; [lia | reflexivity].
  - intros w s1 s2 s3 m1 m2 Hstep IH Hc1 Hr1.
    rewrite Happ in *. rewrite length_app in *.
    inversion Hstep; subst;
      cbn [fatp filter map snd fst disk_format_eqb app List.length
           set_data_mounted set_install_mounted set_blob_mounted
           set_fat_counter fat_counter] in *;
      try (apply IH; assumption).
    assert (Hw : int_wrap (fat_counter s1 + 1) = fat_counter s1 + 1)
      by (apply int_wrap_small; lia).
    rewrite Hw in IH.
    destruct IH as (Hc3 & Hpaths); [lia | lia |].
    split; [lia|].
    change (1 + List.length (fatp m2))%nat with (S (List.length (fatp m2))).
    cbn [seq map]. f_equal; [f_equal; lia|].
    rewrite Hpaths at 1. rewrite <- seq_shift, map_map.
    apply map_ext. intros i. f_equal. lia.
Qed.

(** X15: a run of the watcher never mounts anywhere but at the system,
    data and install roots (as MINFS), at the blob root (as BLOBFS) and at
    FAT mount points printed from the counter (as FAT). *)
Theorem X15_mount_targets events st :
  Forall
    (fun m =>
       m = (("/fs" ++ PATH_SYSTEM)%string, DISK_FORMAT_MINFS) \/
       m = (("/fs" ++ PATH_DATA)%string, DISK_FORMAT_MINFS) \/
       m = (("/fs" ++ PATH_INSTALL)%string, DISK_FORMAT_MINFS) \/
       m = (("/fs" ++ PATH_BLOB)%string, DISK_FORMAT_BLOBFS) \/
       exists n, m = (fat_mountpath n, DISK_FORMAT_FAT))
    (mount_calls
       (trace_of (fdio_watch_directory (handle_arrival cfg) events st))).
Proof.
  apply (run_invariant cfg
    (fun _ _ ms =>
       Forall
         (fun m =>
            m = (("/fs" ++ PATH_SYSTEM)%string, DISK_FORMAT_MINFS) \/
            m = (("/fs" ++ PATH_DATA)%string, DISK_FORMAT_MINFS) \/
            m = (("/fs" ++ PATH_INSTALL)%string, DISK_FORMAT_MINFS) \/
            m = (("/fs" ++ PATH_BLOB)%string, DISK_FORMAT_BLOBFS) \/
            exists n, m = (fat_mountpath n, DISK_FORMAT_FAT)) ms)).
  - intros _. constructor.
  - intros w s1 s2 s3 m1 m2 Hstep IH. apply Forall_app. split; [|exact IH].
    inversion Hstep; subst; try apply Forall_nil;
      (apply Forall_cons; [|apply Forall_nil]); eauto 10.
Qed.

End Targets.

(* ===================================================================== *)
(** ** Concrete runs, on the reference instance *)
(* ===================================================================== *)

#[local] Existing Instance Zircon.headers.

Lemma C1_data_install_mount_once_witness :
  (mounts_at ("/fs" ++ PATH_DATA) DISK_FORMAT_MINFS
     (trace_of
        (fdio_watch_directory
           (handle_arrival Zircon.plain)
           [Zircon.added "sda"
              (Zircon.device DISK_FORMAT_MINFS (guid_ok Zircon.GUID_DATA)
                             ZX_ERR_IO 0);
            Zircon.added "sdb"
              (Zircon.device DISK_FORMAT_MINFS (guid_ok Zircon.GUID_DATA)
                             ZX_OK 0)]
           statics_init)) <= 1)%nat.
Proof.
  apply (C1_data_install_mount_once
           Zircon.plain
           [Zircon.added "sda"
              (Zircon.device DISK_FORMAT_MINFS (guid_ok Zircon.GUID_DATA)
                             ZX_ERR_IO 0);
            Zircon.added "sdb"
              (Zircon.device DISK_FORMAT_MINFS (guid_ok Zircon.GUID_DATA)
                             ZX_OK 0)]
           statics_init); discriminate.
Defined.

(** C1, as stated, fails for the system role, which has no latch: with
    any system partition accepted, two devices of the system role are
    both mounted at the system root, the second after the first mount
    failed. *)
Lemma C1_counterexample :
  mounts_at ("/fs" ++ PATH_SYSTEM) DISK_FORMAT_MINFS
    (snd (block_device_watcher
            false [("zircon.system.volume", "any")] true
            [Zircon.added "sda"
               (Zircon.device DISK_FORMAT_MINFS (guid_ok Zircon.GUID_SYSTEM)
                              ZX_ERR_IO 0);
             Zircon.added "sdb"
               (Zircon.device DISK_FORMAT_MINFS (guid_ok Zircon.GUID_SYSTEM)
                              ZX_OK 0)]))
  = 2%nat.
Proof. vm_compute. reflexivity. Qed.

Lemma C2_blob_latch_after_success_witness :
  mounts_at ("/fs" ++ PATH_BLOB) DISK_FORMAT_BLOBFS
    (trace_of
       (block_device_added
          Scenes.pkgsvr
          (Zircon.device DISK_FORMAT_BLOBFS (guid_ok Zircon.GUID_BLOB) ZX_OK 0)
          WATCH_EVENT_ADD_FILE "sdb"
          (statics_of
             (block_device_added
                Scenes.pkgsvr
                (Zircon.device DISK_FORMAT_BLOBFS (guid_ok Zircon.GUID_BLOB)
                               ZX_ERR_IO 0)
                WATCH_EVENT_ADD_FILE "sda" statics_init))))
  = 1%nat /\
  blob_mounted
    (statics_of
       (block_device_added
          Scenes.pkgsvr
          (Zircon.device DISK_FORMAT_BLOBFS (guid_ok Zircon.GUID_BLOB) ZX_OK 0)
          WATCH_EVENT_ADD_FILE "sdb"
          (statics_of
             (block_device_added
                Scenes.pkgsvr
                (Zircon.device DISK_FORMAT_BLOBFS (guid_ok Zircon.GUID_BLOB)
                               ZX_ERR_IO 0)
                WATCH_EVENT_ADD_FILE "sda" statics_init))))
  = true.
Proof.
  destruct (C2_blob_latch_after_success Scenes.pkgsvr) as (_ & _ & _ & Hseq).
  destruct (Hseq (Zircon.device DISK_FORMAT_BLOBFS (guid_ok Zircon.GUID_BLOB)
                                ZX_ERR_IO 0)
                 "sda" statics_init eq_refl eq_refl eq_refl) as [_ Hfail].
  assert (Hio : ZX_ERR_IO <> ZX_OK) by discriminate.
  destruct (Hfail Hio
                  (Zircon.device DISK_FORMAT_BLOBFS (guid_ok Zircon.GUID_BLOB)
                                 ZX_OK 0)
                  "sdb" eq_refl eq_refl) as [Hm Hok].
  split; [exact Hm | exact (proj1 (Hok eq_refl))].
Defined.

(** C3, as stated, fails on partition containers: in network-boot mode a
    GPT-formatted device without the install GUID is bound to the GPT
    driver. *)
Lemma C3_counterexample :
  (memcmp (device_guid (Zircon.device DISK_FORMAT_GPT (guid_err 1) ZX_OK 0))
          GUID_INSTALL_VALUE (Z.to_nat GPT_GUID_LEN) =? 0) = false /\
  bind_calls
    (trace_of
       (block_device_added
          Zircon.netbooting
          (Zircon.device DISK_FORMAT_GPT (guid_err 1) ZX_OK 0)
          WATCH_EVENT_ADD_FILE "sda" statics_init))
  = [GPT_DRIVER_LIB].
Proof. split; vm_compute; reflexivity. Qed.

Lemma C3_netboot_leaves_other_devices_witness :
  trace_of
    (block_device_added
       Zircon.netbooting
       (Zircon.device DISK_FORMAT_MINFS (guid_ok Zircon.GUID_DATA) ZX_OK 0)
       WATCH_EVENT_ADD_FILE "sda" statics_init)
  = [c_openat "sda"; c_close dev_fd].
Proof.
  apply (C3_netboot_leaves_other_devices
           Zircon.netbooting
           (Zircon.device DISK_FORMAT_MINFS (guid_ok Zircon.GUID_DATA) ZX_OK 0)
           "sda" statics_init); [reflexivity | reflexivity |].
  vm_compute. discriminate.
Defined.

(** C4 fails on the code: when [mount_minfs] returns early, the handler
    returns with the device descriptor neither closed nor handed to
    [mount].  Three such runs: a MINFS device without a type GUID (invalid
    arguments), a system partition no policy accepts (bad state), a second
    data partition (already bound); and a blob device arriving after the
    blob volume is mounted is not closed either. *)
Theorem C4_early_return_keeps_descriptor_open :
  (result_of (mount_minfs
                Zircon.plain
                (Zircon.device DISK_FORMAT_MINFS (guid_err 1) ZX_OK 0)
                default_mount_options statics_init) = ZX_ERR_INVALID_ARGS /\
   trace_of (block_device_added
               Zircon.plain
               (Zircon.device DISK_FORMAT_MINFS (guid_err 1) ZX_OK 0)
               WATCH_EVENT_ADD_FILE "sda" statics_init)
   = [c_openat "sda"] /\
   dev_fd_released
     (trace_of (block_device_added
                  Zircon.plain
                  (Zircon.device DISK_FORMAT_MINFS (guid_err 1) ZX_OK 0)
                  WATCH_EVENT_ADD_FILE "sda" statics_init)) = false) /\
  (result_of (mount_minfs
                Zircon.plain
                (Zircon.device DISK_FORMAT_MINFS
                               (guid_ok Zircon.GUID_SYSTEM) ZX_OK 0)
                default_mount_options statics_init) = ZX_ERR_BAD_STATE /\
   dev_fd_released
     (trace_of (block_device_added
                  Zircon.plain
                  (Zircon.device DISK_FORMAT_MINFS
                                 (guid_ok Zircon.GUID_SYSTEM) ZX_OK 0)
                  WATCH_EVENT_ADD_FILE "sda" statics_init)) = false) /\
  (result_of (mount_minfs
                Zircon.plain
                (Zircon.device DISK_FORMAT_MINFS
                               (guid_ok Zircon.GUID_DATA) ZX_OK 0)
                default_mount_options
                (set_data_mounted true statics_init)) = ZX_ERR_ALREADY_BOUND /\
   dev_fd_released
     (trace_of (block_device_added
                  Zircon.plain
                  (Zircon.device DISK_FORMAT_MINFS
                                 (guid_ok Zircon.GUID_DATA) ZX_OK 0)
                  WATCH_EVENT_ADD_FILE "sdb"
                  (set_data_mounted true statics_init))) = false) /\
  dev_fd_released
    (trace_of (block_device_added
                 Zircon.plain
                 (Zircon.device DISK_FORMAT_BLOBFS
                                (guid_ok Zircon.GUID_BLOB) ZX_OK 0)
                 WATCH_EVENT_ADD_FILE "sdb"
                 (set_blob_mounted true statics_init))) = false.
Proof. repeat split; vm_compute; reflexivity. Qed.

Lemma C5_integrity_check_gate_witness :
  mount_calls
    (trace_of
       (block_device_added
          Zircon.checking
          (Zircon.device DISK_FORMAT_MINFS (guid_ok Zircon.GUID_DATA) ZX_OK 1)
          WATCH_EVENT_ADD_FILE "sda" statics_init))
  = [] /\
  fshost_fsck Zircon.plain
              (Zircon.device DISK_FORMAT_MINFS (guid_ok Zircon.GUID_DATA)
                             ZX_OK 1)
              "/dev/class/block/sda" DISK_FORMAT_MINFS statics_init
  = (ZX_OK, statics_init, []).
Proof.
  split.
  - destruct (C5_integrity_check_gate
                Zircon.checking
                (Zircon.device DISK_FORMAT_MINFS (guid_ok Zircon.GUID_DATA)
                               ZX_OK 1)
                "sda" statics_init) as [_ Hon].
    destruct (Hon eq_refl eq_refl) as [_ Hdev].
    destruct (Hdev eq_refl eq_refl eq_refl (or_introl eq_refl))
      as (_ & _ & Hm & _).
    exact Hm.
  - destruct (C5_integrity_check_gate
                Zircon.plain
                (Zircon.device DISK_FORMAT_MINFS (guid_ok Zircon.GUID_DATA)
                               ZX_OK 1)
                "sda" statics_init) as [Hoff _].
    exact (Hoff eq_refl "/dev/class/block/sda" DISK_FORMAT_MINFS).
Defined.

(** C6, as stated, fails when a step between the two installations
    fails: pkgfs raised its ready signal in time and no installer fails,
    yet without a channel for the sub-view "/system" is never installed
    and the dependent services are not started. *)
Lemma C6_counterexample :
  ready Zircon.no_channel = true /\
  w_installer Zircon.no_channel "/pkgfs" = ZX_OK /\
  w_installer Zircon.no_channel "/system" = ZX_OK /\
  installer_calls (trace_of (pkgfs_finish Zircon.no_channel statics_init))
  = ["/pkgfs"] /\
  started (trace_of (pkgfs_finish Zircon.no_channel statics_init)) = false.
Proof. repeat split; vm_compute; reflexivity. Qed.

Lemma C6_bootstrap_completion_witness :
  trace_of (pkgfs_finish
              (Zircon.device DISK_FORMAT_BLOBFS (guid_ok Zircon.GUID_BLOB)
                             ZX_OK 0)
              statics_init)
  = [completion_wait; c_installer "/pkgfs"; c_channel_create;
     c_fdio_open_at "system"; c_installer "/system"; c_fuchsia_start].
Proof.
  destruct (C6_bootstrap_completion
              (Zircon.device DISK_FORMAT_BLOBFS (guid_ok Zircon.GUID_BLOB)
                             ZX_OK 0)
              statics_init) as (_ & _ & _ & Hready & _).
  exact (Hready eq_refl eq_refl eq_refl eq_refl eq_refl).
Defined.

(** C8, as stated, fails in network-boot mode: a FAT-formatted device
    without a type GUID, which the EFI classifier rejects, is closed
    without a mount call. *)
Lemma C8_counterexample :
  fat_is_efi (Zircon.device DISK_FORMAT_FAT (guid_err 1) ZX_OK 0) = false /\
  trace_of
    (block_device_added
       Zircon.netbooting
       (Zircon.device DISK_FORMAT_FAT (guid_err 1) ZX_OK 0)
       WATCH_EVENT_ADD_FILE "sda" statics_init)
  = [c_openat "sda"; c_close dev_fd].
Proof. split; vm_compute; reflexivity. Qed.

Lemma C8_fat_mount_points_witness :
  NoDup
    (fat_paths
       (trace_of
          (fdio_watch_directory
             (handle_arrival Zircon.plain)
             [Zircon.added "sda"
                (Zircon.device DISK_FORMAT_FAT (guid_err 1) ZX_OK 0);
              Zircon.added "sdb"
                (Zircon.device DISK_FORMAT_FAT (guid_ok Zircon.GUID_DATA)
                               ZX_OK 0)]
             statics_init))) /\
  trace_of
    (block_device_added
       Zircon.plain
       (Zircon.device DISK_FORMAT_FAT (guid_ok Zircon.GUID_EFI) ZX_OK 0)
       WATCH_EVENT_ADD_FILE "sdc" statics_init)
  = [c_openat "sdc"; c_close dev_fd].
Proof.
  destruct (C8_fat_mount_points Zircon.plain) as (_ & Hdev & Hrun).
  split.
  - apply (Hrun [Zircon.added "sda"
                   (Zircon.device DISK_FORMAT_FAT (guid_err 1) ZX_OK 0);
                 Zircon.added "sdb"
                   (Zircon.device DISK_FORMAT_FAT (guid_ok Zircon.GUID_DATA)
                                  ZX_OK 0)]
                statics_init).
    + unfold mountpath_fits. vm_compute. reflexivity.
    + vm_compute. discriminate.
    + vm_compute. reflexivity.
  - exact (proj1 (Hdev (Zircon.device DISK_FORMAT_FAT
                                      (guid_ok Zircon.GUID_EFI) ZX_OK 0)
                       "sdc" statics_init eq_refl)).
Defined.

(** C9, as stated, fails when the primary path is configured but does not
    launch: with both mechanisms configured and a primary command that
    fails to launch, the primary launch and the legacy launch are both
    made in one bootstrap attempt; likewise when the blob directory cannot
    be opened. *)
Lemma C9_counterexample :
  getenv (boot_env Zircon.both_bootstraps) "zircon.system.pkgfs.cmd"
  = Some "pkgsvr" /\
  existsb is_primary_launch
          (trace_of (launch_blob_init Zircon.both_bootstraps
                                      Zircon.cmdline_fails statics_init))
  = true /\
  existsb is_legacy_launch
          (trace_of (launch_blob_init Zircon.both_bootstraps
                                      Zircon.cmdline_fails statics_init))
  = true /\
  existsb is_legacy_launch
          (trace_of (launch_blob_init Zircon.both_bootstraps
                                      Zircon.no_blob_dir statics_init))
  = true.
Proof. repeat split; vm_compute; reflexivity. Qed.

Lemma C9_legacy_fallback_witness :
  trace_of (launch_blob_init Zircon.legacy_only
                             Zircon.no_blob_dir statics_init)
  = trace_of (old_launch_blob_init Zircon.legacy_only
                                   Zircon.no_blob_dir statics_init).
Proof.
  destruct (C9_legacy_fallback Zircon.legacy_only Zircon.no_blob_dir
                               statics_init) as (_ & _ & _ & Hcmd & _).
  exact (proj2 (Hcmd eq_refl)).
Defined.

Lemma X1_partition_containers_are_bound_witness :
  block_device_added Zircon.netbooting (Scenes.bootpart DISK_FORMAT_MINFS)
                     WATCH_EVENT_ADD_FILE "sda" statics_init
  = (ZX_OK, statics_init,
     [c_openat "sda"; c_ioctl_device_bind BOOTPART_DRIVER_LIB;
      c_close dev_fd]).
Proof.
  apply (proj1 (X1_partition_containers_are_bound
                  Zircon.netbooting (Scenes.bootpart DISK_FORMAT_MINFS)
                  "sda" statics_init eq_refl)).
  reflexivity.
Defined.

Lemma X5_system_partition_policy_witness :
  started
    (trace_of
       (mount_minfs Scenes.any_volume
                    (Zircon.device DISK_FORMAT_MINFS
                                   (guid_ok Zircon.GUID_SYSTEM) ZX_OK 0)
                    default_mount_options statics_init))
  = true.
Proof.
  destruct (X5_system_partition_policy
              (hdr := Zircon.headers) Scenes.any_volume
              (Zircon.device DISK_FORMAT_MINFS (guid_ok Zircon.GUID_SYSTEM)
                             ZX_OK 0)
              default_mount_options statics_init eq_refl)
    as (_ & Hacc & _).
  destruct (Hacc eq_refl) as (_ & _ & _ & Hstart). exact Hstart.
Defined.

Lemma X9_netboot_runs_witness :
  fsck_launches
    (trace_of
       (fdio_watch_directory
          (handle_arrival Zircon.netbooting)
          [Zircon.added "sda"
             (Zircon.device DISK_FORMAT_MINFS (guid_ok Zircon.GUID_INSTALL)
                            ZX_OK 0);
           Zircon.added "sdb"
             (Zircon.device DISK_FORMAT_BLOBFS (guid_ok Zircon.GUID_BLOB)
                            ZX_OK 0)]
          statics_init))
  = 0%nat.
Proof.
  apply (X9_netboot_runs
           (hdr := Zircon.headers) Zircon.netbooting
           [Zircon.added "sda"
              (Zircon.device DISK_FORMAT_MINFS (guid_ok Zircon.GUID_INSTALL)
                             ZX_OK 0);
            Zircon.added "sdb"
              (Zircon.device DISK_FORMAT_BLOBFS (guid_ok Zircon.GUID_BLOB)
                             ZX_OK 0)]
           statics_init eq_refl).
Defined.

Lemma X11_blob_volume_to_system_root_witness :
  block_device_added
    Scenes.pkgsvr
    (Zircon.device DISK_FORMAT_BLOBFS (guid_ok Zircon.GUID_BLOB) ZX_OK 0)
    WATCH_EVENT_ADD_FILE "sda" statics_init
  = (ZX_OK, set_blob_mounted true statics_init,
     [c_openat "sda";
      c_mount ("/fs" ++ PATH_BLOB) DISK_FORMAT_BLOBFS default_mount_options
              launch_blobfs;
      c_open "/fs/blob"; c_channel_create;
      c_devmgr_launch_cmdline "pkgfs" "pkgsvr";
      completion_wait; c_installer "/pkgfs"; c_channel_create;
      c_fdio_open_at "system"; c_installer "/system"; c_fuchsia_start]) /\
  blob_mounted
    (statics_of
       (block_device_added
          Scenes.pkgsvr
          (Zircon.device DISK_FORMAT_BLOBFS (guid_ok Zircon.GUID_BLOB) ZX_OK 0)
          WATCH_EVENT_ADD_FILE "sda" statics_init))
  = true.
Proof.
  destruct (X11_blob_volume_to_system_root
              (hdr := Zircon.headers) Scenes.pkgsvr
              (Zircon.device DISK_FORMAT_BLOBFS (guid_ok Zircon.GUID_BLOB)
                             ZX_OK 0)
              "sda" statics_init "pkgsvr"
              eq_refl eq_refl eq_refl eq_refl eq_refl eq_refl eq_refl
              eq_refl eq_refl eq_refl eq_refl eq_refl eq_refl)
    as (Hr & Hb & _).
  split; [exact Hr | exact Hb].
Defined.

Lemma X14_fat_volumes_are_numbered_witness :
  fat_paths
    (trace_of
       (fdio_watch_directory
          (handle_arrival Zircon.plain)
          [Zircon.added "sda"
             (Zircon.device DISK_FORMAT_FAT (guid_err 1) ZX_OK 0);
           Zircon.added "sdb"
             (Zircon.device DISK_FORMAT_FAT (guid_ok Zircon.GUID_EFI)
                            ZX_OK 0);
           Zircon.added "sdc"
             (Zircon.device DISK_FORMAT_FAT (guid_ok Zircon.GUID_DATA)
                            ZX_OK 0)]
          statics_init))
  = [fat_mountpath 0; fat_mountpath 1].
Proof.
  refine (eq_trans
            (X14_fat_volumes_are_numbered
               (hdr := Zircon.headers) Zircon.plain
               [Zircon.added "sda"
                  (Zircon.device DISK_FORMAT_FAT (guid_err 1) ZX_OK 0);
                Zircon.added "sdb"
                  (Zircon.device DISK_FORMAT_FAT (guid_ok Zircon.GUID_EFI)
                                 ZX_OK 0);
                Zircon.added "sdc"
                  (Zircon.device DISK_FORMAT_FAT (guid_ok Zircon.GUID_DATA)
                                 ZX_OK 0)]
               statics_init _ _) _).
  - vm_compute. discriminate.
  - vm_compute. reflexivity.
  - vm_compute. reflexivity.
Defined.
